(** * axscale: joystick axis range calibration (detect / load)

    A shallow embedding of [axscale.c].  The program keeps a fixed array
    [axes_ranges] of per-axis {present, min, max} records.  [detect] fills it
    from the live event stream until SIGINT is delivered and then prints one
    line per present axis; [load] reads those lines back with [fscanf] and
    pushes the ranges onto the device handle.

    The C library is modelled as far as the program observes it: a [FILE] is
    the unread characters plus the end-of-file indicator, [fscanf] and
    [fprintf] interpret the format string of the source, and the libevdev
    handle is the set of event bits plus the per-axis [input_absinfo]. *)

From Stdlib Require Import ZArith Lia Ascii String.
From stdpp Require Import base tactics option list list_numbers gmap.

Local Open Scope Z_scope.

(** ** Constants of the included headers *)

(** [ABS_X], [ABS_RZ] and [EV_ABS] are not defined in [axscale.c]: they come
    from the kernel header [linux/input-event-codes.h], which [libevdev.h]
    includes.  That header fixes [EV_ABS = 0x03], [ABS_X = 0x00] and
    [ABS_RZ = 0x05] (the codes in between are ABS_Y, ABS_Z, ABS_RX, ABS_RY). *)
Definition EV_ABS : Z := 3.
Definition ABS_X : Z := 0.
Definition ABS_RZ : Z := 5.

(** [USHRT_MAX] of [limits.h]; [EOF] of [stdio.h]. *)
Definition USHRT_MAX : Z := 65535.
Definition EOF : Z := -1.

Definition AXIS_A : Z := ABS_X.
Definition AXIS_Z : Z := ABS_RZ.
Definition AXIS_COUNT : Z := AXIS_Z - AXIS_A + 1.

(** ** Machine integers *)

(** [unsigned int] and [int] are 32 bits wide; a conversion to [unsigned int]
    reduces modulo 2^32, a conversion to [int] wraps into the signed range. *)
Definition to_uint32 (z : Z) : Z := z mod 2 ^ 32.
Definition to_int32 (z : Z) : Z := (z + 2 ^ 31) mod 2 ^ 32 - 2 ^ 31.

Definition is_uint32 (z : Z) : Prop := 0 <= z < 2 ^ 32.
Definition is_int32 (z : Z) : Prop := - 2 ^ 31 <= z < 2 ^ 31.

(** ** The axis table *)

Record axis_range := mk_axis_range {
  present : bool;
  min : Z;   (* unsigned int *)
  max : Z    (* unsigned int *)
}.

(** [axis_range axes_ranges[AXIS_COUNT] = {0}] *)
Definition zero_range : axis_range :=
  {| present := false; min := 0; max := 0 |}.

Definition zero_table : list axis_range :=
  replicate (Z.to_nat AXIS_COUNT) zero_range.

#[global] Instance axis_range_inhabited : Inhabited axis_range :=
  populate zero_range.

(** The values of [axis] in [for (axis = AXIS_A; axis <= AXIS_Z; axis++)]. *)
Definition axis_codes : list Z := seqZ AXIS_A AXIS_COUNT.

(** [axes_ranges[i]] where [i] is produced by a loop or a guard of the source
    that keeps it inside the array. *)
Definition range_at (tbl : list axis_range) (i : Z) : axis_range :=
  tbl !!! Z.to_nat i.

Definition set_range (tbl : list axis_range) (i : Z) (r : axis_range)
  : list axis_range :=
  <[Z.to_nat i := r]> tbl.

(** [&axes_ranges[i]] followed by stores through the pointer, for an index
    that nothing in the source bounds: outside the array the access is
    undefined, which the model reports as [None]. *)
Definition store_range (tbl : list axis_range) (i : Z) (r : axis_range)
  : option (list axis_range) :=
  if bool_decide (0 <= i < Z.of_nat (length tbl))
  then Some (set_range tbl i r)
  else None.

(** ** Characters *)

Definition char_code (c : ascii) : Z := Z.of_N (N_of_ascii c).

(** [isspace] in the C locale: space, \t, \n, \v, \f, \r. *)
Definition isspace (c : ascii) : bool :=
  (char_code c =? 32) || ((9 <=? char_code c) && (char_code c <=? 13)).

Definition isdigit (c : ascii) : bool :=
  (48 <=? char_code c) && (char_code c <=? 57).

Definition digit_value (c : ascii) : Z := char_code c - 48.

Definition digit_char (d : Z) : ascii := ascii_of_N (Z.to_N (48 + d)).

Definition newline : ascii := ascii_of_N 10.

(** ** Decimal output, as [%d] and [%u] print it *)

Fixpoint decimal_digits (fuel : nat) (n : Z) : list ascii :=
  match fuel with
  | O => []
  | S fuel' =>
      if n <? 10 then [digit_char n]
      else decimal_digits fuel' (n / 10) ++ [digit_char (n mod 10)]
  end.

(** The recursion is bounded by one more than the number of bits of [n],
    which is more than the number of its decimal digits. *)
Definition print_unsigned (n : Z) : list ascii :=
  decimal_digits (S (Z.to_nat (Z.log2_up (n + 1)))) n.

Definition print_signed (n : Z) : list ascii :=
  if n <? 0 then "-"%char :: print_unsigned (- n) else print_unsigned n.

(** ** Format strings *)

Inductive directive :=
  | White (c : ascii)      (* a white-space character of the format *)
  | Ordinary (c : ascii)   (* any other character *)
  | Conv_d                 (* %d *)
  | Conv_u.                (* %u *)

Fixpoint parse_format (f : list ascii) : list directive :=
  match f with
  | [] => []
  | c :: f' =>
      if Ascii.eqb c "%" then
        match f' with
        | k :: f'' =>
            if Ascii.eqb k "d" then Conv_d :: parse_format f''
            else if Ascii.eqb k "u" then Conv_u :: parse_format f''
            else Ordinary c :: parse_format f'
        | [] => [Ordinary c]
        end
      else if isspace c then White c :: parse_format f'
      else Ordinary c :: parse_format f'
  end.

(** [#define MAP_FILE_LINE_FORMAT "axis %d: min = %u, max = %u\n"] *)
Definition MAP_FILE_LINE_FORMAT : list ascii :=
  list_ascii_of_string "axis %d: min = %u, max = %u" ++ [newline].

Definition map_line_directives : list directive :=
  Eval vm_compute in parse_format MAP_FILE_LINE_FORMAT.

(** [fprintf]: the characters produced for a directive list and the
    arguments; a conversion without an argument prints nothing. *)
Fixpoint format_output (ds : list directive) (args : list Z) : list ascii :=
  match ds with
  | [] => []
  | White c :: ds' => c :: format_output ds' args
  | Ordinary c :: ds' => c :: format_output ds' args
  | Conv_d :: ds' =>
      match args with
      | a :: args' => print_signed a ++ format_output ds' args'
      | [] => format_output ds' []
      end
  | Conv_u :: ds' =>
      match args with
      | a :: args' => print_unsigned a ++ format_output ds' args'
      | [] => format_output ds' []
      end
  end.

(** The text of [fprintf(fp, MAP_FILE_LINE_FORMAT, axis, range->min, range->max)]. *)
Definition map_line (axis : Z) (r : axis_range) : list ascii :=
  format_output map_line_directives [axis; min r; max r].

(** ** Input streams *)

(** A [FILE] opened for reading: the characters not yet read and the
    end-of-file indicator that [feof] tests.  The indicator is set by a read
    that finds no character left, not by reading the last character.  Read
    errors are left out: the stream has no error indicator, and a read fails
    only because the file has ended. *)
Record FILE := mk_FILE {
  unread : list ascii;
  eof_seen : bool
}.

Definition fopen_r (text : list ascii) : FILE :=
  {| unread := text; eof_seen := false |}.

Definition feof (fp : FILE) : bool := eof_seen fp.

Fixpoint skip_spaces (s : list ascii) : list ascii :=
  match s with
  | c :: s' => if isspace c then skip_spaces s' else s
  | [] => []
  end.

(** The digits at the front of [s], accumulated in base ten onto [acc], and
    what follows them. *)
Fixpoint read_digits (acc : Z) (s : list ascii) : Z * list ascii :=
  match s with
  | c :: s' =>
      if isdigit c then read_digits (10 * acc + digit_value c) s'
      else (acc, s)
  | [] => (acc, [])
  end.

Definition is_nil {A} (l : list A) : bool :=
  match l with [] => true | _ => false end.

(** Reading characters from [fp] until one that does not belong to the item
    (it is pushed back) or until none is left (the indicator is set). *)
Definition after_read (fp : FILE) (rest : list ascii) : FILE :=
  {| unread := rest; eof_seen := eof_seen fp || is_nil rest |}.

(** White space in the format, and before a numeric conversion. *)
Definition eat_white (fp : FILE) : FILE :=
  after_read fp (skip_spaces (unread fp)).

(** The subject sequence of [%d] and [%u]: an optional sign, then digits.
    [None] when there is no digit, that is when [read_digits] has taken
    nothing off [s] (the sign, if any, stays consumed). *)
Definition read_number (fp : FILE) : option (bool * Z) * FILE :=
  let '(neg, s) :=
    match unread fp with
    | c :: s' =>
        if Ascii.eqb c "-" then (true, s')
        else if Ascii.eqb c "+" then (false, s')
        else (false, unread fp)
    | [] => (false, [])
    end in
  let '(mag, rest) := read_digits 0 s in
  if bool_decide (length rest = length s)
  then (None, after_read fp rest)
  else (Some (neg, mag), after_read fp rest).

(** The value glibc stores for the subject sequence on a 64-bit target:
    [strtol] / [strtoul] saturate at the range of [long], and the result is
    cut to the 32 bits of the [int] or [unsigned int] object. *)
Definition strtol_value (neg : bool) (mag : Z) : Z :=
  if neg then Z.max (- 2 ^ 63) (- mag) else Z.min (2 ^ 63 - 1) mag.

Definition strtoul_value (neg : bool) (mag : Z) : Z :=
  if 2 ^ 64 - 1 <? mag then 2 ^ 64 - 1
  else if neg then (- mag) mod 2 ^ 64 else mag.

(** Input failure: [EOF] if no conversion has completed, the count of
    assignments otherwise.  Matching failure: the count. *)
Definition input_error (done : list Z) : Z :=
  if is_nil done then EOF else Z.of_nat (length done).

Definition conv_error (done : list Z) : Z := Z.of_nat (length done).

(** [vfscanf]: runs the directives over [fp]; [done] are the values stored
    so far, in argument order.  The result is the return value of [fscanf],
    the stored values and the stream afterwards. *)
Fixpoint vfscanf (ds : list directive) (fp : FILE) (done : list Z)
  : Z * list Z * FILE :=
  match ds with
  | [] => (Z.of_nat (length done), done, fp)
  | White _ :: ds' => vfscanf ds' (eat_white fp) done
  | Ordinary c :: ds' =>
      match unread fp with
      | [] => (input_error done, done, after_read fp [])
      | x :: rest =>
          if Ascii.eqb x c
          then vfscanf ds' {| unread := rest; eof_seen := eof_seen fp |} done
          else (conv_error done, done, fp)
      end
  | Conv_d :: ds' =>
      let fp1 := eat_white fp in
      if is_nil (unread fp1) then (input_error done, done, fp1)
      else
        match read_number fp1 with
        | (Some (neg, mag), fp2) =>
            vfscanf ds' fp2 (done ++ [to_int32 (strtol_value neg mag)])
        | (None, fp2) => (conv_error done, done, fp2)
        end
  | Conv_u :: ds' =>
      let fp1 := eat_white fp in
      if is_nil (unread fp1) then (input_error done, done, fp1)
      else
        match read_number fp1 with
        | (Some (neg, mag), fp2) =>
            vfscanf ds' fp2 (done ++ [to_uint32 (strtoul_value neg mag)])
        | (None, fp2) => (conv_error done, done, fp2)
        end
  end.

(** [fscanf(fp, MAP_FILE_LINE_FORMAT, &axis, &min, &max)] *)
Definition fscanf_map_line (fp : FILE) : Z * list Z * FILE :=
  vfscanf map_line_directives fp [].

(** ** Diagnostics and outcomes *)

(** The lines the program prints with [eprintln], [perror] and, for the last
    one, [println]; the path and [strerror] text are left out. *)
Inductive message :=
  | MsgOpening                     (* "opening %s: %s" *)
  | MsgReadingLine                 (* "reading line from %s: %s" *)
  | MsgWritingLine                 (* "writing line to %s: %s" *)
  | MsgAxisNotInDevice (axis : Z)  (* "axis %d exists in mapping but not in device" *)
  | MsgInternalError (code : Z)    (* "INTERNAL ERROR: axis %d is marked as non-present but sent events" *)
  | MsgSigprocmask                 (* perror("sigprocmask(SIG_BLOCK)") *)
  | MsgSignalfd                    (* perror("signalfd(SIGINT)") *)
  | MsgPoll                        (* perror("poll") *)
  | MsgReadingEvent                (* "reading next event: %s" *)
  | MsgUnknownPollError.           (* "unknown error while polling" *)

(** How a piece of code with a loop that need not end and an unchecked array
    index can turn out. *)
Inductive exec (A : Type) :=
  | Finished (a : A)
  | OutOfBounds (index : Z)   (* a store outside [axes_ranges]: undefined *)
  | OutOfFuel.                (* the loop is still running *)
Arguments Finished {A} a.
Arguments OutOfBounds {A} index.
Arguments OutOfFuel {A}.

(** ** The device handle *)

(** [struct input_absinfo], the two fields the program sets. *)
Record input_absinfo := mk_absinfo {
  minimum : Z;   (* __s32 *)
  maximum : Z    (* __s32 *)
}.

Definition zero_absinfo : input_absinfo := {| minimum := 0; maximum := 0 |}.

(** [struct libevdev] as libevdev's accessors show it: the (type, code) pairs
    the device supports and the axis information per [EV_ABS] code. *)
Record libevdev := mk_libevdev {
  bits : gset (Z * Z);
  abs_info : gmap Z input_absinfo
}.

Definition libevdev_has_event_code (dev : libevdev) (type code : Z) : bool :=
  bool_decide ((type, code) ∈ bits dev).

Definition libevdev_get_abs_info (dev : libevdev) (code : Z) : input_absinfo :=
  default zero_absinfo (abs_info dev !! code).

(** libevdev's setters do nothing for a code the device does not have. *)
Definition libevdev_set_abs_minimum (dev : libevdev) (code val : Z) : libevdev :=
  if libevdev_has_event_code dev EV_ABS code then
    {| bits := bits dev;
       abs_info :=
         <[code := {| minimum := val;
                      maximum := maximum (libevdev_get_abs_info dev code) |}]>
           (abs_info dev) |}
  else dev.

Definition libevdev_set_abs_maximum (dev : libevdev) (code val : Z) : libevdev :=
  if libevdev_has_event_code dev EV_ABS code then
    {| bits := bits dev;
       abs_info :=
         <[code := {| minimum := minimum (libevdev_get_abs_info dev code);
                      maximum := val |}]>
           (abs_info dev) |}
  else dev.

(** The calls [load] makes on the handle, in order. *)
Inductive call :=
  | SetAbsMinimum (code val : Z)
  | SetAbsMaximum (code val : Z).

Definition call_code (c : call) : Z :=
  match c with SetAbsMinimum code _ | SetAbsMaximum code _ => code end.

(** ** load *)

(** The objects [axis], [min] and [max] of the body of the [while] loop. *)
Record locals := mk_locals {
  l_axis : Z;   (* int *)
  l_min : Z;    (* unsigned int *)
  l_max : Z     (* unsigned int *)
}.

(** [fscanf] stores its results through [&axis], [&min], [&max] in this
    order; an object it does not reach keeps what it held. *)
Definition store_results (vals : list Z) (l : locals) : locals :=
  {| l_axis := default (l_axis l) (vals !! 0%nat);
     l_min := default (l_min l) (vals !! 1%nat);
     l_max := default (l_max l) (vals !! 2%nat) |}.

Record reader := mk_reader {
  r_fp : FILE;
  r_table : list axis_range;
  r_err : list message
}.

Section ReadLoop.

(** The locals are declared without initialiser inside the loop body, so
    each iteration starts with indeterminate contents: [indet n] is what
    they hold when iteration [n] begins. *)
Variable indet : nat -> locals.

(** One pass through the body of [while (!feof(fp))]. *)
Definition read_body (iter : nat) (st : reader) : exec reader :=
  let '(ret, vals, fp') := fscanf_map_line (r_fp st) in
  let err' := if ret <? 0 then r_err st ++ [MsgReadingLine] else r_err st in
  let l := store_results vals (indet iter) in
  let i := l_axis l - AXIS_A in
  match store_range (r_table st) i
          {| present := true; min := l_min l; max := l_max l |} with
  | Some tbl' => Finished {| r_fp := fp'; r_table := tbl'; r_err := err' |}
  | None => OutOfBounds i
  end.

Fixpoint read_loop (fuel : nat) (iter : nat) (st : reader) : exec reader :=
  if feof (r_fp st) then Finished st
  else
    match fuel with
    | O => OutOfFuel
    | S fuel' =>
        match read_body iter st with
        | Finished st' => read_loop fuel' (S iter) st'
        | OutOfBounds i => OutOfBounds i
        | OutOfFuel => OutOfFuel
        end
    end.

(** The first half of [load]: the table read from the text of the file. *)
Definition read_table (fuel : nat) (text : list ascii) : exec reader :=
  read_loop fuel 0%nat
    {| r_fp := fopen_r text; r_table := zero_table; r_err := [] |}.

End ReadLoop.

Record applier := mk_applier {
  a_dev : libevdev;
  a_calls : list call;
  a_err : list message
}.

(** The [for] loop of [load] over the remaining values of [axis]; the
    boolean is [load]'s return value. *)
Fixpoint apply_loop (axes : list Z) (tbl : list axis_range) (st : applier)
  : bool * applier :=
  match axes with
  | [] => (true, st)
  | axis :: axes' =>
      let range := range_at tbl (axis - AXIS_A) in
      if negb (present range) then apply_loop axes' tbl st
      else if negb (libevdev_has_event_code (a_dev st) EV_ABS axis) then
        (false, {| a_dev := a_dev st; a_calls := a_calls st;
                   a_err := a_err st ++ [MsgAxisNotInDevice axis] |})
      else
        let vmin := to_int32 (min range) in
        let vmax := to_int32 (max range) in
        apply_loop axes' tbl
          {| a_dev := libevdev_set_abs_maximum
                        (libevdev_set_abs_minimum (a_dev st) axis vmin) axis vmax;
             a_calls := a_calls st ++ [SetAbsMinimum axis vmin; SetAbsMaximum axis vmax];
             a_err := a_err st |}
  end.

(** [load(dev, map_file)]; [map_file] is the text of the file, or [None] when
    [fopen] fails. *)
Definition load (indet : nat -> locals) (fuel : nat)
    (dev : libevdev) (map_file : option (list ascii)) : exec (bool * applier) :=
  match map_file with
  | None =>
      Finished (false, {| a_dev := dev; a_calls := []; a_err := [MsgOpening] |})
  | Some text =>
      match read_table indet fuel text with
      | Finished rd =>
          Finished (apply_loop axis_codes (r_table rd)
                      {| a_dev := dev; a_calls := []; a_err := r_err rd |})
      | OutOfBounds i => OutOfBounds i
      | OutOfFuel => OutOfFuel
      end
  end.

(** ** detect *)

(** [struct input_event] without its time stamp. *)
Record input_event := mk_event {
  ev_type : Z;    (* __u16 *)
  ev_code : Z;    (* __u16 *)
  ev_value : Z    (* __s32 *)
}.

(** The result of [libevdev_next_event]. *)
Inductive read_status :=
  | ReadFailed                      (* ret < 0 *)
  | ReadSync                        (* LIBEVDEV_READ_STATUS_SYNC *)
  | ReadSuccess (event : input_event).

(** One return of [poll]: either -1, or the [POLLIN] bits of [fds[0]] (the
    device) and [fds[1]] (the signalfd), together with what
    [libevdev_next_event] gives if the program calls it on this round. *)
Inductive wake :=
  | PollFailed
  | Woken (dev_in sig_in : bool) (next : read_status).

(** What the system calls of [detect] answer: whether [fopen], [sigprocmask]
    and [signalfd] succeed, and whether the [fprintf] of the line for an axis
    does. *)
Record detect_env := mk_env {
  fopen_ok : bool;
  sigprocmask_ok : bool;
  signalfd_ok : bool;
  fprintf_ok : Z -> bool
}.

Record capture := mk_capture {
  c_table : list axis_range;   (* axes_ranges *)
  c_out : list ascii;          (* what has been written to fp *)
  c_err : list message
}.

Inductive detect_result :=
  | Returned (ret : bool) (st : capture)
  | Polling (st : capture).    (* blocked in [poll], no wake left *)

Definition complain (st : capture) (m : message) : capture :=
  {| c_table := c_table st; c_out := c_out st; c_err := c_err st ++ [m] |}.

(** The first [for] loop of [detect]. *)
Definition detect_axis (dev : libevdev) (tbl : list axis_range) (axis : Z)
  : list axis_range :=
  if libevdev_has_event_code dev EV_ABS axis then
    set_range tbl (axis - AXIS_A)
      {| present := true; min := USHRT_MAX; max := 0 |}
  else tbl.

Definition init_table (dev : libevdev) : list axis_range :=
  foldl (detect_axis dev) zero_table axis_codes.

(** The two [if]s on [event.value]: the comparisons are between an [int] and
    an [unsigned int], so the value is converted to [unsigned int] first, as
    it is by the assignments. *)
Definition observe (range : axis_range) (value : Z) : axis_range :=
  let r1 :=
    if max range <? to_uint32 value
    then {| present := present range; min := min range; max := to_uint32 value |}
    else range in
  if to_uint32 value <? min r1
  then {| present := present r1; min := to_uint32 value; max := max r1 |}
  else r1.

(** The loop that prints the table once SIGINT has been seen.  A failing
    [fprintf] is taken to have written nothing.  [c_out] is the text passed
    to the stream; what the [fclose] of the cleanup makes of it is not
    checked by the source and is left out. *)
Fixpoint write_loop (env : detect_env) (axes : list Z) (st : capture)
  : bool * capture :=
  match axes with
  | [] => (true, st)
  | axis :: axes' =>
      let range := range_at (c_table st) (axis - AXIS_A) in
      if present range then
        if fprintf_ok env axis then
          write_loop env axes'
            {| c_table := c_table st;
               c_out := c_out st ++ map_line axis range;
               c_err := c_err st |}
        else (false, complain st MsgWritingLine)
      else write_loop env axes' st
  end.

(** [event.type != EV_ABS || event.code < AXIS_A || event.code > AXIS_Z] *)
Definition ignored (event : input_event) : bool :=
  negb (ev_type event =? EV_ABS)
  || (ev_code event <? AXIS_A) || (AXIS_Z <? ev_code event).

(** The [for (;;)] loop, driven by the wakes still to come. *)
Fixpoint wait_loop (env : detect_env) (wakes : list wake) (st : capture)
  : detect_result :=
  match wakes with
  | [] => Polling st
  | PollFailed :: _ => Returned false (complain st MsgPoll)
  | Woken dev_in sig_in next :: wakes' =>
      if sig_in then
        let '(ret, st') := write_loop env axis_codes st in Returned ret st'
      else if dev_in then
        match next with
        | ReadFailed => Returned false (complain st MsgReadingEvent)
        | ReadSync => wait_loop env wakes' st
        | ReadSuccess event =>
            if ignored event then wait_loop env wakes' st
            else
              let i := ev_code event - AXIS_A in
              let range := range_at (c_table st) i in
              if negb (present range) then
                Returned false (complain st (MsgInternalError (ev_code event)))
              else
                wait_loop env wakes'
                  {| c_table := set_range (c_table st) i
                                  (observe range (ev_value event));
                     c_out := c_out st;
                     c_err := c_err st |}
        end
      else Returned false (complain st MsgUnknownPollError)
  end.

(** [detect(dev, map_file)] *)
Definition detect (env : detect_env) (dev : libevdev) (wakes : list wake)
  : detect_result :=
  let st := {| c_table := init_table dev; c_out := []; c_err := [] |} in
  if negb (fopen_ok env) then Returned false (complain st MsgOpening)
  else if negb (sigprocmask_ok env) then Returned false (complain st MsgSigprocmask)
  else if negb (signalfd_ok env) then Returned false (complain st MsgSignalfd)
  else wait_loop env wakes st.

(** ** Persistence, as the specification names it *)

(** [write(table)]: the text [detect] leaves in the mapping file for a
    table, every [fprintf] succeeding. *)
Definition write_table (tbl : list axis_range) : list ascii :=
  c_out (snd (write_loop {| fopen_ok := true; sigprocmask_ok := true;
                             signalfd_ok := true; fprintf_ok := fun _ => true |}
                axis_codes {| c_table := tbl; c_out := []; c_err := [] |})).

(** ** Vocabulary of the statements *)

(** The sentinel entry [detect] gives a present axis. *)
Definition sentinel_range : axis_range :=
  {| present := true; min := USHRT_MAX; max := 0 |}.

(** Every system call of [detect] succeeds. *)
Definition env_ok (env : detect_env) : Prop :=
  fopen_ok env = true ∧ sigprocmask_ok env = true ∧ signalfd_ok env = true
  ∧ ∀ axis, fprintf_ok env axis = true.

(** The axes of [axes] whose entry in [tbl] is marked present. *)
Definition present_axes (tbl : list axis_range) (axes : list Z) : list Z :=
  filter (λ axis, present (range_at tbl (axis - AXIS_A)) = true) axes.

(** The lines printed for the present axes among [axes]. *)
Definition table_lines (tbl : list axis_range) (axes : list Z) : list ascii :=
  concat ((λ axis, map_line axis (range_at tbl (axis - AXIS_A)))
            <$> present_axes tbl axes).

(** The line [detect] prints for an axis nothing has been observed on. *)
Definition sentinel_line (axis : Z) : list ascii :=
  list_ascii_of_string "axis " ++ print_signed axis
  ++ list_ascii_of_string ": min = 65535, max = 0" ++ [newline].

(** The wake for an [EV_ABS] event of the given code and value while SIGINT
    is not pending. *)
Definition sample (axis value : Z) : wake :=
  Woken true false
    (ReadSuccess {| ev_type := EV_ABS; ev_code := axis; ev_value := value |}).

(** The value a wake adds to the entry of [axis], if any: with SIGINT not
    pending, it delivers an [EV_ABS] event with that code. *)
Definition sample_for (axis : Z) (w : wake) : option Z :=
  match w with
  | Woken true false (ReadSuccess event) =>
      if negb (ignored event) && (ev_code event =? axis)
      then Some (ev_value event) else None
  | _ => None
  end.

(** The samples a sequence of wakes holds for [axis], in order. *)
Definition samples_for (axis : Z) (wakes : list wake) : list Z :=
  omap (sample_for axis) wakes.

(** Whether a run ended by leaving the code normally. *)
Definition finishes {A} (e : exec A) : bool :=
  match e with Finished _ => true | _ => false end.

(** The text of a file given by its lines, each ended by a newline. *)
Definition lines (l : list string) : list ascii :=
  concat ((λ s, list_ascii_of_string s ++ [newline]) <$> l).

(** The number a run of digits denotes, continuing from [acc]. *)
Definition digits_value (acc : Z) (l : list ascii) : Z :=
  foldl (λ a c, 10 * a + digit_value c) acc l.

(** What the parse loop stores for a line printed from [r]. *)
Definition stored (r : axis_range) : axis_range :=
  {| present := true; min := min r; max := max r |}.

(** The lines of the axes [axes] of a table [src], as [detect] prints them. *)
Definition lines_of (src : list axis_range) (axes : list Z) : list ascii :=
  concat ((λ a, map_line a (range_at src (a - AXIS_A))) <$> axes).

(** The table after the lines of [axes] have been stored into [tbl]. *)
Definition store_all (src : list axis_range) (tbl : list axis_range)
    (axes : list Z) : list axis_range :=
  foldl (λ t a, set_range t (a - AXIS_A) (stored (range_at src (a - AXIS_A))))
    tbl axes.

(** An axis of the table whose line reads back: its fields are in range. *)
Definition printable (src : list axis_range) (a : Z) : Prop :=
  AXIS_A <= a <= AXIS_Z
  ∧ is_uint32 (min (range_at src (a - AXIS_A)))
  ∧ is_uint32 (max (range_at src (a - AXIS_A))).

(** ** Devices, sessions and files of the examples *)

(** The environment in which every system call succeeds. *)
Definition all_ok : detect_env :=
  {| fopen_ok := true; sigprocmask_ok := true; signalfd_ok := true;
     fprintf_ok := λ _, true |}.

(** Locals that happen to hold zeros at the start of every iteration. *)
Definition no_garbage : nat → locals := λ _, mk_locals 0 0 0.

(** A handle that reports ABS_THROTTLE (code 6) and nothing else. *)
Definition throttle_only : libevdev :=
  {| bits := {[ (EV_ABS, 6) ]}; abs_info := ∅ |}.

(** A handle with ABS_X only. *)
Definition x_only : libevdev :=
  {| bits := {[ (EV_ABS, ABS_X) ]}; abs_info := ∅ |}.

(** A stick with ABS_X and ABS_Y and one button (EV_KEY 0x120). *)
Definition stick : libevdev :=
  {| bits := {[ (EV_ABS, 0); (EV_ABS, 1); (1, 288) ]}; abs_info := ∅ |}.

(** The state of [detect] on [stick] after one sample 5 on ABS_X. *)
Definition after_one_sample : capture :=
  {| c_table := [ {| present := true; min := 5; max := 5 |};
                  {| present := true; min := 65535; max := 0 |};
                  zero_range; zero_range; zero_range; zero_range ];
     c_out := [];
     c_err := [] |}.

(** A session on [stick]: samples for both axes, a resynchronisation and a
    button event in between. *)
Definition mixed_session : list wake :=
  [ sample 1 50; sample 0 7; Woken true false ReadSync; sample 1 300;
    sample 1 900; Woken true false (ReadSuccess (mk_event 1 288 1));
    sample 1 500 ].

Definition after_mixed_session : capture :=
  {| c_table := [ {| present := true; min := 7; max := 7 |};
                  {| present := true; min := 50; max := 900 |};
                  zero_range; zero_range; zero_range; zero_range ];
     c_out := [];
     c_err := [] |}.

(** A mapping file whose second line is not in the format. *)
Definition garbled_file : list ascii :=
  lines ["axis 0: min = 1, max = 2"%string; "foo"%string].

(** The table [load] reads from the one-line and the two-line file. *)
Definition read_one_line : reader :=
  {| r_fp := {| unread := []; eof_seen := true |};
     r_table := [ {| present := true; min := 1; max := 2 |};
                  zero_range; zero_range; zero_range; zero_range; zero_range ];
     r_err := [] |}.

Definition read_two_lines : reader :=
  {| r_fp := {| unread := []; eof_seen := true |};
     r_table := [ {| present := true; min := 1; max := 2 |};
                  {| present := true; min := 3; max := 4 |};
                  zero_range; zero_range; zero_range; zero_range ];
     r_err := [] |}.

Definition x_only_applied : applier :=
  {| a_dev := libevdev_set_abs_maximum (libevdev_set_abs_minimum x_only 0 1) 0 2;
     a_calls := [SetAbsMinimum 0 1; SetAbsMaximum 0 2];
     a_err := [] |}.

(** ** Vocabulary of the further properties *)

(** The state [detect] is in when it has returned or is blocked in [poll]. *)
Definition final_state (r : detect_result) : capture :=
  match r with Returned _ st | Polling st => st end.

(** An entry as [detect] can hold it: the fields fit an [unsigned int], min
    has not risen above its initial value, and an absent entry is still
    zeroed. *)
Definition entry_ok (r : axis_range) : Prop :=
  is_uint32 (min r) ∧ is_uint32 (max r) ∧ min r <= USHRT_MAX
  ∧ (present r = false → r = zero_range).

(** A table as [detect] can hold it for the device [dev]. *)
Definition table_ok (dev : libevdev) (tbl : list axis_range) : Prop :=
  length tbl = Z.to_nat AXIS_COUNT
  ∧ Forall entry_ok tbl
  ∧ ∀ axis, AXIS_A <= axis <= AXIS_Z →
      present (range_at tbl (axis - AXIS_A))
      = libevdev_has_event_code dev EV_ABS axis.

(** A wake the loop of [detect] passes over: a resynchronisation, or an
    event that is not an [EV_ABS] event for a code in ABS_X..ABS_RZ, while
    SIGINT is not pending. *)
Definition skipped (w : wake) : bool :=
  match w with
  | Woken true false ReadSync => true
  | Woken true false (ReadSuccess event) => ignored event
  | _ => false
  end.

(** The two setter calls [load] makes for an axis of a table. *)
Definition calls_for (tbl : list axis_range) (axis : Z) : list call :=
  [ SetAbsMinimum axis (to_int32 (min (range_at tbl (axis - AXIS_A))));
    SetAbsMaximum axis (to_int32 (max (range_at tbl (axis - AXIS_A)))) ].

(** The range [load] gives the device for an entry of the table. *)
Definition applied (r : axis_range) : input_absinfo :=
  {| minimum := to_int32 (min r); maximum := to_int32 (max r) |}.

(** A mapping file given by its lines, each an axis and the range printed
    for it, in the format of [detect]. *)
Definition entries_text (es : list (Z * axis_range)) : list ascii :=
  concat ((λ e, map_line e.1 e.2) <$> es).

(** The table after the lines [es] have been stored into [tbl], in order. *)
Definition store_entries (tbl : list axis_range) (es : list (Z * axis_range))
  : list axis_range :=
  foldl (λ t e, set_range t (e.1 - AXIS_A) (stored e.2)) tbl es.

(** A line for an axis in ABS_X..ABS_RZ whose fields fit [unsigned int]. *)
Definition entry_valid (e : Z * axis_range) : Prop :=
  AXIS_A <= e.1 <= AXIS_Z ∧ is_uint32 (min e.2) ∧ is_uint32 (max e.2).

(** ** main, open_device and the cleanup handlers *)

(** What the process does to the outside and prints, in order: descriptors
    opened and closed, handles made and freed, the lines of [main],
    [open_device] and [libevdev_freep], and the reports of [detect] and
    [load]. *)
Inductive event :=
  | EvOpen (fd : Z)              (* open() gave fd *)
  | EvClose (fd : Z)             (* close(fd) *)
  | EvNew                        (* libevdev_new() *)
  | EvFree                       (* libevdev_free() *)
  | EvUsage                      (* "usage: %s [detect|load] <joystick> <map file>" *)
  | EvWrongArgs                  (* "wrong number of arguments" *)
  | EvOpeningDevice              (* "opening device %s: %s" *)
  | EvBinding                    (* "binding to device %s: %s" *)
  | EvClosingFailed (fd : Z)     (* "closing fd %d: %s" *)
  | EvInvalidCommand (cmd : string)  (* "invalid command: %s" *)
  | EvReport (m : message).      (* a line of detect or load *)

(** What the system answers to the process. *)
Record world := mk_world {
  w_open : string → Z;           (* open(path, O_RDWR): a descriptor or -1 *)
  w_set_fd : Z → Z;              (* the result of libevdev_set_fd(dev, fd) *)
  w_device : libevdev;           (* what the bound handle describes *)
  w_close_ok : Z → bool;         (* whether close(fd) succeeds *)
  w_env : detect_env;            (* the system calls of detect *)
  w_wakes : list wake;           (* the returns of poll *)
  w_file : string → option (list ascii);   (* fopen(path, "r") *)
  w_indet : nat → locals;        (* the indeterminate locals of load *)
  w_fuel : nat
}.

(** A non-null [struct libevdev *] with the descriptor bound to it. *)
Record handle := mk_handle {
  h_dev : libevdev;
  h_fd : Z                       (* libevdev_get_fd *)
}.

(** [#define streq(s1, s2) (strcmp((s1), (s2)) == 0)] *)
Definition streq (s1 s2 : string) : bool := String.eqb s1 s2.

(** [DEFINE_GENERIC_CLEANUP_FUNC(name, type, deleter, empty)]: the function
    body for a cell [*ptr], with the events of the deleter. *)
Definition generic_cleanup {T : Type} (same : T → T → bool)
    (deleter : T → list event) (empty : T) (cell : T) : T * list event :=
  if negb (same cell empty) then (empty, deleter cell) else (cell, []).

(** [DEFINE_GENERIC_CLEANUP_FUNC(closep, int, close, -1)] *)
Definition closep (cell : Z) : Z * list event :=
  generic_cleanup Z.eqb (λ fd, [EvClose fd]) (-1) cell.

(** [libevdev_freep(&dev)].  The source calls [eprintln] here above the
    line that defines the macro; the model takes the call as the report it
    is meant to be. *)
Definition libevdev_freep (w : world) (dev : option handle)
  : option handle * list event :=
  match dev with
  | Some h =>
      let fd := h_fd h in
      let closing :=
        if negb (fd =? -1) then
          EvClose fd :: (if w_close_ok w fd then [] else [EvClosingFailed fd])
        else [] in
      (None, closing ++ [EvFree])
  | None => (None, [])
  end.

(** [open_device(path)] *)
Definition open_device (w : world) (path : string)
  : option handle * list event :=
  let fd := w_open w path in
  if fd =? -1 then (None, [EvOpeningDevice])
  else
    let ret := w_set_fd w fd in
    if ret <? 0 then
      (None, [EvOpen fd; EvNew; EvBinding; EvFree; EvClose fd])
    else (Some {| h_dev := w_device w; h_fd := fd |}, [EvOpen fd; EvNew]).

(** [argv[i]] *)
Definition arg (argv : list string) (i : nat) : string :=
  default EmptyString (argv !! i).

(** The value of [!b] as an [int]. *)
Definition not_status (b : bool) : Z := if b then 0 else 1.

(** [main(argc, argv)] with [argc = length argv]: the exit status and what
    happened.  The cleanup of [dev] runs at every return below its
    declaration. *)
Definition main (w : world) (argv : list string) : exec (Z * list event) :=
  if (1 <? Z.of_nat (length argv))
     && (streq (arg argv 1) "-h" || streq (arg argv 1) "--help")
  then Finished (0, [EvUsage])
  else if negb (Z.of_nat (length argv) =? 4) then Finished (1, [EvWrongArgs])
  else
    let '(dev, opening) := open_device w (arg argv 2) in
    let cleanup := snd (libevdev_freep w dev) in
    match dev with
    | None => Finished (1, opening ++ cleanup)
    | Some h =>
        if streq (arg argv 1) "detect" then
          match detect (w_env w) (h_dev h) (w_wakes w) with
          | Returned ret st =>
              Finished (not_status ret,
                        opening ++ (EvReport <$> c_err st) ++ cleanup)
          | Polling _ => OutOfFuel
          end
        else if streq (arg argv 1) "load" then
          match load (w_indet w) (w_fuel w) (h_dev h) (w_file w (arg argv 3)) with
          | Finished (ret, ap) =>
              Finished (not_status ret,
                        opening ++ (EvReport <$> a_err ap) ++ cleanup)
          | OutOfBounds i => OutOfBounds i
          | OutOfFuel => OutOfFuel
          end
        else
          Finished (1, opening ++ [EvInvalidCommand (arg argv 1)] ++ cleanup)
    end.

(** The descriptors a run has opened and closed, and its handles. *)
Definition opened (evs : list event) : list Z :=
  omap (λ e, match e with EvOpen fd => Some fd | _ => None end) evs.

Definition closed (evs : list event) : list Z :=
  omap (λ e, match e with EvClose fd => Some fd | _ => None end) evs.

Definition handles_made (evs : list event) : nat :=
  length (omap (λ e, match e with EvNew => Some () | _ => None end) evs).

Definition handles_freed (evs : list event) : nat :=
  length (omap (λ e, match e with EvFree => Some () | _ => None end) evs).

(** The first test of [main]: a help flag as first argument. *)
Definition help_requested (argv : list string) : bool :=
  (1 <? Z.of_nat (length argv))
  && (streq (arg argv 1) "-h" || streq (arg argv 1) "--help").

(** ** Devices, sessions and files of the further examples *)

(** SIGINT pending and nothing to read from the device. *)
Definition interrupt : wake := Woken false true ReadSync.

(** What [detect] returns on [stick] for [mixed_session] and then SIGINT. *)
Definition mixed_session_result : capture :=
  {| c_table := c_table after_mixed_session;
     c_out := lines ["axis 0: min = 7, max = 7"%string;
                     "axis 1: min = 50, max = 900"%string];
     c_err := [] |}.

(** The environment in which only the [fprintf] of the line of ABS_Y fails. *)
Definition fails_on_y : detect_env :=
  {| fopen_ok := true; sigprocmask_ok := true; signalfd_ok := true;
     fprintf_ok := λ axis, negb (axis =? 1) |}.

(** Two lines for axis 0 around one for axis 1. *)
Definition three_entries : list (Z * axis_range) :=
  [ (0, {| present := true; min := 1; max := 2 |});
    (1, {| present := true; min := 3; max := 4 |});
    (0, {| present := true; min := 5; max := 6 |}) ].

Definition two_entries : list (Z * axis_range) :=
  [ (0, {| present := true; min := 1; max := 2 |});
    (1, {| present := true; min := 3; max := 4 |}) ].

Definition two_entries_swapped : list (Z * axis_range) :=
  [ (1, {| present := true; min := 3; max := 4 |});
    (0, {| present := true; min := 1; max := 2 |}) ].

(** Locals that hold left-overs, different on every pass of the loop. *)
Definition stale_locals : nat → locals :=
  λ n, mk_locals 1 (70 + Z.of_nat n) 9.

(** [stick] with ranges already set for both axes. *)
Definition calibrated_stick : libevdev :=
  {| bits := bits stick;
     abs_info := {[ 0 := {| minimum := -100; maximum := 100 |};
                    1 := {| minimum := -128; maximum := 127 |} ]} |}.

(** What [load] leaves on [calibrated_stick] for the one line for axis 0. *)
Definition calibrated_stick_applied : applier :=
  {| a_dev :=
       libevdev_set_abs_maximum (libevdev_set_abs_minimum calibrated_stick 0 1)
         0 2;
     a_calls := [SetAbsMinimum 0 1; SetAbsMaximum 0 2];
     a_err := [] |}.

(** What [load] leaves on [stick] for the file of [two_entries]. *)
Definition stick_applied : applier :=
  {| a_dev :=
       libevdev_set_abs_maximum
         (libevdev_set_abs_minimum
            (libevdev_set_abs_maximum (libevdev_set_abs_minimum stick 0 1) 0 2)
            1 3)
         1 4;
     a_calls := [SetAbsMinimum 0 1; SetAbsMaximum 0 2;
                 SetAbsMinimum 1 3; SetAbsMaximum 1 4];
     a_err := [] |}.

(** What [load] leaves after the mismatch on axis 1. *)
Definition x_only_mismatch : applier :=
  {| a_dev := a_dev x_only_applied;
     a_calls := [SetAbsMinimum 0 1; SetAbsMaximum 0 2];
     a_err := [MsgAxisNotInDevice 1] |}.

(** A system in which everything works: the device opens as descriptor 3
    and is [stick], the session is [mixed_session] followed by SIGINT, and
    every file reads as the one line for axis 0. *)
Definition plain_world : world :=
  {| w_open := λ _, 3;
     w_set_fd := λ _, 0;
     w_device := stick;
     w_close_ok := λ _, true;
     w_env := all_ok;
     w_wakes := mixed_session ++ [interrupt];
     w_file := λ _, Some (lines ["axis 0: min = 1, max = 2"%string]);
     w_indet := no_garbage;
     w_fuel := 6 |}.

Definition detect_args : list string :=
  [ "axscale"; "detect"; "/dev/input/event0"; "map.txt" ]%string.

Definition bogus_args : list string :=
  [ "axscale"; "calibrate"; "/dev/input/event0"; "map.txt" ]%string.

(** A line of the mapping file without the newline that ends it. *)
Definition unterminated_line (axis : Z) (r : axis_range) : list ascii :=
  list_ascii_of_string "axis " ++ print_signed axis
  ++ list_ascii_of_string ": min = " ++ print_unsigned (min r)
  ++ list_ascii_of_string ", max = " ++ print_unsigned (max r).

(** What [detect] returns on [stick] when the first [poll] fails. *)
Definition poll_failure_result : capture :=
  {| c_table := init_table stick; c_out := []; c_err := [MsgPoll] |}.

(** * Properties *)

(** ** The table and the axis codes *)

Lemma AXIS_COUNT_value : AXIS_COUNT = 6.
Proof. reflexivity. Qed.

Lemma axis_codes_value : axis_codes = [0; 1; 2; 3; 4; 5].
Proof. reflexivity. Qed.

Lemma elem_of_axis_codes (axis : Z) :
  axis ∈ axis_codes ↔ AXIS_A <= axis <= AXIS_Z.
Proof.
  unfold axis_codes. rewrite elem_of_seqZ.
  unfold AXIS_COUNT, AXIS_A, AXIS_Z, ABS_X, ABS_RZ. lia.
Qed.

Lemma length_zero_table : length zero_table = 6%nat.
Proof. reflexivity. Qed.

Lemma length_set_range tbl i r : length (set_range tbl i r) = length tbl.
Proof. unfold set_range. by rewrite length_insert. Qed.

Lemma range_at_set_range_eq tbl i r :
  0 <= i < Z.of_nat (length tbl) → range_at (set_range tbl i r) i = r.
Proof.
  intros Hi. unfold range_at, set_range.
  apply list_lookup_total_insert_eq. lia.
Qed.

Lemma range_at_set_range_ne tbl i j r :
  0 <= i → 0 <= j → i ≠ j → range_at (set_range tbl i r) j = range_at tbl j.
Proof.
  intros Hi Hj Hne. unfold range_at, set_range.
  apply list_lookup_total_insert_ne. lia.
Qed.

Lemma init_table_eq (dev : libevdev) :
  init_table dev =
  (λ axis, if libevdev_has_event_code dev EV_ABS axis
           then sentinel_range else zero_range) <$> axis_codes.
Proof.
  unfold init_table. rewrite axis_codes_value. cbn [foldl fmap list_fmap].
  unfold detect_axis.
  destruct (libevdev_has_event_code dev EV_ABS 0),
    (libevdev_has_event_code dev EV_ABS 1),
    (libevdev_has_event_code dev EV_ABS 2),
    (libevdev_has_event_code dev EV_ABS 3),
    (libevdev_has_event_code dev EV_ABS 4),
    (libevdev_has_event_code dev EV_ABS 5); reflexivity.
Qed.

Lemma length_init_table dev : length (init_table dev) = 6%nat.
Proof. rewrite init_table_eq, length_fmap. reflexivity. Qed.

Lemma range_at_init_table dev axis :
  AXIS_A <= axis <= AXIS_Z →
  range_at (init_table dev) (axis - AXIS_A) =
  if libevdev_has_event_code dev EV_ABS axis then sentinel_range else zero_range.
Proof.
  intros Hax. unfold range_at. rewrite init_table_eq.
  unfold AXIS_A, AXIS_Z, ABS_X, ABS_RZ in *.
  assert (Hc : axis = 0 ∨ axis = 1 ∨ axis = 2 ∨ axis = 3 ∨ axis = 4 ∨ axis = 5)
    by lia.
  destruct Hc as [->|[->|[->|[->|[->| ->]]]]]; reflexivity.
Qed.

Lemma filter_ext_elem {A} (P1 P2 : A → Prop)
    `{!∀ x, Decision (P1 x), !∀ x, Decision (P2 x)} (l : list A) :
  (∀ x, x ∈ l → P1 x ↔ P2 x) → filter P1 l = filter P2 l.
Proof.
  induction l as [|a l IH]; intros Hiff; [done|].
  rewrite !filter_cons.
  rewrite IH by (intros x Hx; apply Hiff; by right).
  pose proof (Hiff a (list_elem_of_here a l)) as Ha.
  destruct (decide (P1 a)), (decide (P2 a)); first [done | exfalso; tauto].
Qed.

(** ** detect: the table after initialisation *)

(** C1, as stated, fails: the table has six entries, not twelve, and an
    axis with AxisId 6 that the device has is never queried nor marked. *)
Lemma twelve_axes_counterexample :
  libevdev_has_event_code throttle_only EV_ABS 6 = true
  ∧ init_table throttle_only !! 6%nat = None
  ∧ length (init_table throttle_only) ≠ 12%nat
  ∧ 6 ∉ axis_codes.
Proof.
  split; [by vm_compute|]. split; [by vm_compute|].
  split; [by vm_compute|].
  rewrite elem_of_axis_codes. unfold AXIS_Z, ABS_RZ. lia.
Qed.

(** C1, amended: there are exactly six axes, AxisIds 0..5 (ABS_X..ABS_RZ).
    The table has one entry per AxisId 0..5, and the first loop of [detect]
    asks the handle about each of them, giving a present axis the entry
    present=true, min=65535, max=0 and leaving the others zeroed. *)
Theorem six_axes_initialised (dev : libevdev) :
  AXIS_COUNT = 6
  ∧ axis_codes = [0; 1; 2; 3; 4; 5]
  ∧ length zero_table = 6%nat
  ∧ init_table dev =
      (λ axis, if libevdev_has_event_code dev EV_ABS axis
               then {| present := true; min := 65535; max := 0 |}
               else {| present := false; min := 0; max := 0 |})
      <$> [0; 1; 2; 3; 4; 5].
Proof.
  split; [reflexivity|]. split; [reflexivity|]. split; [reflexivity|].
  rewrite init_table_eq, axis_codes_value. reflexivity.
Qed.

(** ** detect: writing the table *)

Lemma write_loop_ok env axes st :
  (∀ axis, fprintf_ok env axis = true) →
  write_loop env axes st =
  (true, {| c_table := c_table st;
            c_out := c_out st ++ table_lines (c_table st) axes;
            c_err := c_err st |}).
Proof.
  intros Hok. revert st. induction axes as [|axis axes IH]; intros st.
  - cbn. unfold table_lines, present_axes. cbn. rewrite app_nil_r.
    by destruct st.
  - cbn [write_loop]. unfold table_lines, present_axes.
    rewrite filter_cons.
    destruct (present (range_at (c_table st) (axis - AXIS_A))) eqn:Hp.
    + rewrite Hok, IH. cbn [c_table c_out c_err].
      rewrite decide_True by done. cbn [fmap list_fmap concat].
      unfold table_lines, present_axes.
      by rewrite <- !app_assoc.
    + rewrite IH. rewrite decide_False by done. reflexivity.
Qed.

Lemma write_table_eq tbl : write_table tbl = table_lines tbl axis_codes.
Proof. unfold write_table. rewrite write_loop_ok by done. reflexivity. Qed.

Lemma map_line_sentinel axis : map_line axis sentinel_range = sentinel_line axis.
Proof.
  unfold map_line, map_line_directives, sentinel_line.
  reflexivity.
Qed.

Lemma present_axes_init dev :
  present_axes (init_table dev) axis_codes =
  filter (λ axis, libevdev_has_event_code dev EV_ABS axis = true) axis_codes.
Proof.
  unfold present_axes. apply filter_ext_elem.
  intros axis Hin. apply elem_of_axis_codes in Hin.
  rewrite range_at_init_table by done.
  by destruct (libevdev_has_event_code dev EV_ABS axis).
Qed.

Lemma table_lines_init dev :
  table_lines (init_table dev) axis_codes =
  concat (sentinel_line <$>
            filter (λ axis, libevdev_has_event_code dev EV_ABS axis = true)
              axis_codes).
Proof.
  unfold table_lines. rewrite present_axes_init. f_equal.
  apply list_fmap_ext. intros i axis Hin.
  apply list_elem_of_lookup_2, list_elem_of_filter in Hin as [Hhas Hin].
  apply elem_of_axis_codes in Hin.
  rewrite range_at_init_table by done. rewrite Hhas.
  apply map_line_sentinel.
Qed.

(** C5: when the first wake already shows SIGINT pending, [detect] returns
    true and the file holds, in ascending order of AxisId, exactly one line
    per axis of the device, each with the untouched sentinels min = 65535 and
    max = 0 (so min > max). *)
Theorem cancel_first_writes_sentinels
    (env : detect_env) (dev : libevdev) (dev_in : bool) (next : read_status)
    (wakes : list wake) :
  env_ok env →
  detect env dev (Woken dev_in true next :: wakes) =
    Returned true
      {| c_table := init_table dev;
         c_out :=
           concat (sentinel_line <$>
             filter (λ axis, libevdev_has_event_code dev EV_ABS axis = true)
               axis_codes);
         c_err := [] |}
  ∧ max sentinel_range < min sentinel_range.
Proof.
  intros (Hf & Hm & Hs & Hw). split; [|by vm_compute].
  unfold detect. rewrite Hf, Hm, Hs. cbn [negb wait_loop].
  rewrite write_loop_ok by done. cbn [c_table c_out c_err app].
  by rewrite table_lines_init.
Qed.

(** ** detect: samples *)

Lemma observe_eq range value :
  observe range value =
  {| present := present range;
     min := Z.min (min range) (to_uint32 value);
     max := Z.max (max range) (to_uint32 value) |}.
Proof.
  unfold observe.
  destruct (Z.ltb_spec (max range) (to_uint32 value));
    cbn [min max present];
    destruct (Z.ltb_spec (to_uint32 value) (min range));
    destruct range as [p mn mx]; cbn [min max present] in *;
    f_equal; lia.
Qed.

Lemma observe_comm range v1 v2 :
  observe (observe range v1) v2 = observe (observe range v2) v1.
Proof. rewrite !observe_eq. cbn [min max present]. f_equal; lia. Qed.

(** The order in which the samples of an axis arrive does not matter. *)
Lemma foldl_observe_perm (l1 l2 : list Z) :
  l1 ≡ₚ l2 → ∀ range, foldl observe range l1 = foldl observe range l2.
Proof.
  induction 1 as [|x l1 l2 _ IH|x y l|l1 l2 l3 _ IH1 _ IH2]; intros range.
  - done.
  - cbn. apply IH.
  - cbn. by rewrite observe_comm.
  - by rewrite IH1, IH2.
Qed.

Lemma ignored_false_iff event :
  ignored event = false ↔
  ev_type event = EV_ABS ∧ AXIS_A <= ev_code event <= AXIS_Z.
Proof.
  unfold ignored. rewrite !orb_false_iff, negb_false_iff.
  rewrite Z.eqb_eq, !Z.ltb_ge. tauto.
Qed.

(** ** detect: leaving the loop *)

Lemma wait_loop_polling env pre st st1 :
  wait_loop env pre st = Polling st1 →
  c_out st1 = c_out st ∧ c_err st1 = c_err st
  ∧ ∀ wakes, wait_loop env (pre ++ wakes) st = wait_loop env wakes st1.
Proof.
  revert st. induction pre as [|w pre IH]; intros st Hrun.
  - cbn in Hrun. by simplify_eq.
  - cbn [app]. destruct w as [|dev_in sig_in next]; cbn [wait_loop] in *;
      [done|].
    destruct sig_in.
    { by destruct (write_loop env axis_codes st). }
    destruct dev_in; [|done].
    destruct next as [| |event]; [done|by apply IH|].
    destruct (ignored event); [by apply IH|].
    destruct (negb (present (range_at (c_table st) (ev_code event - AXIS_A))));
      [done|].
    apply IH in Hrun as (Hout & Herr & Happ). done.
Qed.

(** While [detect] stays in the loop, the entry of an axis is the fold of
    [observe] over the samples that arrived for it. *)
Lemma wait_loop_polling_table env pre :
  ∀ st st1,
    wait_loop env pre st = Polling st1 →
    Z.of_nat (length (c_table st)) = AXIS_COUNT →
    Z.of_nat (length (c_table st1)) = AXIS_COUNT
    ∧ ∀ axis, AXIS_A <= axis <= AXIS_Z →
        range_at (c_table st1) (axis - AXIS_A) =
        foldl observe (range_at (c_table st) (axis - AXIS_A))
          (samples_for axis pre).
Proof.
  induction pre as [|w pre IH]; intros st st1 Hrun Hlen.
  - cbn in Hrun. by simplify_eq.
  - destruct w as [|dev_in sig_in next]; cbn [wait_loop] in Hrun; [done|].
    destruct sig_in.
    { by destruct (write_loop env axis_codes st). }
    destruct dev_in; [|done].
    destruct next as [| |event]; [done|by apply IH|].
    unfold samples_for. cbn [omap list_omap sample_for].
    destruct (ignored event) eqn:Hig; [by apply IH|].
    apply ignored_false_iff in Hig as [_ Hcode].
    destruct (negb (present (range_at (c_table st) (ev_code event - AXIS_A))));
      [done|].
    apply IH in Hrun as [Hlen1 Htbl];
      [|cbn [c_table]; by rewrite length_set_range].
    split; [done|]. intros axis Hax. rewrite Htbl by done.
    cbn [c_table negb andb].
    assert (Hidx : 0 <= ev_code event - AXIS_A < AXIS_COUNT)
      by (unfold AXIS_COUNT; lia).
    destruct (Z.eqb_spec (ev_code event) axis) as [->|Hne].
    + rewrite range_at_set_range_eq by (unfold AXIS_COUNT in *; lia).
      reflexivity.
    + rewrite range_at_set_range_ne by lia. reflexivity.
Qed.

Lemma entry_is_fold_of_samples env dev pre st1 axis :
  detect env dev pre = Polling st1 →
  AXIS_A <= axis <= AXIS_Z →
  libevdev_has_event_code dev EV_ABS axis = true →
  range_at (c_table st1) (axis - AXIS_A) =
  foldl observe sentinel_range (samples_for axis pre).
Proof.
  intros Hrun Hax Hhas. unfold detect in Hrun.
  destruct (negb (fopen_ok env)); [done|].
  destruct (negb (sigprocmask_ok env)); [done|].
  destruct (negb (signalfd_ok env)); [done|].
  apply wait_loop_polling_table in Hrun as [_ Htbl];
    [|cbn [c_table]; by rewrite length_init_table].
  rewrite Htbl by done. cbn [c_table].
  by rewrite range_at_init_table, Hhas.
Qed.

(** C6: in a session that [detect] has consumed without leaving the loop
    (whatever else arrived in between), one present axis has received the
    samples 300, 50, 900, 500 in some order; then SIGINT arrives.  [detect]
    returns true, the entry of the axis is min = 50, max = 900, and the file
    is the table printed. *)
Theorem four_samples_any_order
    (env : detect_env) (dev : libevdev) (axis : Z) (pre : list wake)
    (st1 : capture) (dev_in : bool) (next : read_status) (wakes : list wake) :
  env_ok env →
  AXIS_A <= axis <= AXIS_Z →
  libevdev_has_event_code dev EV_ABS axis = true →
  detect env dev pre = Polling st1 →
  samples_for axis pre ≡ₚ [300; 50; 900; 500] →
  ∃ st,
    detect env dev (pre ++ Woken dev_in true next :: wakes) = Returned true st
    ∧ range_at (c_table st) (axis - AXIS_A)
      = {| present := true; min := 50; max := 900 |}
    ∧ c_out st = write_table (c_table st).
Proof.
  intros (Hf & Hm & Hs & Hw) Hax Hhas Hrun Hperm.
  pose proof (entry_is_fold_of_samples _ _ _ _ _ Hrun Hax Hhas) as Hentry.
  unfold detect in *. rewrite Hf, Hm, Hs in *. cbn [negb] in *.
  apply wait_loop_polling in Hrun as (Hout & _ & Happ).
  rewrite Happ. cbn [wait_loop]. rewrite write_loop_ok by done.
  eexists. split; [reflexivity|]. cbn [c_table c_out] in *. split.
  - by rewrite Hentry, (foldl_observe_perm _ _ Hperm).
  - by rewrite Hout, write_table_eq.
Qed.

(** C7: [detect] is waiting (it has consumed [pre] and is back in [poll])
    and an [EV_ABS] event arrives for a code in ABS_X..ABS_RZ whose entry is
    not marked present.  [detect] reports the internal error and returns
    false at once: the wakes that follow are never looked at and nothing has
    been written to the file. *)
Theorem sample_for_absent_axis_aborts
    (env : detect_env) (dev : libevdev) (pre : list wake) (st1 : capture)
    (event : input_event) (wakes : list wake) :
  detect env dev pre = Polling st1 →
  ev_type event = EV_ABS →
  AXIS_A <= ev_code event <= AXIS_Z →
  present (range_at (c_table st1) (ev_code event - AXIS_A)) = false →
  detect env dev (pre ++ Woken true false (ReadSuccess event) :: wakes)
    = Returned false (complain st1 (MsgInternalError (ev_code event)))
  ∧ c_out (complain st1 (MsgInternalError (ev_code event))) = [].
Proof.
  intros Hrun Hty Hcode Habs. unfold detect in *.
  destruct (negb (fopen_ok env)); [done|].
  destruct (negb (sigprocmask_ok env)); [done|].
  destruct (negb (signalfd_ok env)); [done|].
  apply wait_loop_polling in Hrun as (Hout & _ & Happ).
  rewrite Happ. cbn [wait_loop].
  assert (Hig : ignored event = false) by (by apply ignored_false_iff).
  rewrite Hig, Habs. cbn [negb]. split; [done|].
  cbn [complain c_out]. by rewrite Hout.
Qed.

(** ** detect: negative samples *)

Lemma to_uint32_negative v : is_int32 v → v < 0 → to_uint32 v = v + 2 ^ 32.
Proof.
  unfold is_int32, to_uint32. intros Hr Hneg.
  rewrite <- (Z.mod_add v 1 (2 ^ 32)) by lia.
  apply Z.mod_small. lia.
Qed.

Lemma to_uint32_nonneg v : 0 <= to_uint32 v.
Proof. unfold to_uint32. apply Z.mod_pos_bound. lia. Qed.

Lemma foldl_min_le (l : list Z) :
  ∀ m, foldl Z.min m l <= m ∧ Forall (λ s, foldl Z.min m l <= s) l.
Proof.
  induction l as [|x l IH]; intros m; cbn; [split; [lia|constructor]|].
  destruct (IH (Z.min m x)) as [Hm Hall]. split; [lia|].
  constructor; [lia|done].
Qed.

Lemma min_foldl_observe_nonneg values range :
  0 <= min range → 0 <= min (foldl observe range values).
Proof.
  revert range. induction values as [|v values IH]; intros range Hr; [done|].
  cbn. apply IH. rewrite observe_eq. cbn [min].
  pose proof (to_uint32_nonneg v). lia.
Qed.

(** C9, amended: the samples are compared and stored as [unsigned int].  A
    negative sample v leaves min alone and makes max the larger of its old
    value and v + 2^32 (which is at least 2^31), so max becomes v mod 2^32
    exactly when it was below that.  And whenever the recorded (min, max) of
    a run of samples are the true minimum and maximum, no sample was
    negative. *)
Theorem negative_sample_goes_to_max
    (range : axis_range) (v : Z) (first : Z) (others : list Z) :
  is_int32 v → v < 0 → min range <= USHRT_MAX →
  (to_uint32 v = v mod 2 ^ 32 ∧ 2 ^ 31 <= to_uint32 v
   ∧ min (observe range v) = min range
   ∧ max (observe range v) = Z.max (max range) (to_uint32 v)
   ∧ (max range <= to_uint32 v → max (observe range v) = to_uint32 v))
  ∧ (min (foldl observe sentinel_range (first :: others)) = foldl Z.min first others →
     max (foldl observe sentinel_range (first :: others)) = foldl Z.max first others →
     Forall (λ s, 0 <= s) (first :: others)).
Proof.
  intros Hv Hneg Hmin. split.
  - pose proof (to_uint32_negative v Hv Hneg) as Hu.
    unfold is_int32, USHRT_MAX in *. rewrite observe_eq. cbn [min max].
    repeat split; lia.
  - intros Hrec _.
    pose proof (min_foldl_observe_nonneg (first :: others) sentinel_range) as Hnn.
    rewrite Hrec in Hnn. specialize (Hnn ltac:(by vm_compute)).
    destruct (foldl_min_le others first) as [Hle Hall].
    constructor; [lia|].
    eapply Forall_impl; [exact Hall|]. cbn. intros; lia.
Qed.

(** C9, as stated, fails for a negative sample that follows a larger one:
    after -1 has made max 4294967295, the sample -2 does not set max to
    (-2) mod 2^32 = 4294967294; max keeps the larger value. *)
Lemma second_negative_sample_counterexample :
  -2 < 0
  ∧ (-2) mod 2 ^ 32 = 4294967294
  ∧ observe sentinel_range (-1)
    = {| present := true; min := 65535; max := 4294967295 |}
  ∧ max (observe (observe sentinel_range (-1)) (-2)) = 4294967295
  ∧ max (observe (observe sentinel_range (-1)) (-2)) ≠ (-2) mod 2 ^ 32.
Proof. repeat split; by vm_compute. Qed.

(** ** load: applying the table *)

Lemma bits_set_abs_minimum dev code val :
  bits (libevdev_set_abs_minimum dev code val) = bits dev.
Proof.
  unfold libevdev_set_abs_minimum.
  by destruct (libevdev_has_event_code dev EV_ABS code).
Qed.

Lemma bits_set_abs_maximum dev code val :
  bits (libevdev_set_abs_maximum dev code val) = bits dev.
Proof.
  unfold libevdev_set_abs_maximum.
  by destruct (libevdev_has_event_code dev EV_ABS code).
Qed.

Lemma abs_info_set_abs_minimum_ne dev code val axis :
  axis ≠ code →
  abs_info (libevdev_set_abs_minimum dev code val) !! axis = abs_info dev !! axis.
Proof.
  intros Hne. unfold libevdev_set_abs_minimum.
  destruct (libevdev_has_event_code dev EV_ABS code); [|done].
  cbn [abs_info]. by rewrite lookup_insert_ne.
Qed.

Lemma abs_info_set_abs_maximum_ne dev code val axis :
  axis ≠ code →
  abs_info (libevdev_set_abs_maximum dev code val) !! axis = abs_info dev !! axis.
Proof.
  intros Hne. unfold libevdev_set_abs_maximum.
  destruct (libevdev_has_event_code dev EV_ABS code); [|done].
  cbn [abs_info]. by rewrite lookup_insert_ne.
Qed.

(** What [apply_loop] can have done, however it ends: the event bits are as
    before, the new calls are for axes of [axes] marked present, and the
    information of every other axis is as before. *)
Lemma apply_loop_frame axes tbl st b st' :
  apply_loop axes tbl st = (b, st') →
  bits (a_dev st') = bits (a_dev st)
  ∧ (∃ new, a_calls st' = a_calls st ++ new
       ∧ Forall (λ c, call_code c ∈ axes
                      ∧ present (range_at tbl (call_code c - AXIS_A)) = true) new)
  ∧ (∀ axis, axis ∉ axes ∨ present (range_at tbl (axis - AXIS_A)) = false →
       abs_info (a_dev st') !! axis = abs_info (a_dev st) !! axis).
Proof.
  revert st. induction axes as [|a axes IH]; intros st Hrun; cbn [apply_loop] in Hrun.
  - simplify_eq. split; [done|]. split; [|done].
    exists []. by rewrite app_nil_r.
  - destruct (present (range_at tbl (a - AXIS_A))) eqn:Hp; cbn [negb] in Hrun.
    + destruct (libevdev_has_event_code (a_dev st) EV_ABS a) eqn:Hhas;
        cbn [negb] in Hrun.
      * apply IH in Hrun as (Hbits & (new & Hcalls & Hnew) & Hinfo).
        cbn [a_dev a_calls] in *.
        rewrite bits_set_abs_maximum, bits_set_abs_minimum in Hbits.
        split; [done|]. split.
        -- eexists. rewrite Hcalls, <- app_assoc. split; [reflexivity|].
           apply Forall_app. split.
           ++ repeat constructor; cbn [call_code]; done.
           ++ eapply Forall_impl; [exact Hnew|]. cbn.
              intros c [Hin Hpc]. split; [by right|done].
        -- intros axis Hax. rewrite Hinfo.
           ++ assert (Hne : axis ≠ a).
              { intros ->. destruct Hax as [Hn|Hn]; [|congruence].
                apply Hn. by left. }
              rewrite abs_info_set_abs_maximum_ne by done.
              by rewrite abs_info_set_abs_minimum_ne.
           ++ destruct Hax as [Hn|Hn]; [left|by right].
              intros Hin. apply Hn. by right.
      * simplify_eq. cbn [a_dev a_calls]. split; [done|]. split; [|done].
        exists []. by rewrite app_nil_r.
    + apply IH in Hrun as (Hbits & (new & Hcalls & Hnew) & Hinfo).
      split; [done|]. split.
      * exists new. split; [done|].
        eapply Forall_impl; [exact Hnew|]. cbn.
        intros c [Hin Hpc]. split; [by right|done].
      * intros axis Hax. apply Hinfo.
        destruct Hax as [Hn|Hn]; [left|by right].
        intros Hin. apply Hn. by right.
Qed.

Lemma load_finished indet fuel dev text b ap :
  load indet fuel dev (Some text) = Finished (b, ap) →
  ∃ rd, read_table indet fuel text = Finished rd
    ∧ apply_loop axis_codes (r_table rd)
        {| a_dev := dev; a_calls := []; a_err := r_err rd |} = (b, ap).
Proof.
  unfold load. destruct (read_table indet fuel text) as [rd| |]; [|done..].
  intros Heq. exists rd. split; [reflexivity|].
  exact (f_equal (λ e, match e with Finished x => x | _ => (b, ap) end) Heq).
Qed.

(** X24: after a successful [load], an axis the table read from the file
    does not mark present (or that lies outside ABS_X..ABS_RZ) has received
    no call of the setters, and the handle holds for it what it held. *)
Theorem unmapped_axis_untouched
    (indet : nat → locals) (fuel : nat) (dev : libevdev) (text : list ascii)
    (rd : reader) (ap : applier) (axis : Z) :
  read_table indet fuel text = Finished rd →
  load indet fuel dev (Some text) = Finished (true, ap) →
  axis ∉ axis_codes ∨ present (range_at (r_table rd) (axis - AXIS_A)) = false →
  Forall (λ c, call_code c ≠ axis) (a_calls ap)
  ∧ abs_info (a_dev ap) !! axis = abs_info dev !! axis
  ∧ libevdev_get_abs_info (a_dev ap) axis = libevdev_get_abs_info dev axis.
Proof.
  intros Hread Hload Hax.
  apply load_finished in Hload as (rd' & Hread' & Hrun).
  rewrite Hread in Hread'. simplify_eq.
  apply apply_loop_frame in Hrun as (_ & (new & Hcalls & Hnew) & Hinfo).
  cbn [a_dev a_calls app] in *.
  assert (Hsame : abs_info (a_dev ap) !! axis = abs_info dev !! axis)
    by (by apply Hinfo).
  split; [|split; [done|]].
  - rewrite Hcalls. eapply Forall_impl; [exact Hnew|]. cbn.
    intros c [Hin Hpc] Heq. rewrite Heq in Hin, Hpc.
    destruct Hax as [Hn|Hn]; [done|congruence].
  - unfold libevdev_get_abs_info. by rewrite Hsame.
Qed.

Lemma has_event_code_bits dev1 dev2 type code :
  bits dev1 = bits dev2 →
  libevdev_has_event_code dev1 type code = libevdev_has_event_code dev2 type code.
Proof. unfold libevdev_has_event_code. by intros ->. Qed.

(** When some axis is marked present in the table and missing from the
    device, the loop stops at the first such axis [bad]: the axes [before] it
    have been handled as in a run without mismatch, and nothing else. *)
Lemma apply_loop_mismatch axes tbl st m :
  m ∈ axes →
  present (range_at tbl (m - AXIS_A)) = true →
  libevdev_has_event_code (a_dev st) EV_ABS m = false →
  ∃ before bad after st1,
    axes = before ++ bad :: after
    ∧ present (range_at tbl (bad - AXIS_A)) = true
    ∧ libevdev_has_event_code (a_dev st) EV_ABS bad = false
    ∧ apply_loop before tbl st = (true, st1)
    ∧ apply_loop axes tbl st =
        (false, {| a_dev := a_dev st1; a_calls := a_calls st1;
                   a_err := a_err st ++ [MsgAxisNotInDevice bad] |}).
Proof.
  revert st. induction axes as [|a axes IH]; intros st Hin Hp Hhas.
  - by apply elem_of_nil in Hin.
  - cbn [apply_loop].
    destruct (present (range_at tbl (a - AXIS_A))) eqn:Hpa; cbn [negb].
    + destruct (libevdev_has_event_code (a_dev st) EV_ABS a) eqn:Hha; cbn [negb].
      * assert (Hne : m ≠ a) by congruence.
        apply elem_of_cons in Hin as [?|Hin]; [done|].
        set (st2 := {| a_dev := libevdev_set_abs_maximum
                                  (libevdev_set_abs_minimum (a_dev st) a
                                     (to_int32 (min (range_at tbl (a - AXIS_A)))))
                                  a (to_int32 (max (range_at tbl (a - AXIS_A))));
                       a_calls := a_calls st ++
                         [SetAbsMinimum a (to_int32 (min (range_at tbl (a - AXIS_A))));
                          SetAbsMaximum a (to_int32 (max (range_at tbl (a - AXIS_A))))];
                       a_err := a_err st |}).
        assert (Hbits : bits (a_dev st2) = bits (a_dev st)).
        { unfold st2. cbn [a_dev].
          by rewrite bits_set_abs_maximum, bits_set_abs_minimum. }
        destruct (IH st2 Hin Hp) as (before & bad & after & st1 & -> & Hpb & Hhb & Hrun & Hres).
        { by rewrite (has_event_code_bits _ _ _ _ Hbits). }
        exists (a :: before), bad, after, st1.
        rewrite (has_event_code_bits _ _ _ _ Hbits) in Hhb.
        split; [done|]. split; [done|]. split; [done|].
        cbn [apply_loop]. rewrite Hpa, Hha. cbn [negb]. fold st2.
        split; [done|]. rewrite Hres. reflexivity.
      * exists [], a, axes, st. by cbn.
    + assert (Hne : m ≠ a) by congruence.
      apply elem_of_cons in Hin as [?|Hin]; [done|].
      destruct (IH st Hin Hp Hhas) as (before & bad & after & st1 & -> & Hpb & Hhb & Hrun & Hres).
      exists (a :: before), bad, after, st1.
      split; [done|]. split; [done|]. split; [done|].
      cbn [apply_loop]. rewrite Hpa. cbn [negb]. done.
Qed.

Lemma abs_info_set_both dev axis vmin vmax :
  libevdev_has_event_code dev EV_ABS axis = true →
  abs_info (libevdev_set_abs_maximum (libevdev_set_abs_minimum dev axis vmin)
              axis vmax)
  = <[axis := {| minimum := vmin; maximum := vmax |}]> (abs_info dev).
Proof.
  intros Hhas. unfold libevdev_set_abs_minimum. rewrite Hhas.
  unfold libevdev_set_abs_maximum, libevdev_has_event_code in *.
  cbn [bits]. rewrite Hhas. cbn [abs_info].
  unfold libevdev_get_abs_info at 1. cbn [abs_info].
  rewrite lookup_insert_eq. cbn [default from_option id minimum].
  by rewrite insert_insert_eq.
Qed.

(** When the device has every axis the table marks present, the loop
    applies them all. *)
Lemma apply_loop_success axes tbl :
  ∀ st,
    (∀ a, a ∈ axes → present (range_at tbl (a - AXIS_A)) = true →
          libevdev_has_event_code (a_dev st) EV_ABS a = true) →
    ∃ st',
      apply_loop axes tbl st = (true, st')
      ∧ a_err st' = a_err st
      ∧ bits (a_dev st') = bits (a_dev st)
      ∧ a_calls st' = a_calls st ++ (present_axes tbl axes ≫= calls_for tbl)
      ∧ ∀ a, abs_info (a_dev st') !! a =
             if decide (a ∈ axes ∧ present (range_at tbl (a - AXIS_A)) = true)
             then Some (applied (range_at tbl (a - AXIS_A)))
             else abs_info (a_dev st) !! a.
Proof.
  induction axes as [|b axes IH]; intros st Hhas.
  - exists st. cbn. split; [done|]. split; [done|]. split; [done|].
    split; [by rewrite app_nil_r|].
    intros a. rewrite decide_False; [done|]. intros [Hin _].
    by apply elem_of_nil in Hin.
  - cbn [apply_loop]. unfold present_axes. rewrite filter_cons.
    destruct (present (range_at tbl (b - AXIS_A))) eqn:Hpb; cbn [negb].
    + rewrite Hhas by (done || by left). cbn [negb].
      rewrite decide_True by done.
      match goal with |- context [apply_loop axes tbl ?s] =>
        destruct (IH s) as (st' & Hrun & Herr & Hbits & Hcalls & Hinfo) end.
      { intros a Hin Hp. cbn [a_dev].
        rewrite (has_event_code_bits _ (a_dev st))
          by (by rewrite bits_set_abs_maximum, bits_set_abs_minimum).
        apply Hhas; [by right|done]. }
      cbn [a_dev a_calls a_err] in *.
      exists st'. split; [done|]. split; [done|]. split.
      { by rewrite Hbits, bits_set_abs_maximum, bits_set_abs_minimum. }
      split.
      { rewrite Hcalls, <- app_assoc. by cbn. }
      intros a. rewrite Hinfo.
      rewrite abs_info_set_both by (apply Hhas; [by left|done]).
      destruct (decide (a = b)) as [->|Hne].
      * rewrite lookup_insert_eq.
        rewrite (decide_True (P := b ∈ b :: axes ∧ _)) by (split; [by left|done]).
        by destruct (decide _).
      * rewrite lookup_insert_ne by done.
        destruct (decide (a ∈ axes ∧ _)) as [[Hin Hp]|Hn].
        -- rewrite decide_True; [done|]. split; [by right|done].
        -- rewrite decide_False; [done|]. intros [Hin Hp]. apply Hn.
           split; [|done]. by apply elem_of_cons in Hin as [?|?].
    + rewrite decide_False by congruence.
      destruct (IH st) as (st' & Hrun & Herr & Hbits & Hcalls & Hinfo).
      { intros a Hin Hp. apply Hhas; [by right|done]. }
      exists st'. split; [done|]. split; [done|]. split; [done|].
      split; [done|]. intros a. rewrite Hinfo.
      destruct (decide (a ∈ axes ∧ _)) as [[Hin Hp]|Hn].
      * rewrite decide_True; [done|]. split; [by right|done].
      * rewrite decide_False; [done|]. intros [Hin Hp]. apply Hn.
        split; [|done]. apply elem_of_cons in Hin as [->|?]; [congruence|done].
Qed.

Lemma apply_loop_true_has axes tbl st st' :
  apply_loop axes tbl st = (true, st') →
  ∀ a, a ∈ axes → present (range_at tbl (a - AXIS_A)) = true →
       libevdev_has_event_code (a_dev st) EV_ABS a = true.
Proof.
  intros Hrun a Hin Hp.
  destruct (libevdev_has_event_code (a_dev st) EV_ABS a) eqn:Hhas; [done|].
  destruct (apply_loop_mismatch axes tbl st a Hin Hp Hhas)
    as (? & ? & ? & ? & _ & _ & _ & _ & Hres).
  rewrite Hres in Hrun. discriminate.
Qed.

(** C2, as stated, fails: the file maps axes 0 and 1, the device has only
    axis 0.  [load] reports axis 1 and returns false, but by then it has
    already set the range of axis 0. *)
Lemma mismatch_partial_counterexample :
  load no_garbage 2 x_only
    (Some (lines ["axis 0: min = 1, max = 2"%string;
                  "axis 1: min = 3, max = 4"%string]))
    = Finished (false,
        {| a_dev := a_dev x_only_applied;
           a_calls := [SetAbsMinimum 0 1; SetAbsMaximum 0 2];
           a_err := [MsgAxisNotInDevice 1] |})
  ∧ libevdev_has_event_code x_only EV_ABS 1 = false
  ∧ libevdev_get_abs_info x_only 0 = {| minimum := 0; maximum := 0 |}
  ∧ libevdev_get_abs_info (a_dev x_only_applied) 0
    = {| minimum := 1; maximum := 2 |}
  ∧ a_dev x_only_applied ≠ x_only.
Proof.
  split; [vm_compute; reflexivity|]. split; [by vm_compute|].
  split; [by vm_compute|]. split; [by vm_compute|].
  intros Heq.
  assert (H : libevdev_get_abs_info (a_dev x_only_applied) 0
              = libevdev_get_abs_info x_only 0) by (by rewrite Heq).
  by vm_compute in H.
Qed.

(** C2, amended: if the table read from the file marks present an axis the
    device lacks, [load] returns false with the message for the first such
    axis [bad] in ascending order.  The entries of the present axes [before]
    it (all of which the device has) have been applied as a load without
    mismatch applies them: the calls made are [set_abs_minimum] and
    [set_abs_maximum] with the entry's min and max, once per present axis
    before [bad] in ascending order, and the handle then holds these values
    for them.  No setter is called for [bad] or a later axis, and the
    information the handle holds for every axis not applied is unchanged. *)
Theorem mismatch_stops_at_first_missing_axis
    (indet : nat → locals) (fuel : nat) (dev : libevdev) (text : list ascii)
    (rd : reader) (m : Z) :
  read_table indet fuel text = Finished rd →
  m ∈ axis_codes →
  present (range_at (r_table rd) (m - AXIS_A)) = true →
  libevdev_has_event_code dev EV_ABS m = false →
  ∃ before bad after ap,
    axis_codes = before ++ bad :: after
    ∧ present (range_at (r_table rd) (bad - AXIS_A)) = true
    ∧ libevdev_has_event_code dev EV_ABS bad = false
    ∧ (∀ a, a ∈ before → present (range_at (r_table rd) (a - AXIS_A)) = true →
         libevdev_has_event_code dev EV_ABS a = true)
    ∧ load indet fuel dev (Some text) = Finished (false, ap)
    ∧ a_err ap = r_err rd ++ [MsgAxisNotInDevice bad]
    ∧ bits (a_dev ap) = bits dev
    ∧ a_calls ap = present_axes (r_table rd) before ≫= calls_for (r_table rd)
    ∧ (∀ a, a ∈ before → present (range_at (r_table rd) (a - AXIS_A)) = true →
         libevdev_get_abs_info (a_dev ap) a
         = applied (range_at (r_table rd) (a - AXIS_A)))
    ∧ (∀ a, a ∉ before ∨ present (range_at (r_table rd) (a - AXIS_A)) = false →
         abs_info (a_dev ap) !! a = abs_info dev !! a)
    ∧ (∀ a, a = bad ∨ a ∈ after →
         Forall (λ c, call_code c ≠ a) (a_calls ap)
         ∧ abs_info (a_dev ap) !! a = abs_info dev !! a).
Proof.
  intros Hread Hin Hp Hhas.
  destruct (apply_loop_mismatch axis_codes (r_table rd)
              {| a_dev := dev; a_calls := []; a_err := r_err rd |} m Hin Hp Hhas)
    as (before & bad & after & st1 & Hsplit & Hpb & Hhb & Hrun & Hres).
  pose proof (apply_loop_true_has _ _ _ _ Hrun) as Hbefore.
  destruct (apply_loop_success before (r_table rd)
              {| a_dev := dev; a_calls := []; a_err := r_err rd |} Hbefore)
    as (st' & Hrun' & _ & Hbits & Hcalls & Hinfo).
  assert (Hst : st1 = st') by congruence. subst st'. clear Hrun'.
  cbn [a_dev a_calls a_err app] in *.
  assert (Hnd : NoDup axis_codes) by apply NoDup_seqZ.
  rewrite Hsplit in Hnd. apply NoDup_app in Hnd as (_ & Hdisj & _).
  assert (Hkeep : ∀ a,
            a ∉ before ∨ present (range_at (r_table rd) (a - AXIS_A)) = false →
            abs_info (a_dev st1) !! a = abs_info dev !! a).
  { intros a Ha. rewrite Hinfo. rewrite decide_False; [done|].
    intros [Hina Hpa]. destruct Ha as [Ha|Ha]; [done|congruence]. }
  exists before, bad, after,
    {| a_dev := a_dev st1; a_calls := a_calls st1;
       a_err := r_err rd ++ [MsgAxisNotInDevice bad] |}.
  cbn [a_dev a_calls a_err].
  split; [done|]. split; [done|]. split; [done|]. split; [done|].
  split; [unfold load; by rewrite Hread, Hres|].
  split; [done|]. split; [done|]. split; [done|]. split; [|split; [done|]].
  - intros a Hina Hpa. unfold libevdev_get_abs_info. rewrite Hinfo.
    by rewrite decide_True.
  - intros a Ha.
    assert (Hnin : a ∉ before).
    { intros Hina. apply (Hdisj a Hina).
      destruct Ha as [->|Ha]; [by left|by right]. }
    split; [|apply Hkeep; by left].
    rewrite Hcalls. apply Forall_forall. intros c Hc.
    apply list_elem_of_bind in Hc as (b & Hc & Hb).
    apply list_elem_of_filter in Hb as [_ Hb].
    assert (Hcode : call_code c = b).
    { unfold calls_for in Hc.
      apply elem_of_cons in Hc as [->|Hc]; [done|].
      apply elem_of_cons in Hc as [->|Hc]; [done|].
      by apply elem_of_nil in Hc. }
    rewrite Hcode. by intros ->.
Qed.

(** ** load: reading the file *)

Lemma read_loop_eof indet fuel iter st :
  feof (r_fp st) = true → read_loop indet fuel iter st = Finished st.
Proof. intros Heof. destruct fuel; cbn [read_loop]; by rewrite Heof. Qed.

Lemma read_loop_step indet fuel iter st :
  feof (r_fp st) = false →
  read_loop indet (S fuel) iter st =
  match read_body indet iter st with
  | Finished st' => read_loop indet fuel (S iter) st'
  | OutOfBounds i => OutOfBounds i
  | OutOfFuel => OutOfFuel
  end.
Proof. intros Heof. cbn [read_loop]. by rewrite Heof. Qed.

(** C10: the index of the store in the parse loop comes from the file and is
    not checked.  The file with the single line [axis 100: min = 0, max = 1]
    makes [load] store at index 100 of the six-entry table; and a line cut
    after its second field is stored all the same, with whatever [max]
    happened to hold. *)
Theorem load_unchecked_index (indet : nat → locals) (fuel : nat) (dev : libevdev) :
  load indet (S fuel) dev (Some (lines ["axis 100: min = 0, max = 1"%string]))
    = OutOfBounds 100
  ∧ ¬ (0 <= 100 < AXIS_COUNT)
  ∧ fscanf_map_line (fopen_r (list_ascii_of_string "axis 3: min = 7"))
    = (2, [3; 7], {| unread := []; eof_seen := true |})
  ∧ read_table indet (S fuel) (list_ascii_of_string "axis 3: min = 7")
    = Finished
        {| r_fp := {| unread := []; eof_seen := true |};
           r_table := set_range zero_table 3
                        {| present := true; min := 7; max := l_max (indet 0%nat) |};
           r_err := [] |}.
Proof.
  split; [by vm_compute|].
  split; [rewrite AXIS_COUNT_value; lia|].
  split; [by vm_compute|].
  unfold read_table. rewrite read_loop_step by done.
  set (body := read_body _ _ _).
  assert (Hbody : body = Finished
            {| r_fp := {| unread := []; eof_seen := true |};
               r_table := set_range zero_table 3
                   {| present := true; min := 7; max := l_max (indet 0%nat) |};
               r_err := [] |}) by (vm_compute; reflexivity).
  rewrite Hbody. by apply read_loop_eof.
Qed.

(** C3 at the table with no axis present: [detect] writes an empty file for
    it, and on the empty file the body of the loop of [load] runs once.
    [fscanf] returns [EOF] without storing anything, the failure is reported,
    and the entry for whatever [axis] happened to hold is marked present (or
    the store falls outside the table).  In no case does the table with no
    axis present come back. *)
Theorem empty_table_not_read_back (indet : nat → locals) (fuel : nat) :
  write_table zero_table = []
  ∧ fscanf_map_line (fopen_r []) = (EOF, [], {| unread := []; eof_seen := true |})
  ∧ read_table indet (S fuel) (write_table zero_table) =
      match store_range zero_table (l_axis (indet 0%nat) - AXIS_A)
              {| present := true; min := l_min (indet 0%nat);
                 max := l_max (indet 0%nat) |} with
      | Some tbl =>
          Finished {| r_fp := {| unread := []; eof_seen := true |};
                      r_table := tbl; r_err := [MsgReadingLine] |}
      | None => OutOfBounds (l_axis (indet 0%nat) - AXIS_A)
      end
  ∧ match read_table indet (S fuel) (write_table zero_table) with
    | Finished rd =>
        present (range_at (r_table rd) (l_axis (indet 0%nat) - AXIS_A)) = true
        ∧ present (range_at zero_table (l_axis (indet 0%nat) - AXIS_A)) = false
    | OutOfBounds i => ¬ (0 <= i < AXIS_COUNT)
    | OutOfFuel => False
    end.
Proof.
  assert (Hw : write_table zero_table = []) by (by vm_compute).
  assert (Hs : fscanf_map_line (fopen_r []) =
               (EOF, [], {| unread := []; eof_seen := true |})) by (by vm_compute).
  assert (Hrun : read_table indet (S fuel) [] =
      match store_range zero_table (l_axis (indet 0%nat) - AXIS_A)
              {| present := true; min := l_min (indet 0%nat);
                 max := l_max (indet 0%nat) |} with
      | Some tbl =>
          Finished {| r_fp := {| unread := []; eof_seen := true |};
                      r_table := tbl; r_err := [MsgReadingLine] |}
      | None => OutOfBounds (l_axis (indet 0%nat) - AXIS_A)
      end).
  { unfold read_table. rewrite read_loop_step by done.
    unfold read_body. cbn [r_fp r_table r_err]. rewrite Hs.
    change (EOF <? 0) with true. cbn [store_results lookup list_lookup default].
    cbn [l_axis l_min l_max app].
    destruct (store_range _ _ _) as [tbl|]; [|done].
    by apply read_loop_eof. }
  rewrite Hw. split; [done|]. split; [done|]. split; [done|].
  rewrite Hrun. unfold store_range. rewrite length_zero_table.
  case_bool_decide as Hi.
  - split.
    + cbn [r_table]. rewrite range_at_set_range_eq; [done|].
      by rewrite length_zero_table.
    + unfold range_at, zero_table. rewrite lookup_total_replicate_2; [done|].
      rewrite AXIS_COUNT_value. lia.
  - by rewrite AXIS_COUNT_value.
Qed.

(** The parse loop on the empty file: one pass, in which [fscanf] returns
    [EOF], the failure is reported and the locals are stored as they are. *)
Lemma read_table_empty indet fuel :
  read_table indet (S fuel) [] =
  match store_range zero_table (l_axis (indet 0%nat) - AXIS_A)
          {| present := true; min := l_min (indet 0%nat);
             max := l_max (indet 0%nat) |} with
  | Some tbl =>
      Finished {| r_fp := {| unread := []; eof_seen := true |};
                  r_table := tbl; r_err := [MsgReadingLine] |}
  | None => OutOfBounds (l_axis (indet 0%nat) - AXIS_A)
  end.
Proof.
  assert (Hs : fscanf_map_line (fopen_r []) =
               (EOF, [], {| unread := []; eof_seen := true |})) by (by vm_compute).
  unfold read_table. rewrite read_loop_step by done.
  unfold read_body. cbn [r_fp r_table r_err]. rewrite Hs.
  change (EOF <? 0) with true. cbn [store_results lookup list_lookup default].
  cbn [l_axis l_min l_max app].
  destruct (store_range _ _ _) as [tbl|]; [|done].
  by apply read_loop_eof.
Qed.

(** C8 at the empty mapping file, which names no axis.  The body of the
    parse loop runs once: [fscanf] returns [EOF] and stores nothing, the
    failure is reported, and the entry for whatever [axis] held is marked
    present with whatever [min] and [max] held.  Whenever that value of
    [axis] is an axis of the device, [load] then returns true and has called
    both setters for it: the handle holds the left-over values for an axis
    that no line of the file names, and only the other axes are as before. *)
Theorem empty_file_load_sets_an_axis
    (indet : nat → locals) (fuel : nat) (dev : libevdev) :
  AXIS_A <= l_axis (indet 0%nat) <= AXIS_Z →
  libevdev_has_event_code dev EV_ABS (l_axis (indet 0%nat)) = true →
  ∃ ap,
    load indet (S fuel) dev (Some []) = Finished (true, ap)
    ∧ a_err ap = [MsgReadingLine]
    ∧ a_calls ap =
        [ SetAbsMinimum (l_axis (indet 0%nat)) (to_int32 (l_min (indet 0%nat)));
          SetAbsMaximum (l_axis (indet 0%nat)) (to_int32 (l_max (indet 0%nat))) ]
    ∧ libevdev_get_abs_info (a_dev ap) (l_axis (indet 0%nat))
      = {| minimum := to_int32 (l_min (indet 0%nat));
           maximum := to_int32 (l_max (indet 0%nat)) |}
    ∧ ∀ a, a ≠ l_axis (indet 0%nat) →
        abs_info (a_dev ap) !! a = abs_info dev !! a.
Proof.
  intros Ha Hhas.
  pose proof (read_table_empty indet fuel) as Hread.
  remember (l_axis (indet 0%nat)) as a eqn:Heqa.
  set (r := {| present := true; min := l_min (indet 0%nat);
               max := l_max (indet 0%nat) |}) in *.
  unfold store_range in Hread. rewrite length_zero_table in Hread.
  rewrite bool_decide_true in Hread
    by (unfold AXIS_A, AXIS_Z, ABS_X, ABS_RZ in *; lia).
  set (tbl := set_range zero_table (a - AXIS_A) r) in *.
  assert (Hat : range_at tbl (a - AXIS_A) = r).
  { apply range_at_set_range_eq. rewrite length_zero_table.
    unfold AXIS_A, AXIS_Z, ABS_X, ABS_RZ in *. lia. }
  assert (Hother : ∀ b, b ∈ axis_codes → b ≠ a →
            present (range_at tbl (b - AXIS_A)) = false).
  { intros b Hb%elem_of_axis_codes Hne. unfold tbl.
    rewrite range_at_set_range_ne
      by (unfold AXIS_A, AXIS_Z, ABS_X, ABS_RZ in *; lia).
    unfold range_at, zero_table. rewrite lookup_total_replicate_2; [done|].
    unfold AXIS_COUNT, AXIS_A, AXIS_Z, ABS_X, ABS_RZ in *. lia. }
  assert (Hsup : ∀ b, b ∈ axis_codes →
            present (range_at tbl (b - AXIS_A)) = true →
            libevdev_has_event_code dev EV_ABS b = true).
  { intros b Hb Hp. destruct (decide (b = a)) as [->|Hne]; [done|].
    rewrite Hother in Hp by done. discriminate. }
  destruct (apply_loop_success axis_codes tbl
              {| a_dev := dev; a_calls := []; a_err := [MsgReadingLine] |} Hsup)
    as (ap & Hrun & Herr & _ & Hcalls & Hinfo).
  cbn [a_dev a_calls a_err app] in *.
  assert (Hpresent : present_axes tbl axis_codes = [a]).
  { unfold tbl, r.
    assert (Hcases : a = 0 ∨ a = 1 ∨ a = 2 ∨ a = 3 ∨ a = 4 ∨ a = 5)
      by (unfold AXIS_A, AXIS_Z, ABS_X, ABS_RZ in *; lia).
    clear -Hcases.
    destruct Hcases as [->|[->|[->|[->|[->| ->]]]]]; reflexivity. }
  exists ap. unfold load. rewrite Hread. cbn [r_table r_err]. rewrite Hrun.
  split; [done|]. split; [done|]. split; [|split].
  - rewrite Hcalls, Hpresent. cbn [mbind list_bind app]. unfold calls_for.
    by rewrite Hat.
  - unfold libevdev_get_abs_info. rewrite Hinfo.
    rewrite decide_True by (split; [by apply elem_of_axis_codes|by rewrite Hat]).
    by rewrite Hat.
  - intros b Hne. rewrite Hinfo. rewrite decide_False; [done|].
    intros [Hb Hp]. rewrite Hother in Hp by done. discriminate.
Qed.

Lemma read_loop_stuck indet fuel iter tbl err :
  finishes (read_loop indet fuel iter
              {| r_fp := {| unread := lines ["foo"%string]; eof_seen := false |};
                 r_table := tbl; r_err := err |}) = false.
Proof.
  revert iter tbl. induction fuel as [|fuel IH]; intros iter tbl; [done|].
  rewrite read_loop_step by done. unfold read_body. cbn [r_fp r_table r_err].
  assert (Hs : fscanf_map_line {| unread := lines ["foo"%string]; eof_seen := false |}
               = (0, [], {| unread := lines ["foo"%string]; eof_seen := false |}))
    by (by vm_compute).
  rewrite Hs. change (0 <? 0) with false.
  destruct (store_range _ _ _) as [tbl'|]; [apply IH|done].
Qed.

(** C4 at the file [garbled_file]: on the line "foo" [fscanf] returns 0,
    which is not negative, so nothing is reported; it consumes nothing and
    does not reach the end of the file, so the next call finds the same
    line.  Whatever the fuel, the read never finishes: it is still looping,
    or an indeterminate [axis] has sent a store outside the table. *)
Theorem malformed_line_never_finishes (indet : nat → locals) (fuel : nat) :
  fscanf_map_line {| unread := lines ["foo"%string]; eof_seen := false |}
    = (0, [], {| unread := lines ["foo"%string]; eof_seen := false |})
  ∧ finishes (read_table indet fuel garbled_file) = false
  ∧ finishes (load indet fuel x_only (Some garbled_file)) = false.
Proof.
  split; [by vm_compute|].
  assert (Hread : finishes (read_table indet fuel garbled_file) = false).
  { unfold read_table. destruct fuel as [|fuel]; [done|].
    rewrite read_loop_step by done.
    set (body := read_body _ _ _).
    assert (Hbody : body = Finished
              {| r_fp := {| unread := lines ["foo"%string]; eof_seen := false |};
                 r_table := set_range zero_table 0
                              {| present := true; min := 1; max := 2 |};
                 r_err := [] |}) by (vm_compute; reflexivity).
    rewrite Hbody. apply read_loop_stuck. }
  split; [done|].
  unfold load. by destruct (read_table indet fuel garbled_file).
Qed.

(** ** Reading back what was printed *)

Lemma char_code_digit_char d : 0 <= d < 10 → char_code (digit_char d) = 48 + d.
Proof.
  intros Hd. unfold char_code, digit_char.
  rewrite N_ascii_embedding by lia. lia.
Qed.

Lemma isdigit_digit_char d : 0 <= d < 10 → isdigit (digit_char d) = true.
Proof.
  intros Hd. unfold isdigit. rewrite char_code_digit_char by done.
  apply andb_true_iff. split; apply Z.leb_le; lia.
Qed.

Lemma digit_value_digit_char d : 0 <= d < 10 → digit_value (digit_char d) = d.
Proof.
  intros Hd. unfold digit_value. rewrite char_code_digit_char by done. lia.
Qed.

Lemma isdigit_range c : isdigit c = true → 48 <= char_code c <= 57.
Proof.
  unfold isdigit. rewrite andb_true_iff, !Z.leb_le. tauto.
Qed.

Lemma isdigit_not_space c : isdigit c = true → isspace c = false.
Proof.
  intros Hd%isdigit_range. unfold isspace.
  apply orb_false_iff. split; [apply Z.eqb_neq; lia|].
  apply andb_false_iff. right. apply Z.leb_gt. lia.
Qed.

Lemma isdigit_not_sign c :
  isdigit c = true → Ascii.eqb c "-" = false ∧ Ascii.eqb c "+" = false.
Proof.
  intros Hd%isdigit_range.
  split; apply Ascii.eqb_neq; intros ->; vm_compute in Hd;
    destruct Hd as [Hd _]; by apply Hd.
Qed.

Lemma decimal_digits_spec fuel n :
  (0 < fuel)%nat → 0 <= n < 10 ^ Z.of_nat fuel →
  Forall (λ c, isdigit c = true) (decimal_digits fuel n)
  ∧ digits_value 0 (decimal_digits fuel n) = n
  ∧ decimal_digits fuel n ≠ [].
Proof.
  revert n. induction fuel as [|fuel IH]; intros n Hfuel Hn; [lia|].
  cbn [decimal_digits]. destruct (Z.ltb_spec n 10) as [Hlt|Hge].
  - split; [|split; [|done]].
    + repeat constructor. apply isdigit_digit_char. lia.
    + unfold digits_value. cbn [foldl].
      rewrite digit_value_digit_char by lia. lia.
  - assert (Hpos : (0 < fuel)%nat).
    { destruct fuel; [|lia]. change (10 ^ Z.of_nat 1) with 10 in Hn. lia. }
    assert (Hdiv : 0 <= n / 10 < 10 ^ Z.of_nat fuel).
    { split; [apply Z.div_pos; lia|].
      apply Z.div_lt_upper_bound; [lia|].
      rewrite Nat2Z.inj_succ, Z.pow_succ_r in Hn by lia. lia. }
    destruct (IH (n / 10) Hpos Hdiv) as (Hall & Hval & Hne).
    pose proof (Z.mod_pos_bound n 10 ltac:(lia)) as Hmod.
    split; [|split].
    + apply Forall_app. split; [done|].
      repeat constructor. by apply isdigit_digit_char.
    + unfold digits_value in *. rewrite foldl_app. cbn [foldl].
      rewrite Hval, digit_value_digit_char by done.
      pose proof (Z.div_mod n 10 ltac:(lia)). lia.
    + intros Hnil. apply app_eq_nil in Hnil as [_ ?]. done.
Qed.

Lemma print_unsigned_spec n :
  0 <= n →
  Forall (λ c, isdigit c = true) (print_unsigned n)
  ∧ digits_value 0 (print_unsigned n) = n
  ∧ print_unsigned n ≠ [].
Proof.
  intros Hn. unfold print_unsigned. apply decimal_digits_spec; [lia|].
  split; [done|].
  pose proof (Z.log2_up_nonneg (n + 1)) as Hk.
  destruct (Z.log2_log2_up_spec (n + 1) ltac:(lia)) as [_ Hup].
  rewrite Nat2Z.inj_succ, Z2Nat.id, Z.pow_succ_r by done.
  pose proof (Z.pow_le_mono_l 2 10 (Z.log2_up (n + 1)) ltac:(lia)) as Hpow.
  lia.
Qed.

Lemma print_unsigned_head n :
  0 <= n → ∃ d ds, print_unsigned n = d :: ds ∧ isdigit d = true.
Proof.
  intros Hn. destruct (print_unsigned_spec n Hn) as (Hall & _ & Hne).
  destruct (print_unsigned n) as [|d ds]; [done|].
  exists d, ds. split; [done|]. by apply Forall_cons in Hall as [? _].
Qed.

Lemma read_digits_app l rest acc :
  Forall (λ c, isdigit c = true) l →
  read_digits acc (l ++ rest) = read_digits (digits_value acc l) rest.
Proof.
  intros Hall. revert acc. induction Hall as [|c l Hc _ IH]; intros acc; [done|].
  cbn [app read_digits]. rewrite Hc. apply IH.
Qed.

Lemma read_number_printed e n c rest :
  0 <= n → isdigit c = false →
  read_number {| unread := print_unsigned n ++ c :: rest; eof_seen := e |}
  = (Some (false, n), {| unread := c :: rest; eof_seen := e |}).
Proof.
  intros Hn Hc.
  destruct (print_unsigned_spec n Hn) as (Hall & Hval & _).
  destruct (print_unsigned_head n Hn) as (d & ds & Hprint & Hd).
  destruct (isdigit_not_sign d Hd) as [Hminus Hplus].
  unfold read_number. cbn [unread]. rewrite Hprint at 1. cbn [app].
  rewrite Hminus, Hplus.
  rewrite read_digits_app by done. rewrite Hval.
  cbn [read_digits]. rewrite Hc.
  rewrite bool_decide_false.
  - unfold after_read. cbn [eof_seen is_nil]. by rewrite orb_false_r.
  - rewrite length_app. destruct (print_unsigned n); [done|]. cbn. lia.
Qed.

Lemma eat_white_printed e n rest :
  0 <= n →
  eat_white {| unread := print_unsigned n ++ rest; eof_seen := e |}
  = {| unread := print_unsigned n ++ rest; eof_seen := e |}.
Proof.
  intros Hn. destruct (print_unsigned_head n Hn) as (d & ds & -> & Hd).
  unfold eat_white, after_read. cbn [unread eof_seen app skip_spaces].
  rewrite (isdigit_not_space d Hd). cbn [is_nil]. by rewrite orb_false_r.
Qed.

Lemma to_uint32_small n : is_uint32 n → to_uint32 (strtoul_value false n) = n.
Proof.
  unfold is_uint32, to_uint32, strtoul_value. intros Hn.
  destruct (Z.ltb_spec (2 ^ 64 - 1) n); [lia|]. apply Z.mod_small. lia.
Qed.

Lemma to_int32_small n : 0 <= n < 2 ^ 31 → to_int32 (strtol_value false n) = n.
Proof.
  unfold to_int32, strtol_value. intros Hn.
  rewrite Z.min_r by lia. rewrite Z.mod_small; lia.
Qed.

Lemma vfscanf_ordinary ds c rest e done :
  vfscanf (Ordinary c :: ds) {| unread := c :: rest; eof_seen := e |} done
  = vfscanf ds {| unread := rest; eof_seen := e |} done.
Proof. cbn [vfscanf unread eof_seen]. by rewrite Ascii.eqb_refl. Qed.

Lemma vfscanf_white ds w x rest e done :
  isspace x = true →
  vfscanf (White w :: ds) {| unread := x :: rest; eof_seen := e |} done
  = vfscanf ds (eat_white {| unread := rest; eof_seen := e |}) done.
Proof.
  intros Hx. cbn [vfscanf]. f_equal.
  unfold eat_white, after_read. cbn [unread eof_seen skip_spaces]. by rewrite Hx.
Qed.

Lemma eat_white_nonspace x rest e :
  isspace x = false →
  eat_white {| unread := x :: rest; eof_seen := e |}
  = {| unread := x :: rest; eof_seen := e |}.
Proof.
  intros Hx. unfold eat_white, after_read. cbn [unread eof_seen skip_spaces].
  rewrite Hx. cbn [is_nil]. by rewrite orb_false_r.
Qed.

Lemma vfscanf_conv_u ds e n c rest done :
  is_uint32 n → isdigit c = false →
  vfscanf (Conv_u :: ds)
    {| unread := print_unsigned n ++ c :: rest; eof_seen := e |} done
  = vfscanf ds {| unread := c :: rest; eof_seen := e |} (done ++ [n]).
Proof.
  intros Hn Hc. assert (0 <= n) by (unfold is_uint32 in Hn; lia).
  cbn [vfscanf]. rewrite eat_white_printed by done.
  rewrite read_number_printed by done.
  destruct (print_unsigned_head n) as (d & ds' & -> & _); [done|].
  cbn [unread app is_nil]. by rewrite to_uint32_small.
Qed.

Lemma print_signed_nonneg n : 0 <= n → print_signed n = print_unsigned n.
Proof. intros Hn. unfold print_signed. by destruct (Z.ltb_spec n 0); [lia|]. Qed.

Lemma vfscanf_conv_d ds e n c rest done :
  0 <= n < 2 ^ 31 → isdigit c = false →
  vfscanf (Conv_d :: ds)
    {| unread := print_unsigned n ++ c :: rest; eof_seen := e |} done
  = vfscanf ds {| unread := c :: rest; eof_seen := e |} (done ++ [n]).
Proof.
  intros Hn Hc.
  cbn [vfscanf]. rewrite eat_white_printed by lia.
  rewrite read_number_printed by (done || lia).
  destruct (print_unsigned_head n) as (d & ds' & -> & _); [lia|].
  cbn [unread app is_nil]. by rewrite to_int32_small.
Qed.

(** The characters of a line of the mapping file. *)
Lemma map_line_eq axis r rest :
  map_line axis r ++ rest =
  list_ascii_of_string "axis " ++ print_signed axis
  ++ list_ascii_of_string ": min = " ++ print_unsigned (min r)
  ++ list_ascii_of_string ", max = " ++ print_unsigned (max r)
  ++ newline :: rest.
Proof.
  unfold map_line, map_line_directives. cbn [format_output list_ascii_of_string].
  repeat (progress (cbn [app]; rewrite <- ?app_assoc)). reflexivity.
Qed.

(** [fscanf] on a stream that starts with a line [detect] printed: the three
    fields are stored and the stream stands after the white space that
    follows the line. *)
Lemma fscanf_map_line_printed axis r rest :
  0 <= axis < 2 ^ 31 → is_uint32 (min r) → is_uint32 (max r) →
  fscanf_map_line {| unread := map_line axis r ++ rest; eof_seen := false |}
  = (3, [axis; min r; max r],
     eat_white {| unread := rest; eof_seen := false |}).
Proof.
  intros Hax Hmin Hmax. unfold fscanf_map_line, map_line_directives.
  assert (0 <= min r ∧ 0 <= max r) as [? ?] by (unfold is_uint32 in *; lia).
  rewrite map_line_eq, print_signed_nonneg by lia.
  cbn [list_ascii_of_string app].
  repeat first
    [ rewrite vfscanf_ordinary
    | rewrite vfscanf_white by reflexivity
    | rewrite eat_white_printed by lia
    | rewrite eat_white_nonspace by reflexivity
    | rewrite vfscanf_conv_d by (done || reflexivity)
    | rewrite vfscanf_conv_u by (done || reflexivity) ].
  reflexivity.
Qed.

Lemma eat_white_map_line axis r rest e :
  eat_white {| unread := map_line axis r ++ rest; eof_seen := e |}
  = {| unread := map_line axis r ++ rest; eof_seen := e |}.
Proof.
  rewrite map_line_eq. cbn [list_ascii_of_string app].
  by rewrite eat_white_nonspace by reflexivity.
Qed.

(** On a file made of at least one printed line the loop stores every line
    and ends with the last one, without a report. *)
Lemma read_loop_lines indet src axes :
  ∀ a tbl fuel iter err,
    Forall (printable src) (a :: axes) →
    Z.of_nat (length tbl) = AXIS_COUNT →
    (length (a :: axes) <= fuel)%nat →
    read_loop indet fuel iter
      {| r_fp := {| unread := lines_of src (a :: axes); eof_seen := false |};
         r_table := tbl; r_err := err |}
    = Finished
        {| r_fp := {| unread := []; eof_seen := true |};
           r_table := store_all src tbl (a :: axes);
           r_err := err |}.
Proof.
  induction axes as [|a2 axes IH]; intros a tbl fuel iter err Hall Hlen Hfuel;
    (destruct fuel as [|fuel]; [cbn in Hfuel; lia|]);
    apply Forall_cons in Hall as [(Ha & Hmin & Hmax) Hall];
    rewrite read_loop_step by done;
    unfold read_body; cbn [r_fp r_table r_err];
    unfold lines_of; cbn [fmap list_fmap concat];
    (rewrite fscanf_map_line_printed;
       [|unfold AXIS_A, AXIS_Z, ABS_X, ABS_RZ in Ha; lia|done|done]);
    change (3 <? 0) with false;
    cbn [store_results lookup list_lookup from_option id l_axis l_min l_max];
    unfold store_range;
    (rewrite bool_decide_true
       by (rewrite Hlen; unfold AXIS_COUNT, AXIS_A, AXIS_Z, ABS_X, ABS_RZ in *;
           lia)).
  - rewrite read_loop_eof by done. reflexivity.
  - rewrite eat_white_map_line.
    change (map_line a2 (range_at src (a2 - AXIS_A))
            ++ concat ((λ a0, map_line a0 (range_at src (a0 - AXIS_A))) <$> axes))
      with (lines_of src (a2 :: axes)).
    rewrite IH; [reflexivity|done|by rewrite length_set_range|].
    cbn [length] in *. lia.
Qed.

Lemma range_at_store_all src axes :
  ∀ tbl j,
    0 <= j → Forall (λ a, AXIS_A <= a) axes →
    range_at (store_all src tbl axes) j =
    if decide (j + AXIS_A ∈ axes) then
      if decide (j < Z.of_nat (length tbl)) then stored (range_at src j)
      else range_at tbl j
    else range_at tbl j.
Proof.
  induction axes as [|a axes IH]; intros tbl j Hj Hall.
  - cbn. rewrite decide_False; [done|]. apply not_elem_of_nil.
  - apply Forall_cons in Hall as [Ha Hall].
    unfold store_all in *. cbn [foldl]. rewrite IH by done.
    rewrite length_set_range.
    destruct (decide (j = a - AXIS_A)) as [->|Hne].
    + replace (a - AXIS_A + AXIS_A) with a by lia.
      rewrite (decide_True (P := a ∈ a :: axes)) by apply list_elem_of_here.
      destruct (decide (a - AXIS_A < Z.of_nat (length tbl))) as [Hlt|Hge].
      * rewrite range_at_set_range_eq by lia.
        repeat case_decide; done || lia.
      * unfold range_at, set_range. rewrite list_insert_ge by lia.
        repeat case_decide; done || lia.
    + rewrite range_at_set_range_ne by lia.
      destruct (decide (j + AXIS_A ∈ axes)) as [Hin|Hnin].
      * rewrite (decide_True (P := j + AXIS_A ∈ a :: axes)); [done|]. by right.
      * rewrite (decide_False (P := j + AXIS_A ∈ a :: axes)); [done|].
        intros [Heq|Hin]%elem_of_cons; [lia|done].
Qed.

(** The round trip for every table with at least one axis present: reading
    the file written from it gives, without any report, a table with the
    same axes present and the same min and max for each of them. *)
Lemma round_trip_some_axis_present indet fuel tbl :
  Z.of_nat (length tbl) = AXIS_COUNT →
  Forall (λ r, is_uint32 (min r) ∧ is_uint32 (max r)) tbl →
  (∃ a, a ∈ axis_codes ∧ present (range_at tbl (a - AXIS_A)) = true) →
  (6 <= fuel)%nat →
  ∃ rd,
    read_table indet fuel (write_table tbl) = Finished rd
    ∧ r_err rd = []
    ∧ ∀ a, a ∈ axis_codes →
        present (range_at (r_table rd) (a - AXIS_A))
          = present (range_at tbl (a - AXIS_A))
        ∧ (present (range_at tbl (a - AXIS_A)) = true →
           min (range_at (r_table rd) (a - AXIS_A)) = min (range_at tbl (a - AXIS_A))
           ∧ max (range_at (r_table rd) (a - AXIS_A)) = max (range_at tbl (a - AXIS_A))).
Proof.
  intros Hlen Hwf (a0 & Ha0 & Hp0) Hfuel.
  rewrite write_table_eq. unfold table_lines.
  assert (Hin0 : a0 ∈ present_axes tbl axis_codes)
    by (by apply list_elem_of_filter).
  assert (Hprint : Forall (printable tbl) (present_axes tbl axis_codes)).
  { apply Forall_forall. intros a [_ Ha]%list_elem_of_filter.
    apply elem_of_axis_codes in Ha. split; [done|].
    apply (Forall_lookup_total_1 _ _ (Z.to_nat (a - AXIS_A))) in Hwf; [done|].
    unfold AXIS_COUNT in Hlen. lia. }
  assert (Hshort : (length (present_axes tbl axis_codes) <= 6)%nat).
  { unfold present_axes.
    etrans; [apply length_filter|]. by rewrite axis_codes_value. }
  destruct (present_axes tbl axis_codes) as [|a1 axes] eqn:Heq;
    [by apply elem_of_nil in Hin0|].
  eexists. split; [|split].
  - unfold read_table.
    apply (read_loop_lines indet tbl axes a1 zero_table fuel 0%nat []);
      [done|by rewrite length_zero_table|lia].
  - done.
  - cbn [r_table]. intros a Ha. pose proof Ha as Hr%elem_of_axis_codes.
    rewrite range_at_store_all.
    + replace (a - AXIS_A + AXIS_A) with a by lia.
      rewrite length_zero_table.
      rewrite (decide_True (P := a - AXIS_A < Z.of_nat 6))
        by (unfold AXIS_A, AXIS_Z, ABS_X, ABS_RZ in *; lia).
      destruct (decide (a ∈ a1 :: axes)) as [Hin|Hnin].
      * rewrite <- Heq in Hin. apply list_elem_of_filter in Hin as [Hp _].
        cbn [stored present min max]. by rewrite Hp.
      * assert (Hnp : present (range_at tbl (a - AXIS_A)) = false).
        { destruct (present (range_at tbl (a - AXIS_A))) eqn:Hp; [|done].
          exfalso. apply Hnin. rewrite <- Heq. by apply list_elem_of_filter. }
        rewrite Hnp. split; [|done].
        unfold range_at, zero_table. rewrite lookup_total_replicate_2; [done|].
        unfold AXIS_COUNT, AXIS_A, AXIS_Z, ABS_X, ABS_RZ in *. lia.
    + lia.
    + rewrite <- Heq. apply Forall_forall.
      intros a' [_ Ha']%list_elem_of_filter.
      apply elem_of_axis_codes in Ha'. lia.
Qed.

(** * Further properties *)

(** ** detect: what every run keeps *)

Lemma entry_ok_observe range value :
  present range = true → entry_ok range → entry_ok (observe range value).
Proof.
  intros Hp (Hmin & Hmax & Hle & Hz). rewrite observe_eq.
  unfold entry_ok, is_uint32, to_uint32, USHRT_MAX in *. cbn [min max present].
  pose proof (Z.mod_pos_bound value (2 ^ 32) ltac:(lia)).
  split; [lia|]. split; [lia|]. split; [lia|]. congruence.
Qed.

Lemma entry_ok_zero : entry_ok zero_range.
Proof. unfold entry_ok, is_uint32, USHRT_MAX. cbn. repeat split; lia. Qed.

Lemma entry_ok_sentinel : entry_ok sentinel_range.
Proof.
  unfold entry_ok, is_uint32, USHRT_MAX. cbn. repeat split; (lia || done).
Qed.

Lemma table_ok_init dev : table_ok dev (init_table dev).
Proof.
  split; [by rewrite length_init_table|]. split.
  - rewrite init_table_eq. apply Forall_fmap, Forall_forall. intros axis _. cbn.
    destruct (libevdev_has_event_code dev EV_ABS axis);
      [apply entry_ok_sentinel|apply entry_ok_zero].
  - intros axis Hax. rewrite range_at_init_table by done.
    by destruct (libevdev_has_event_code dev EV_ABS axis).
Qed.

Lemma table_ok_observe dev tbl axis value :
  AXIS_A <= axis <= AXIS_Z →
  present (range_at tbl (axis - AXIS_A)) = true →
  table_ok dev tbl →
  table_ok dev
    (set_range tbl (axis - AXIS_A) (observe (range_at tbl (axis - AXIS_A)) value)).
Proof.
  intros Hax Hp (Hlen & Hall & Hpres).
  assert (Hidx : (Z.to_nat (axis - AXIS_A) < length tbl)%nat)
    by (rewrite Hlen; unfold AXIS_COUNT; lia).
  split; [by rewrite length_set_range|]. split.
  - unfold set_range. apply Forall_insert; [done|].
    apply entry_ok_observe; [done|].
    unfold range_at. by apply Forall_lookup_total_1.
  - intros axis' Hax'. destruct (decide (axis' = axis)) as [->|Hne].
    + rewrite range_at_set_range_eq by lia.
      rewrite observe_eq. cbn [present]. by apply Hpres.
    + rewrite range_at_set_range_ne by lia. by apply Hpres.
Qed.

Lemma write_loop_table env axes st :
  c_table (snd (write_loop env axes st)) = c_table st.
Proof.
  revert st. induction axes as [|a axes IH]; intros st; [done|].
  cbn [write_loop].
  destruct (present (range_at (c_table st) (a - AXIS_A))); [|apply IH].
  destruct (fprintf_ok env a); [|done]. by rewrite IH.
Qed.

Lemma wait_loop_table_ok env dev wakes :
  ∀ st, table_ok dev (c_table st) →
        table_ok dev (c_table (final_state (wait_loop env wakes st))).
Proof.
  induction wakes as [|w wakes IH]; intros st Hok; [done|].
  destruct w as [|dev_in sig_in next]; cbn [wait_loop]; [done|].
  destruct sig_in.
  { pose proof (write_loop_table env axis_codes st) as Ht.
    destruct (write_loop env axis_codes st) as [ret st']. cbn in *.
    by rewrite Ht. }
  destruct dev_in; [|done].
  destruct next as [| |event]; [done|by apply IH|].
  destruct (ignored event) eqn:Hig; [by apply IH|].
  apply ignored_false_iff in Hig as [_ Hcode].
  destruct (present (range_at (c_table st) (ev_code event - AXIS_A))) eqn:Hp;
    cbn [negb]; [|done].
  apply IH. cbn [c_table]. by apply table_ok_observe.
Qed.

(** X1: whatever the environment answers and whatever arrives, the table of
    [detect] keeps its shape: six entries, an entry marked present exactly
    for the axes the device has, every field within [unsigned int], min never
    above 65535, and the entries of absent axes still zeroed. *)
Theorem detect_keeps_table_ok
    (env : detect_env) (dev : libevdev) (wakes : list wake) :
  table_ok dev (c_table (final_state (detect env dev wakes))).
Proof.
  unfold detect.
  destruct (negb (fopen_ok env)); [apply table_ok_init|].
  destruct (negb (sigprocmask_ok env)); [apply table_ok_init|].
  destruct (negb (signalfd_ok env)); [apply table_ok_init|].
  apply wait_loop_table_ok, table_ok_init.
Qed.

(** ** detect: the recorded range in terms of the samples *)

Lemma foldl_observe_closed values :
  ∀ range,
    foldl observe range values =
    {| present := present range;
       min := foldl Z.min (min range) (to_uint32 <$> values);
       max := foldl Z.max (max range) (to_uint32 <$> values) |}.
Proof.
  induction values as [|v values IH]; intros range; [by destruct range|].
  cbn [foldl fmap list_fmap]. rewrite IH, observe_eq. reflexivity.
Qed.

Lemma foldl_max_ge (l : list Z) :
  ∀ m, m <= foldl Z.max m l ∧ Forall (λ s, s <= foldl Z.max m l) l.
Proof.
  induction l as [|x l IH]; intros m; cbn; [split; [lia|constructor]|].
  destruct (IH (Z.max m x)) as [Hm Hall]. split; [lia|].
  constructor; [lia|done].
Qed.

(** X2: while [detect] is in its loop, the entry of an axis of the device is
    determined by the samples that arrived for that axis alone: min is the
    least of 65535 and their values as [unsigned int], max the greatest of 0
    and those values.  So every sample lies between the recorded min and
    max, and min <= max as soon as one sample has arrived. *)
Theorem recorded_range_brackets_samples
    (env : detect_env) (dev : libevdev) (pre : list wake) (st1 : capture)
    (axis : Z) :
  detect env dev pre = Polling st1 →
  AXIS_A <= axis <= AXIS_Z →
  libevdev_has_event_code dev EV_ABS axis = true →
  min (range_at (c_table st1) (axis - AXIS_A))
    = foldl Z.min USHRT_MAX (to_uint32 <$> samples_for axis pre)
  ∧ max (range_at (c_table st1) (axis - AXIS_A))
    = foldl Z.max 0 (to_uint32 <$> samples_for axis pre)
  ∧ Forall (λ v, min (range_at (c_table st1) (axis - AXIS_A)) <= to_uint32 v
                 <= max (range_at (c_table st1) (axis - AXIS_A)))
      (samples_for axis pre)
  ∧ (samples_for axis pre ≠ [] →
     min (range_at (c_table st1) (axis - AXIS_A))
     <= max (range_at (c_table st1) (axis - AXIS_A))).
Proof.
  intros Hrun Hax Hhas.
  rewrite (entry_is_fold_of_samples _ _ _ _ _ Hrun Hax Hhas).
  rewrite foldl_observe_closed. cbn [min max sentinel_range].
  set (us := to_uint32 <$> samples_for axis pre).
  destruct (foldl_min_le us USHRT_MAX) as [_ Hmin].
  destruct (foldl_max_ge us 0) as [_ Hmax].
  assert (Hall : Forall (λ u, foldl Z.min USHRT_MAX us <= u <= foldl Z.max 0 us) us).
  { apply Forall_forall. intros u Hu.
    rewrite Forall_forall in Hmin, Hmax. split; [by apply Hmin|by apply Hmax]. }
  split; [done|]. split; [done|]. split.
  - subst us. by apply Forall_fmap in Hall.
  - intros Hne. destruct us as [|u us'] eqn:Hus.
    + subst us. by apply fmap_nil_inv in Hus.
    + apply Forall_cons in Hall as [Hu _]. lia.
Qed.

(** ** detect: wakes that change nothing *)

Lemma wait_loop_skipped env pre wakes :
  Forall (λ w, skipped w = true) pre →
  ∀ st, wait_loop env (pre ++ wakes) st = wait_loop env wakes st.
Proof.
  induction 1 as [|w pre Hw _ IH]; intros st; [done|].
  cbn [app]. destruct w as [|[] [] [| |event]]; try discriminate Hw;
    cbn [wait_loop]; [done|].
  cbn [skipped] in Hw. by rewrite Hw.
Qed.

(** X3: resynchronisations, events of another type than [EV_ABS] and
    [EV_ABS] events for a code outside ABS_X..ABS_RZ are passed over: a run
    that starts with any number of them goes on exactly as if they had not
    arrived, without a report. *)
Theorem detect_passes_over_skipped
    (env : detect_env) (dev : libevdev) (pre wakes : list wake) :
  Forall (λ w, skipped w = true) pre →
  detect env dev (pre ++ wakes) = detect env dev wakes.
Proof.
  intros Hpre. unfold detect.
  destruct (negb (fopen_ok env)); [done|].
  destruct (negb (sigprocmask_ok env)); [done|].
  destruct (negb (signalfd_ok env)); [done|].
  by apply wait_loop_skipped.
Qed.

(** ** detect: what it returns, reports and writes *)

Lemma table_lines_app tbl l1 l2 :
  table_lines tbl (l1 ++ l2) = table_lines tbl l1 ++ table_lines tbl l2.
Proof.
  unfold table_lines, present_axes.
  by rewrite filter_app, fmap_app, concat_app.
Qed.

Lemma table_lines_cons tbl a axes :
  table_lines tbl (a :: axes) =
  (if present (range_at tbl (a - AXIS_A))
   then map_line a (range_at tbl (a - AXIS_A)) else [])
  ++ table_lines tbl axes.
Proof.
  unfold table_lines, present_axes. rewrite filter_cons.
  destruct (present (range_at tbl (a - AXIS_A))) eqn:Hp.
  - by rewrite decide_True by done.
  - by rewrite decide_False by congruence.
Qed.

(** The two ways the printing loop ends. *)
Lemma write_loop_cases env axes :
  ∀ st,
    match write_loop env axes st with
    | (true, st') =>
        st' = {| c_table := c_table st;
                 c_out := c_out st ++ table_lines (c_table st) axes;
                 c_err := c_err st |}
    | (false, st') =>
        ∃ before a after,
          axes = before ++ a :: after
          ∧ present (range_at (c_table st) (a - AXIS_A)) = true
          ∧ fprintf_ok env a = false
          ∧ Forall (λ b, present (range_at (c_table st) (b - AXIS_A)) = true →
                         fprintf_ok env b = true) before
          ∧ st' = {| c_table := c_table st;
                     c_out := c_out st ++ table_lines (c_table st) before;
                     c_err := c_err st ++ [MsgWritingLine] |}
    end.
Proof.
  induction axes as [|a axes IH]; intros st.
  - cbn. unfold table_lines, present_axes. cbn. rewrite app_nil_r. by destruct st.
  - cbn [write_loop]. rewrite table_lines_cons.
    destruct (present (range_at (c_table st) (a - AXIS_A))) eqn:Hp.
    + destruct (fprintf_ok env a) eqn:Hok.
      * match goal with |- context [write_loop env axes ?s] =>
          specialize (IH s); destruct (write_loop env axes s) as [[] st'] end;
          cbn [c_table c_out c_err] in IH.
        -- subst st'. by rewrite app_assoc.
        -- destruct IH as (before & b & after & -> & Hpb & Hfb & Hbefore & ->).
           exists (a :: before), b, after. split; [done|]. split; [done|].
           split; [done|]. split; [by constructor|].
           by rewrite table_lines_cons, Hp, app_assoc.
      * exists [], a, axes. split; [done|]. split; [done|]. split; [done|].
        split; [constructor|]. unfold complain.
        unfold table_lines, present_axes. cbn. by rewrite app_nil_r.
    + specialize (IH st). destruct (write_loop env axes st) as [[] st'].
      * by subst st'.
      * destruct IH as (before & b & after & -> & Hpb & Hfb & Hbefore & ->).
        exists (a :: before), b, after. split; [done|]. split; [done|].
        split; [done|]. split; [constructor; [congruence|done]|].
        by rewrite table_lines_cons, Hp.
Qed.

Lemma wait_loop_outputs env wakes :
  ∀ st, c_out st = [] → c_err st = [] →
    match wait_loop env wakes st with
    | Returned true st' =>
        c_err st' = [] ∧ c_out st' = table_lines (c_table st') axis_codes
    | Returned false st' =>
        (c_err st' = [MsgWritingLine]
         ∧ ∃ before a after,
             axis_codes = before ++ a :: after
             ∧ Forall (λ b, present (range_at (c_table st') (b - AXIS_A)) = true →
                            fprintf_ok env b = true) before
             ∧ present (range_at (c_table st') (a - AXIS_A)) = true
             ∧ fprintf_ok env a = false
             ∧ c_out st' = table_lines (c_table st') before)
        ∨ ((∃ m, c_err st' = [m] ∧ m ≠ MsgWritingLine) ∧ c_out st' = [])
    | Polling st' => c_err st' = [] ∧ c_out st' = []
    end.
Proof.
  assert (Hother : ∀ st m, c_out st = [] → c_err st = [] → m ≠ MsgWritingLine →
            (∃ m', c_err (complain st m) = [m'] ∧ m' ≠ MsgWritingLine)
            ∧ c_out (complain st m) = []).
  { intros st m Hout Herr Hm. cbn. rewrite Herr, Hout. split; [|done].
    by exists m. }
  induction wakes as [|w wakes IH]; intros st Hout Herr; [done|].
  destruct w as [|dev_in sig_in next]; cbn [wait_loop].
  { right. by apply Hother. }
  destruct sig_in.
  { pose proof (write_loop_cases env axis_codes st) as Hw.
    destruct (write_loop env axis_codes st) as [[] st'].
    - subst st'. cbn. by rewrite Herr, Hout.
    - destruct Hw as (before & a & after & Hsplit & Hp & Hfail & Hbefore & ->).
      left. cbn. rewrite Herr, Hout. split; [done|].
      by exists before, a, after. }
  destruct dev_in.
  - destruct next as [| |event].
    + right. by apply Hother.
    + by apply IH.
    + destruct (ignored event); [by apply IH|].
      destruct (negb (present (range_at (c_table st) (ev_code event - AXIS_A)))).
      * right. by apply Hother.
      * by apply IH.
  - right. by apply Hother.
Qed.

(** X4: what [detect] has reported and printed, by the way it ends.  The
    printed text is what has been passed to [fprintf] on [fp]; it is given
    here by [table_lines], the lines of the present axes in ascending order.
    If [detect] returns true, nothing was reported and one line was printed
    for every present axis.  If it returns false, exactly one message was
    reported: either the write error, and then the lines of the present axes
    before the first one whose [fprintf] failed were printed and no other, or
    another message, and then nothing was printed.  While it waits, nothing
    is reported or printed. *)
Theorem detect_outputs (env : detect_env) (dev : libevdev) (wakes : list wake) :
  match detect env dev wakes with
  | Returned true st =>
      c_err st = [] ∧ c_out st = table_lines (c_table st) axis_codes
  | Returned false st =>
      (c_err st = [MsgWritingLine]
       ∧ ∃ before a after,
           axis_codes = before ++ a :: after
           ∧ Forall (λ b, present (range_at (c_table st) (b - AXIS_A)) = true →
                          fprintf_ok env b = true) before
           ∧ present (range_at (c_table st) (a - AXIS_A)) = true
           ∧ fprintf_ok env a = false
           ∧ c_out st = table_lines (c_table st) before)
      ∨ ((∃ m, c_err st = [m] ∧ m ≠ MsgWritingLine) ∧ c_out st = [])
  | Polling st => c_err st = [] ∧ c_out st = []
  end.
Proof.
  unfold detect.
  destruct (negb (fopen_ok env));
    [right; split; [by eexists|done]|].
  destruct (negb (sigprocmask_ok env));
    [right; split; [by eexists|done]|].
  destruct (negb (signalfd_ok env));
    [right; split; [by eexists|done]|].
  match goal with |- context [wait_loop env wakes ?s] =>
    exact (wait_loop_outputs env wakes s eq_refl eq_refl) end.
Qed.

Lemma write_loop_true_ok env axes :
  ∀ st st', write_loop env axes st = (true, st') →
    ∀ a, a ∈ axes → present (range_at (c_table st) (a - AXIS_A)) = true →
         fprintf_ok env a = true.
Proof.
  induction axes as [|b axes IH]; intros st st' Hrun a Hin Hp.
  - by apply elem_of_nil in Hin.
  - cbn [write_loop] in Hrun.
    destruct (present (range_at (c_table st) (b - AXIS_A))) eqn:Hpb.
    + destruct (fprintf_ok env b) eqn:Hok; [|done].
      apply elem_of_cons in Hin as [->|Hin]; [done|].
      by apply (IH _ _ Hrun).
    + apply elem_of_cons in Hin as [->|Hin]; [congruence|].
      by apply (IH _ _ Hrun).
Qed.

Lemma wait_loop_true env wakes :
  ∀ st st', wait_loop env wakes st = Returned true st' →
    ∃ pre dev_in next rest st1,
      wakes = pre ++ Woken dev_in true next :: rest
      ∧ wait_loop env pre st = Polling st1
      ∧ write_loop env axis_codes st1 = (true, st').
Proof.
  induction wakes as [|w wakes IH]; intros st st' Hrun; [done|].
  destruct w as [|dev_in sig_in next]; cbn [wait_loop] in Hrun; [done|].
  destruct sig_in.
  { exists [], dev_in, next, wakes, st. split; [done|]. split; [done|].
    destruct (write_loop env axis_codes st) as [ret st2]. by simplify_eq. }
  destruct dev_in; [|done].
  destruct next as [| |event]; [done| |].
  - apply IH in Hrun as (pre & d & n & rest & st1 & -> & Hpre & Hw).
    by exists (Woken true false ReadSync :: pre), d, n, rest, st1.
  - destruct (ignored event) eqn:Hig.
    + apply IH in Hrun as (pre & d & n & rest & st1 & -> & Hpre & Hw).
      exists (Woken true false (ReadSuccess event) :: pre), d, n, rest, st1.
      split; [done|]. split; [|done]. cbn [wait_loop]. by rewrite Hig.
    + destruct (negb (present (range_at (c_table st) (ev_code event - AXIS_A))))
        eqn:Hp; [done|].
      apply IH in Hrun as (pre & d & n & rest & st1 & -> & Hpre & Hw).
      exists (Woken true false (ReadSuccess event) :: pre), d, n, rest, st1.
      split; [done|]. split; [|done]. cbn [wait_loop]. by rewrite Hig, Hp.
Qed.

(** X5: [detect] returns true only in one way: [fopen], [sigprocmask] and
    [signalfd] succeeded, some wake showed SIGINT pending, everything before
    that wake was consumed without leaving the loop, the table written is the
    one held at that moment, and the [fprintf] of every present axis
    succeeded. *)
Theorem detect_true_only_on_sigint
    (env : detect_env) (dev : libevdev) (wakes : list wake) (st : capture) :
  detect env dev wakes = Returned true st →
  fopen_ok env = true ∧ sigprocmask_ok env = true ∧ signalfd_ok env = true
  ∧ (∃ pre dev_in next rest st1,
       wakes = pre ++ Woken dev_in true next :: rest
       ∧ detect env dev pre = Polling st1
       ∧ c_table st = c_table st1)
  ∧ ∀ a, a ∈ axis_codes →
      present (range_at (c_table st) (a - AXIS_A)) = true →
      fprintf_ok env a = true.
Proof.
  unfold detect. intros Hrun.
  destruct (fopen_ok env); [|done].
  destruct (sigprocmask_ok env); [|done].
  destruct (signalfd_ok env); [|done]. cbn [negb] in *.
  apply wait_loop_true in Hrun as (pre & d & n & rest & st1 & -> & Hpre & Hw).
  pose proof (write_loop_table env axis_codes st1) as Ht.
  rewrite Hw in Ht. cbn [snd] in Ht.
  split; [done|]. split; [done|]. split; [done|]. split.
  - by exists pre, d, n, rest, st1.
  - intros a Hin Hp. rewrite Ht in Hp. by apply (write_loop_true_ok _ _ _ _ Hw).
Qed.

Lemma wait_loop_returned_app env wakes more :
  ∀ st ret st', wait_loop env wakes st = Returned ret st' →
    wait_loop env (wakes ++ more) st = Returned ret st'.
Proof.
  induction wakes as [|w wakes IH]; intros st ret st' Hrun; [done|].
  cbn [app]. destruct w as [|dev_in sig_in next]; cbn [wait_loop] in *; [done|].
  destruct sig_in; [done|].
  destruct dev_in; [|done].
  destruct next as [| |event]; [done|by apply IH|].
  destruct (ignored event); [by apply IH|].
  destruct (negb (present (range_at (c_table st) (ev_code event - AXIS_A))));
    [done|by apply IH].
Qed.

(** X6: once [detect] has returned, what it returned is final: wakes that
    would have followed are never looked at, whether it ended on SIGINT or on
    an error. *)
Theorem detect_return_is_final
    (env : detect_env) (dev : libevdev) (wakes more : list wake)
    (ret : bool) (st : capture) :
  detect env dev wakes = Returned ret st →
  detect env dev (wakes ++ more) = Returned ret st.
Proof.
  unfold detect.
  destruct (negb (fopen_ok env)); [done|].
  destruct (negb (sigprocmask_ok env)); [done|].
  destruct (negb (signalfd_ok env)); [done|].
  apply wait_loop_returned_app.
Qed.

Lemma write_loop_fails_at env before a after :
  ∀ st,
    Forall (λ b, present (range_at (c_table st) (b - AXIS_A)) = true →
                 fprintf_ok env b = true) before →
    present (range_at (c_table st) (a - AXIS_A)) = true →
    fprintf_ok env a = false →
    write_loop env (before ++ a :: after) st =
    (false, {| c_table := c_table st;
               c_out := c_out st ++ table_lines (c_table st) before;
               c_err := c_err st ++ [MsgWritingLine] |}).
Proof.
  induction before as [|b before IH]; intros st Hbefore Hp Hfail.
  - cbn [app write_loop]. rewrite Hp, Hfail.
    unfold complain, table_lines, present_axes. cbn. by rewrite app_nil_r.
  - apply Forall_cons in Hbefore as [Hb Hbefore].
    cbn [app write_loop]. rewrite table_lines_cons.
    destruct (present (range_at (c_table st) (b - AXIS_A))) eqn:Hpb.
    + rewrite Hb by done. rewrite IH by done. cbn [c_table c_out c_err].
      by rewrite app_assoc.
    + by rewrite IH.
Qed.

(** X7: a failing [fprintf] is not rolled back.  If, when SIGINT arrives,
    the line of the present axis [a] is the first whose [fprintf] fails,
    [detect] reports the write error and returns false, and the file holds
    exactly the lines of the present axes before [a]. *)
Theorem detect_write_failure_keeps_partial_file
    (env : detect_env) (dev : libevdev) (pre : list wake) (st1 : capture)
    (dev_in : bool) (next : read_status) (rest : list wake)
    (before : list Z) (a : Z) (after : list Z) :
  detect env dev pre = Polling st1 →
  axis_codes = before ++ a :: after →
  Forall (λ b, present (range_at (c_table st1) (b - AXIS_A)) = true →
               fprintf_ok env b = true) before →
  present (range_at (c_table st1) (a - AXIS_A)) = true →
  fprintf_ok env a = false →
  detect env dev (pre ++ Woken dev_in true next :: rest) =
  Returned false
    {| c_table := c_table st1;
       c_out := table_lines (c_table st1) before;
       c_err := [MsgWritingLine] |}.
Proof.
  intros Hrun Hsplit Hbefore Hp Hfail. unfold detect in *.
  destruct (negb (fopen_ok env)); [done|].
  destruct (negb (sigprocmask_ok env)); [done|].
  destruct (negb (signalfd_ok env)); [done|].
  apply wait_loop_polling in Hrun as (Hout & Herr & Happ). cbn in Hout, Herr.
  rewrite Happ. cbn [wait_loop]. rewrite Hsplit.
  rewrite write_loop_fails_at by done. by rewrite Hout, Herr.
Qed.

(** ** load: a table the device supports *)

(** X8: if the device has every axis the table read from the file marks
    present, [load] returns true without a report of its own.  It calls the
    two setters once per present axis, in ascending order of the axis, and
    afterwards the handle holds for each of them the min and max of the file
    converted to [int]; the event bits of the handle are as before. *)
Theorem load_applies_supported_table
    (indet : nat → locals) (fuel : nat) (dev : libevdev) (text : list ascii)
    (rd : reader) :
  read_table indet fuel text = Finished rd →
  (∀ a, a ∈ axis_codes → present (range_at (r_table rd) (a - AXIS_A)) = true →
        libevdev_has_event_code dev EV_ABS a = true) →
  ∃ ap,
    load indet fuel dev (Some text) = Finished (true, ap)
    ∧ a_err ap = r_err rd
    ∧ bits (a_dev ap) = bits dev
    ∧ a_calls ap =
        present_axes (r_table rd) axis_codes ≫= calls_for (r_table rd)
    ∧ ∀ a, a ∈ axis_codes →
        present (range_at (r_table rd) (a - AXIS_A)) = true →
        libevdev_get_abs_info (a_dev ap) a
        = applied (range_at (r_table rd) (a - AXIS_A)).
Proof.
  intros Hread Hhas.
  destruct (apply_loop_success axis_codes (r_table rd)
              {| a_dev := dev; a_calls := []; a_err := r_err rd |} Hhas)
    as (ap & Hrun & Herr & Hbits & Hcalls & Hinfo).
  exists ap. unfold load. rewrite Hread, Hrun.
  split; [done|]. split; [done|]. split; [done|]. split; [done|].
  intros a Hin Hp. unfold libevdev_get_abs_info. rewrite Hinfo.
  by rewrite decide_True.
Qed.

(** X10: [load] never changes which events the handle supports, however it
    ends: after a mismatch, after a failed [fopen] and after a success the
    event bits are those of the device it was given. *)
Theorem load_keeps_event_bits
    (indet : nat → locals) (fuel : nat) (dev : libevdev)
    (map_file : option (list ascii)) (ret : bool) (ap : applier) :
  load indet fuel dev map_file = Finished (ret, ap) →
  bits (a_dev ap) = bits dev
  ∧ ∀ type code,
      libevdev_has_event_code (a_dev ap) type code
      = libevdev_has_event_code dev type code.
Proof.
  intros Hload.
  assert (Hbits : bits (a_dev ap) = bits dev).
  { destruct map_file as [text|].
    - apply load_finished in Hload as (rd & _ & Hrun).
      by apply apply_loop_frame in Hrun as (Hbits & _).
    - cbn in Hload. by simplify_eq. }
  split; [done|]. intros type code. by apply has_event_code_bits.
Qed.

(** ** load: files in the format of detect *)

Lemma read_loop_entries indet es :
  ∀ e tbl fuel iter err,
    Forall entry_valid (e :: es) →
    Z.of_nat (length tbl) = AXIS_COUNT →
    (length (e :: es) <= fuel)%nat →
    read_loop indet fuel iter
      {| r_fp := {| unread := entries_text (e :: es); eof_seen := false |};
         r_table := tbl; r_err := err |}
    = Finished
        {| r_fp := {| unread := []; eof_seen := true |};
           r_table := store_entries tbl (e :: es);
           r_err := err |}.
Proof.
  induction es as [|e2 es IH]; intros [a r] tbl fuel iter err Hall Hlen Hfuel;
    (destruct fuel as [|fuel]; [cbn in Hfuel; lia|]);
    apply Forall_cons in Hall as [(Ha & Hmin & Hmax) Hall];
    cbn [fst snd] in Ha, Hmin, Hmax;
    rewrite read_loop_step by done;
    unfold read_body; cbn [r_fp r_table r_err];
    unfold entries_text; cbn [fmap list_fmap concat fst snd];
    (rewrite fscanf_map_line_printed;
       [|unfold AXIS_A, AXIS_Z, ABS_X, ABS_RZ in Ha; lia|done|done]);
    change (3 <? 0) with false;
    cbn [store_results lookup list_lookup from_option id l_axis l_min l_max];
    unfold store_range;
    (rewrite bool_decide_true
       by (rewrite Hlen; unfold AXIS_COUNT, AXIS_A, AXIS_Z, ABS_X, ABS_RZ in *;
           lia)).
  - rewrite read_loop_eof by done. reflexivity.
  - rewrite eat_white_map_line.
    change (map_line e2.1 e2.2 ++ concat ((λ e, map_line e.1 e.2) <$> es))
      with (entries_text (e2 :: es)).
    rewrite IH; [reflexivity|done|by rewrite length_set_range|].
    cbn [length] in *. lia.
Qed.

Lemma length_store_entries es :
  ∀ tbl, length (store_entries tbl es) = length tbl.
Proof.
  induction es as [|e es IH]; intros tbl; [done|].
  unfold store_entries in *. cbn [foldl]. by rewrite IH, length_set_range.
Qed.

Lemma range_at_store_entries_other es a :
  AXIS_A <= a →
  Forall entry_valid es → a ∉ es.*1 →
  ∀ tbl, range_at (store_entries tbl es) (a - AXIS_A) = range_at tbl (a - AXIS_A).
Proof.
  intros Ha. induction es as [|[b r] es IH]; intros Hall Hnin tbl; [done|].
  apply Forall_cons in Hall as [(Hb & _) Hall]. cbn [fst] in Hb.
  rewrite fmap_cons, not_elem_of_cons in Hnin. destruct Hnin as [Hne Hnin].
  cbn [fst] in Hne.
  unfold store_entries in *. cbn [foldl fst snd]. rewrite IH by done.
  apply range_at_set_range_ne; lia.
Qed.

(** X11: a file of lines in the format of [detect] reads without a report
    into the table in which an axis is as its last line says (a later line
    for the same axis replaces an earlier one) and an axis no line mentions
    is absent. *)
Theorem read_last_line_wins
    (indet : nat → locals) (fuel : nat) (e : Z * axis_range)
    (es : list (Z * axis_range)) :
  Forall entry_valid (e :: es) →
  (length (e :: es) <= fuel)%nat →
  ∃ rd,
    read_table indet fuel (entries_text (e :: es)) = Finished rd
    ∧ r_err rd = []
    ∧ r_table rd = store_entries zero_table (e :: es)
    ∧ (∀ es1 a r es2,
         e :: es = es1 ++ (a, r) :: es2 → a ∉ es2.*1 →
         range_at (r_table rd) (a - AXIS_A)
         = {| present := true; min := min r; max := max r |})
    ∧ (∀ a, AXIS_A <= a <= AXIS_Z → a ∉ (e :: es).*1 →
         range_at (r_table rd) (a - AXIS_A) = zero_range).
Proof.
  intros Hall Hfuel.
  exists {| r_fp := {| unread := []; eof_seen := true |};
            r_table := store_entries zero_table (e :: es); r_err := [] |}.
  split; [|split; [|split; [reflexivity|]]].
  - unfold read_table.
    apply (read_loop_entries indet es e zero_table fuel 0%nat []);
      [done|by rewrite length_zero_table|done].
  - done.
  - cbn [r_table]. split.
    + intros es1 a r es2 Hsplit Hnin. rewrite Hsplit in *.
      apply Forall_app in Hall as [Hall1 Hall2].
      apply Forall_cons in Hall2 as [(Ha & _) Hall2]. cbn [fst] in Ha.
      unfold store_entries. rewrite foldl_app. cbn [foldl fst snd].
      fold (store_entries zero_table es1).
      match goal with |- range_at (foldl _ ?t es2) _ = _ =>
        change (foldl _ t es2) with (store_entries t es2) end.
      rewrite range_at_store_entries_other by (done || lia).
      rewrite range_at_set_range_eq; [done|].
      rewrite length_store_entries, length_zero_table.
      unfold AXIS_A, AXIS_Z, ABS_X, ABS_RZ in *. lia.
    + intros a Ha Hnin.
      rewrite range_at_store_entries_other by (done || lia).
      unfold range_at, zero_table. rewrite lookup_total_replicate_2; [done|].
      unfold AXIS_COUNT, AXIS_A, AXIS_Z, ABS_X, ABS_RZ in *. lia.
Qed.

Lemma store_entries_perm es1 es2 :
  es1 ≡ₚ es2 → NoDup es1.*1 → Forall entry_valid es1 →
  ∀ tbl, store_entries tbl es1 = store_entries tbl es2.
Proof.
  induction 1 as [|x l1 l2 Hperm IH|x y l|l1 l2 l3 Hp1 IH1 Hp2 IH2];
    intros Hnd Hall tbl.
  - done.
  - rewrite fmap_cons in Hnd. apply NoDup_cons in Hnd as [_ Hnd].
    apply Forall_cons in Hall as [_ Hall].
    unfold store_entries in *. cbn [foldl]. by apply IH.
  - rewrite !fmap_cons in Hnd. apply NoDup_cons in Hnd as [Hne _].
    rewrite not_elem_of_cons in Hne. destruct Hne as [Hne _].
    apply Forall_cons in Hall as [(Hy & _) Hall].
    apply Forall_cons in Hall as [(Hx & _) _].
    unfold store_entries, set_range. cbn [foldl]. f_equal.
    apply list_insert_insert_ne. lia.
  - rewrite IH1 by done. apply IH2.
    + by rewrite <- Hp1.
    + by rewrite <- Hp1.
Qed.

(** X12: the order of the lines of a mapping file is irrelevant when no
    axis occurs twice: two files with the same lines in the format of
    [detect], in any order, read into the same table. *)
Theorem read_order_of_lines_irrelevant
    (indet : nat → locals) (fuel : nat) (es1 es2 : list (Z * axis_range)) :
  es1 ≡ₚ es2 → NoDup es1.*1 → Forall entry_valid es1 → es1 ≠ [] →
  (length es1 <= fuel)%nat →
  ∃ tbl,
    read_table indet fuel (entries_text es1)
      = Finished {| r_fp := {| unread := []; eof_seen := true |};
                    r_table := tbl; r_err := [] |}
    ∧ read_table indet fuel (entries_text es2)
      = Finished {| r_fp := {| unread := []; eof_seen := true |};
                    r_table := tbl; r_err := [] |}.
Proof.
  intros Hperm Hnd Hall Hne Hfuel.
  assert (Hall2 : Forall entry_valid es2) by (by rewrite <- Hperm).
  assert (Hlen2 : (length es2 <= fuel)%nat) by (by rewrite <- Hperm).
  exists (store_entries zero_table es1). split.
  - destruct es1 as [|e es1]; [done|]. unfold read_table.
    apply (read_loop_entries indet es1 e zero_table fuel 0%nat []);
      [done|by rewrite length_zero_table|done].
  - rewrite (store_entries_perm _ _ Hperm) by done.
    destruct es2 as [|e es2]; [by apply Permutation_nil_r in Hperm|].
    unfold read_table.
    apply (read_loop_entries indet es2 e zero_table fuel 0%nat []);
      [done|by rewrite length_zero_table|done].
Qed.

(** X9: applying a mapping file in the format of [detect] is idempotent.
    The lines of such a file fill all three locals on every pass of the parse
    loop, so the table read does not depend on what the uninitialised locals
    held: after a successful [load], loading the same file again onto the
    handle succeeds, makes the same calls and leaves the handle exactly as
    the first load left it, whatever the locals hold on either run. *)
Theorem load_twice_is_load_once
    (indet1 indet2 : nat → locals) (fuel1 fuel2 : nat) (dev : libevdev)
    (e : Z * axis_range) (es : list (Z * axis_range)) (ap : applier) :
  Forall entry_valid (e :: es) →
  (length (e :: es) <= fuel1)%nat →
  (length (e :: es) <= fuel2)%nat →
  load indet1 fuel1 dev (Some (entries_text (e :: es))) = Finished (true, ap) →
  ∃ ap2,
    load indet2 fuel2 (a_dev ap) (Some (entries_text (e :: es)))
      = Finished (true, ap2)
    ∧ a_dev ap2 = a_dev ap
    ∧ a_calls ap2 = a_calls ap
    ∧ a_err ap2 = a_err ap.
Proof.
  intros Hall Hfuel1 Hfuel2 Hload.
  assert (Hread : ∀ indet fuel, (length (e :: es) <= fuel)%nat →
            read_table indet fuel (entries_text (e :: es))
            = Finished {| r_fp := {| unread := []; eof_seen := true |};
                          r_table := store_entries zero_table (e :: es);
                          r_err := [] |}).
  { intros indet fuel Hfuel. unfold read_table.
    apply (read_loop_entries indet es e zero_table fuel 0%nat []);
      [done|by rewrite length_zero_table|done]. }
  set (tbl := store_entries zero_table (e :: es)) in *.
  apply load_finished in Hload as (rd & Hread1 & Hrun).
  rewrite Hread in Hread1 by done.
  assert (Hrd : rd = {| r_fp := {| unread := []; eof_seen := true |};
                        r_table := tbl; r_err := [] |}) by congruence.
  subst rd. cbn [r_table r_err] in Hrun.
  pose proof (apply_loop_true_has _ _ _ _ Hrun) as Hhas. cbn [a_dev] in Hhas.
  destruct (apply_loop_success axis_codes tbl
              {| a_dev := dev; a_calls := []; a_err := [] |} Hhas)
    as (ap' & Hrun' & Herr & Hbits & Hcalls & Hinfo).
  rewrite Hrun in Hrun'. injection Hrun' as <-. cbn [a_dev a_calls a_err] in *.
  assert (Hhas2 : ∀ a, a ∈ axis_codes →
            present (range_at tbl (a - AXIS_A)) = true →
            libevdev_has_event_code (a_dev ap) EV_ABS a = true).
  { intros a Hin Hp. rewrite (has_event_code_bits _ dev) by done. by apply Hhas. }
  destruct (apply_loop_success axis_codes tbl
              {| a_dev := a_dev ap; a_calls := []; a_err := [] |} Hhas2)
    as (ap2 & Hrun2 & Herr2 & Hbits2 & Hcalls2 & Hinfo2).
  cbn [a_dev a_calls a_err] in *.
  exists ap2. unfold load. rewrite Hread by done. cbn [r_table r_err].
  rewrite Hrun2.
  split; [done|]. split; [|split; congruence].
  assert (Hmap : abs_info (a_dev ap2) = abs_info (a_dev ap)).
  { apply map_eq. intros a. rewrite Hinfo2, Hinfo. by destruct (decide _). }
  destruct (a_dev ap2), (a_dev ap). cbn in *. by subst.
Qed.

(** ** detect, then load *)

Lemma detect_true_state env dev wakes st :
  detect env dev wakes = Returned true st →
  table_ok dev (c_table st) ∧ c_out st = write_table (c_table st).
Proof.
  unfold detect. intros Hrun.
  destruct (negb (fopen_ok env)); [done|].
  destruct (negb (sigprocmask_ok env)); [done|].
  destruct (negb (signalfd_ok env)); [done|].
  match type of Hrun with wait_loop env wakes ?s = _ =>
    pose proof (wait_loop_table_ok env dev wakes s (table_ok_init dev)) as Hok;
    pose proof (wait_loop_outputs env wakes s eq_refl eq_refl) as Hout end.
  cbn [c_table] in Hok. rewrite Hrun in Hok, Hout. cbn in Hok.
  split; [done|]. rewrite write_table_eq. by destruct Hout.
Qed.

(** X14: a file written by a successful [detect] loads onto the same device.
    If the device has at least one axis in ABS_X..ABS_RZ, [load] of that file
    returns true without any report, and gives every such axis of the device
    the recorded min and max converted to [int]. *)
Theorem detect_then_load
    (env : detect_env) (dev : libevdev) (wakes : list wake) (st : capture)
    (indet : nat → locals) (fuel : nat) :
  detect env dev wakes = Returned true st →
  (∃ a, a ∈ axis_codes ∧ libevdev_has_event_code dev EV_ABS a = true) →
  (6 <= fuel)%nat →
  ∃ ap,
    load indet fuel dev (Some (c_out st)) = Finished (true, ap)
    ∧ a_err ap = []
    ∧ ∀ a, a ∈ axis_codes → libevdev_has_event_code dev EV_ABS a = true →
        libevdev_get_abs_info (a_dev ap) a
        = applied (range_at (c_table st) (a - AXIS_A)).
Proof.
  intros Hrun (a0 & Hin0 & Hhas0) Hfuel.
  apply detect_true_state in Hrun as [(Hlen & Hall & Hpres) ->].
  destruct (round_trip_some_axis_present indet fuel (c_table st))
    as (rd & Hread & Herr & Hsame).
  { rewrite Hlen. pose proof AXIS_COUNT_value. lia. }
  { eapply Forall_impl; [exact Hall|]. by intros r (? & ? & _). }
  { exists a0. split; [done|]. rewrite Hpres by (by apply elem_of_axis_codes).
    done. }
  { done. }
  assert (Hhas : ∀ a, a ∈ axis_codes →
            present (range_at (r_table rd) (a - AXIS_A)) = true →
            libevdev_has_event_code dev EV_ABS a = true).
  { intros a Hin Hp. destruct (Hsame a Hin) as [Hpeq _].
    rewrite Hpeq, Hpres in Hp by (by apply elem_of_axis_codes). done. }
  destruct (apply_loop_success axis_codes (r_table rd)
              {| a_dev := dev; a_calls := []; a_err := r_err rd |} Hhas)
    as (ap & Happ & Herr' & _ & _ & Hinfo).
  exists ap. unfold load. rewrite Hread, Happ. cbn [a_err] in Herr'.
  split; [done|]. split; [congruence|].
  intros a Hin Hhasa. destruct (Hsame a Hin) as [Hpeq Hval].
  assert (Hp : present (range_at (c_table st) (a - AXIS_A)) = true)
    by (rewrite Hpres by (by apply elem_of_axis_codes); done).
  destruct (Hval Hp) as [Hmin Hmax].
  unfold libevdev_get_abs_info. rewrite Hinfo.
  rewrite decide_True by (split; [done|congruence]).
  cbn [default from_option id]. unfold applied. by rewrite Hmin, Hmax.
Qed.

Lemma to_int32_to_uint32 v : is_int32 v → to_int32 (to_uint32 v) = v.
Proof.
  unfold is_int32, to_int32, to_uint32. intros Hv.
  destruct (Z.lt_ge_cases v 0) as [Hneg|Hpos].
  - rewrite <- (Z.mod_add v 1 (2 ^ 32)) by lia.
    rewrite (Z.mod_small (v + 1 * 2 ^ 32)) by lia.
    rewrite <- (Z.mod_add _ (-1) (2 ^ 32)) by lia.
    rewrite Z.mod_small; lia.
  - rewrite (Z.mod_small v) by lia. rewrite Z.mod_small; lia.
Qed.

(** X15: the bounds keep their sign on the way through the table.  A
    sample is stored as [unsigned int] and applied as [int]: when a sample
    sets the recorded max (or min), [load] later applies exactly the value
    of that sample as maximum (or minimum), also when it is negative. *)
Theorem applied_bound_is_the_sample (range : axis_range) (v : Z) :
  is_int32 v →
  (max range <= to_uint32 v → maximum (applied (observe range v)) = v)
  ∧ (to_uint32 v <= min range → minimum (applied (observe range v)) = v).
Proof.
  intros Hv. rewrite observe_eq. unfold applied. cbn [min max minimum maximum].
  split; intros Hle.
  - rewrite Z.max_r by done. by apply to_int32_to_uint32.
  - rewrite Z.min_r by done. by apply to_int32_to_uint32.
Qed.

(** ** main, open_device and the cleanup handlers *)

Lemma opened_app l1 l2 : opened (l1 ++ l2) = opened l1 ++ opened l2.
Proof. unfold opened. apply omap_app. Qed.

Lemma closed_app l1 l2 : closed (l1 ++ l2) = closed l1 ++ closed l2.
Proof. unfold closed. apply omap_app. Qed.

Lemma handles_made_app l1 l2 :
  handles_made (l1 ++ l2) = (handles_made l1 + handles_made l2)%nat.
Proof. unfold handles_made. by rewrite omap_app, length_app. Qed.

Lemma handles_freed_app l1 l2 :
  handles_freed (l1 ++ l2) = (handles_freed l1 + handles_freed l2)%nat.
Proof. unfold handles_freed. by rewrite omap_app, length_app. Qed.

Lemma reports_hold_no_resource (ms : list message) :
  opened (EvReport <$> ms) = [] ∧ closed (EvReport <$> ms) = []
  ∧ handles_made (EvReport <$> ms) = 0%nat
  ∧ handles_freed (EvReport <$> ms) = 0%nat.
Proof.
  unfold opened, closed, handles_made, handles_freed.
  induction ms as [|m ms (H1 & H2 & H3 & H4)]; [done|].
  cbn [fmap list_fmap omap list_omap]. by rewrite H1, H2.
Qed.

Lemma open_device_resources w path :
  match open_device w path with
  | (Some h, evs) =>
      h_fd h ≠ -1 ∧ opened evs = [h_fd h] ∧ closed evs = []
      ∧ handles_made evs = 1%nat ∧ handles_freed evs = 0%nat
  | (None, evs) =>
      opened evs = closed evs ∧ handles_made evs = handles_freed evs
      ∧ (length (opened evs) <= 1)%nat
  end.
Proof.
  unfold open_device.
  destruct (Z.eqb_spec (w_open w path) (-1)) as [Heq|Hne].
  - cbn. repeat split; (done || lia).
  - destruct (Z.ltb_spec (w_set_fd w (w_open w path)) 0) as [Hlt|Hge].
    + cbn. repeat split; (done || lia).
    + repeat split; done.
Qed.

Lemma open_device_cases (w : world) (path : string) :
  match open_device w path with
  | (Some h, evs) =>
      w_open w path ≠ -1 ∧ 0 <= w_set_fd w (w_open w path)
      ∧ h_fd h = w_open w path ∧ h_dev h = w_device w
      ∧ opened evs = [h_fd h] ∧ closed evs = []
      ∧ handles_made evs = 1%nat ∧ handles_freed evs = 0%nat
  | (None, evs) =>
      (w_open w path = -1 ∨ w_set_fd w (w_open w path) < 0)
      ∧ opened evs = closed evs
      ∧ handles_made evs = handles_freed evs
      ∧ (evs = [EvOpeningDevice] ∨ EvBinding ∈ evs)
  end.
Proof.
  unfold open_device.
  destruct (Z.eqb_spec (w_open w path) (-1)) as [Heq|Hne].
  - split; [by left|]. split; [done|]. split; [done|]. by left.
  - destruct (Z.ltb_spec (w_set_fd w (w_open w path)) 0) as [Hlt|Hge].
    + split; [by right|]. split; [done|]. split; [done|]. right.
      apply list_elem_of_In. cbn. tauto.
    + repeat split; done.
Qed.

(** X16: [open_device] gives a handle exactly when [open] and
    [libevdev_set_fd] both succeed; the handle then holds the descriptor,
    which is the only thing left open.  When it gives NULL it has printed one
    report, and the descriptor and the handle it may have made are closed and
    freed again. *)
Theorem open_device_leaves_nothing_behind (w : world) (path : string) :
  match open_device w path with
  | (Some h, evs) =>
      w_open w path ≠ -1 ∧ 0 <= w_set_fd w (w_open w path)
      ∧ h_fd h = w_open w path ∧ h_dev h = w_device w
      ∧ opened evs = [h_fd h] ∧ closed evs = []
      ∧ handles_made evs = 1%nat ∧ handles_freed evs = 0%nat
  | (None, evs) =>
      (w_open w path = -1 ∨ w_set_fd w (w_open w path) < 0)
      ∧ opened evs = closed evs
      ∧ handles_made evs = handles_freed evs
      ∧ (evs = [EvOpeningDevice] ∨ EvBinding ∈ evs)
  end.
Proof. apply open_device_cases. Qed.

(** X17: the cleanup handlers close once.  [closep] never closes -1, leaves
    -1 in the cell, and a second run does nothing; [libevdev_freep] leaves
    NULL, closes the descriptor of the handle and frees the handle once, and
    a second run does nothing. *)
Theorem cleanup_runs_once (w : world) (cell : Z) (dev : option handle) :
  fst (closep cell) = -1
  ∧ closed (snd (closep cell)) = (if cell =? -1 then [] else [cell])
  ∧ closep (fst (closep cell)) = (-1, [])
  ∧ fst (libevdev_freep w dev) = None
  ∧ libevdev_freep w (fst (libevdev_freep w dev)) = (None, [])
  ∧ closed (snd (libevdev_freep w dev))
    = match dev with
      | Some h => if h_fd h =? -1 then [] else [h_fd h]
      | None => []
      end
  ∧ handles_freed (snd (libevdev_freep w dev))
    = match dev with Some _ => 1%nat | None => 0%nat end.
Proof.
  unfold closep, generic_cleanup.
  destruct (Z.eqb_spec cell (-1)) as [->|Hne]; cbn [negb fst snd];
    (split; [done|]); (split; [done|]); (split; [done|]);
    (split; [by destruct dev|]); (split; [by destruct dev|]);
    destruct dev as [h|]; cbn [libevdev_freep snd]; try done;
    destruct (h_fd h =? -1); cbn [negb]; try done;
    destruct (w_close_ok w (h_fd h)); done.
Qed.

Lemma freep_after_open w h :
  h_fd h ≠ -1 →
  opened (snd (libevdev_freep w (Some h))) = []
  ∧ closed (snd (libevdev_freep w (Some h))) = [h_fd h]
  ∧ handles_made (snd (libevdev_freep w (Some h))) = 0%nat
  ∧ handles_freed (snd (libevdev_freep w (Some h))) = 1%nat.
Proof.
  intros Hne. cbn [libevdev_freep snd].
  destruct (Z.eqb_spec (h_fd h) (-1)) as [|_]; [done|]. cbn [negb].
  by destruct (w_close_ok w (h_fd h)).
Qed.

(** X18: whenever [main] exits, every descriptor it opened has been closed
    and every handle it made has been freed, once each, whichever way the
    run went: usage, wrong arguments, a device that does not open or bind, an
    unknown command, or [detect] or [load] returning true or false. *)
Theorem main_releases_the_device
    (w : world) (argv : list string) (status : Z) (evs : list event) :
  main w argv = Finished (status, evs) →
  opened evs = closed evs
  ∧ handles_made evs = handles_freed evs
  ∧ (length (opened evs) <= 1)%nat.
Proof.
  unfold main. intros Hrun.
  destruct (_ && _); [simplify_eq; cbn; repeat split; lia|].
  destruct (negb _); [simplify_eq; cbn; repeat split; lia|].
  pose proof (open_device_resources w (arg argv 2)) as Hopen.
  destruct (open_device w (arg argv 2)) as [[h|] opening].
  - destruct Hopen as (Hfd & Ho & Hc & Hm & Hf).
    destruct (freep_after_open w h Hfd) as (Fo & Fc & Fm & Ff).
    assert (Hgen : ∀ mid,
      opened mid = [] → closed mid = [] →
      handles_made mid = 0%nat → handles_freed mid = 0%nat →
      opened (opening ++ mid ++ snd (libevdev_freep w (Some h)))
        = closed (opening ++ mid ++ snd (libevdev_freep w (Some h)))
      ∧ handles_made (opening ++ mid ++ snd (libevdev_freep w (Some h)))
        = handles_freed (opening ++ mid ++ snd (libevdev_freep w (Some h)))
      ∧ (length (opened (opening ++ mid ++ snd (libevdev_freep w (Some h))))
         <= 1)%nat).
    { intros mid Mo Mc Mm Mf.
      rewrite !opened_app, !closed_app, !handles_made_app, !handles_freed_app.
      rewrite Ho, Hc, Hm, Hf, Fo, Fc, Fm, Ff, Mo, Mc, Mm, Mf. cbn. done. }
    destruct (streq (arg argv 1) "detect").
    + destruct (detect _ _ _) as [ret st|]; [|done]. simplify_eq.
      destruct (reports_hold_no_resource (c_err st)) as (? & ? & ? & ?).
      by apply Hgen.
    + destruct (streq (arg argv 1) "load").
      * destruct (load _ _ _ _) as [[ret ap]| |]; [|done..]. simplify_eq.
        destruct (reports_hold_no_resource (a_err ap)) as (? & ? & ? & ?).
        by apply Hgen.
      * simplify_eq. by apply (Hgen [EvInvalidCommand (arg argv 1)]).
  - destruct Hopen as (Ho & Hm & Hlen). simplify_eq. cbn [libevdev_freep snd].
    by rewrite app_nil_r.
Qed.

(** X19: the exit status of [main] is 0 or 1, and it is 0 in exactly two
    cases: a help flag was the first argument, or there were four arguments,
    the device opened and bound, and the command was [detect] or [load] and
    returned true. *)
Theorem main_exit_status
    (w : world) (argv : list string) (status : Z) (evs : list event) :
  main w argv = Finished (status, evs) →
  (status = 0 ∨ status = 1)
  ∧ (status = 0 ↔
     help_requested argv = true
     ∨ (length argv = 4%nat
        ∧ w_open w (arg argv 2) ≠ -1
        ∧ 0 <= w_set_fd w (w_open w (arg argv 2))
        ∧ ((arg argv 1 = "detect"%string
            ∧ ∃ st, detect (w_env w) (w_device w) (w_wakes w) = Returned true st)
           ∨ (arg argv 1 = "load"%string
              ∧ ∃ ap, load (w_indet w) (w_fuel w) (w_device w)
                        (w_file w (arg argv 3)) = Finished (true, ap))))).
Proof.
  unfold main. fold (help_requested argv). intros Hrun.
  destruct (help_requested argv) eqn:Hhelp.
  { simplify_eq. split; [by left|]. split; [by left|done]. }
  destruct (Z.eqb_spec (Z.of_nat (length argv)) 4) as [Hlen|Hlen]; cbn [negb] in Hrun.
  2:{ simplify_eq. split; [by right|]. split; [done|].
      intros [?|(Hl & _)]; [done|]. rewrite Hl in Hlen. done. }
  pose proof (open_device_cases w (arg argv 2)) as Hopen.
  destruct (open_device w (arg argv 2)) as [[h|] opening].
  2:{ simplify_eq. split; [by right|]. split; [done|].
      destruct Hopen as [Hfail _].
      intros [?|(_ & Hfd & Hret & _)]; [done|]. lia. }
  destruct Hopen as (Hfd & Hret & _ & Hdev & _). rewrite Hdev in Hrun.
  assert (Hl : length argv = 4%nat) by lia.
  destruct (String.eqb_spec (arg argv 1) "detect") as [Hcmd|Hcmd];
    unfold streq in Hrun.
  - rewrite Hcmd in Hrun. cbn [String.eqb Ascii.eqb Bool.eqb] in Hrun.
    destruct (detect _ _ _) as [ret st|] eqn:Hdet; [|done]. simplify_eq.
    split; [destruct ret; [by left|by right]|]. split.
    + intros Hz. right. destruct ret; [|done].
      repeat split; try done. left. split; [done|]. by exists st.
    + intros [?|(_ & _ & _ & [[_ [st' Hst]]|[Hload _]])]; [done| |].
      * by simplify_eq.
      * rewrite Hcmd in Hload. done.
  - destruct (String.eqb (arg argv 1) "detect") eqn:Heqb;
      [by apply String.eqb_eq in Heqb|].
    destruct (String.eqb_spec (arg argv 1) "load") as [Hcmd2|Hcmd2].
    + destruct (String.eqb (arg argv 1) "load") eqn:Heqb2;
        [|by apply String.eqb_neq in Heqb2].
      destruct (load _ _ _ _) as [[ret ap]| |] eqn:Hload; [|done..]. simplify_eq.
      split; [destruct ret; [by left|by right]|]. split.
      * intros Hz. right. destruct ret; [|done].
        repeat split; try done. right. split; [done|]. by exists ap.
      * intros [?|(_ & _ & _ & [[Hdet _]|[_ [ap' Hap]]])]; [done|done|].
        by simplify_eq.
    + destruct (String.eqb (arg argv 1) "load") eqn:Heqb2;
        [by apply String.eqb_eq in Heqb2|].
      simplify_eq. split; [by right|]. split; [done|].
      intros [?|(_ & _ & _ & [[? _]|[? _]])]; done.
Qed.

(** X20: the command name is looked at only after the device has been
    opened.  With four arguments and a command that is neither [detect] nor
    [load], [main] exits with 1; a device that does not open or bind is
    reported instead of the command, and otherwise the device is opened, the
    command is reported as invalid and the device is closed and freed
    again. *)
Theorem unknown_command_opens_the_device_first
    (w : world) (argv : list string) :
  help_requested argv = false →
  length argv = 4%nat →
  arg argv 1 ≠ "detect"%string →
  arg argv 1 ≠ "load"%string →
  main w argv =
  Finished (1,
    if w_open w (arg argv 2) =? -1 then [EvOpeningDevice]
    else if w_set_fd w (w_open w (arg argv 2)) <? 0 then
      [EvOpen (w_open w (arg argv 2)); EvNew; EvBinding; EvFree;
       EvClose (w_open w (arg argv 2))]
    else
      [EvOpen (w_open w (arg argv 2)); EvNew;
       EvInvalidCommand (arg argv 1); EvClose (w_open w (arg argv 2))]
      ++ (if w_close_ok w (w_open w (arg argv 2)) then []
          else [EvClosingFailed (w_open w (arg argv 2))])
      ++ [EvFree]).
Proof.
  intros Hhelp Hlen Hdet Hload. unfold main. fold (help_requested argv).
  rewrite Hhelp, Hlen. cbn [Z.of_nat Pos.of_succ_nat Pos.succ Z.eqb Pos.eqb negb].
  unfold open_device, streq.
  apply String.eqb_neq in Hdet, Hload.
  destruct (Z.eqb_spec (w_open w (arg argv 2)) (-1)) as [Heq|Hne]; [done|].
  destruct (w_set_fd w (w_open w (arg argv 2)) <? 0); [done|].
  rewrite Hdet, Hload. cbn [libevdev_freep snd h_fd].
  destruct (Z.eqb_spec (w_open w (arg argv 2)) (-1)) as [|_]; [done|].
  cbn [negb]. by destruct (w_close_ok w (w_open w (arg argv 2))).
Qed.

(** ** load: what may follow the last line *)

Lemma map_line_unterminated axis r rest :
  map_line axis r ++ rest = unterminated_line axis r ++ newline :: rest.
Proof.
  rewrite map_line_eq. unfold unterminated_line.
  by rewrite <- !app_assoc.
Qed.

Lemma entries_text_head es c tail :
  isspace c = false →
  ∃ c' rest', entries_text es ++ c :: tail = c' :: rest' ∧ isspace c' = false.
Proof.
  intros Hc. destruct es as [|e es].
  - by exists c, tail.
  - unfold entries_text. cbn [fmap list_fmap concat].
    rewrite <- app_assoc, map_line_eq. cbn [list_ascii_of_string app].
    eexists _, _. split; [reflexivity|reflexivity].
Qed.

Lemma map_line_head axis r rest :
  ∃ rest', map_line axis r ++ rest = "a"%char :: rest'.
Proof. rewrite map_line_eq. cbn [list_ascii_of_string app]. by eexists. Qed.

(** The loop takes the lines at the front of the file one by one. *)
Lemma read_loop_entries_front indet es :
  ∀ tbl fuel iter err c tail,
    Forall entry_valid es →
    Z.of_nat (length tbl) = AXIS_COUNT →
    isspace c = false →
    read_loop indet (length es + fuel) iter
      {| r_fp := {| unread := entries_text es ++ c :: tail; eof_seen := false |};
         r_table := tbl; r_err := err |}
    = read_loop indet fuel (length es + iter)
        {| r_fp := {| unread := c :: tail; eof_seen := false |};
           r_table := store_entries tbl es; r_err := err |}.
Proof.
  induction es as [|[a r] es IH]; intros tbl fuel iter err c tail Hall Hlen Hc;
    [done|].
  apply Forall_cons in Hall as [(Ha & Hmin & Hmax) Hall].
  cbn [fst snd] in Ha, Hmin, Hmax.
  cbn [length Nat.add]. rewrite read_loop_step by done.
  unfold read_body; cbn [r_fp r_table r_err].
  unfold entries_text; cbn [fmap list_fmap concat fst snd].
  rewrite <- app_assoc.
  (rewrite fscanf_map_line_printed;
     [|unfold AXIS_A, AXIS_Z, ABS_X, ABS_RZ in Ha; lia|done|done]).
  change (3 <? 0) with false.
  cbn [store_results lookup list_lookup from_option id l_axis l_min l_max].
  unfold store_range.
  (rewrite bool_decide_true
     by (rewrite Hlen; unfold AXIS_COUNT, AXIS_A, AXIS_Z, ABS_X, ABS_RZ in *;
         lia)).
  change (concat ((λ e, map_line e.1 e.2) <$> es)) with (entries_text es).
  destruct (entries_text_head es c tail Hc) as (c' & rest' & Heq & Hc').
  rewrite Heq, eat_white_nonspace by done. rewrite <- Heq.
  rewrite IH by (done || by rewrite length_set_range).
  f_equal. lia.
Qed.

Lemma skip_spaces_all ws :
  Forall (λ c, isspace c = true) ws → skip_spaces ws = [].
Proof. induction 1 as [|c ws Hc _ IH]; [done|]. cbn. by rewrite Hc. Qed.

Lemma store_entries_snoc tbl es e :
  store_entries tbl (es ++ [e])
  = set_range (store_entries tbl es) (e.1 - AXIS_A) (stored e.2).
Proof. unfold store_entries. by rewrite foldl_app. Qed.

(** X21: white space after the last line of a mapping file (blank lines,
    spaces) does not matter: the file reads into the same table, without a
    report, as the file that ends with its last line. *)
Theorem read_ignores_trailing_white_space
    (indet : nat → locals) (fuel : nat) (es : list (Z * axis_range))
    (e : Z * axis_range) (ws : list ascii) :
  Forall entry_valid (es ++ [e]) →
  Forall (λ c, isspace c = true) ws →
  (length (es ++ [e]) <= fuel)%nat →
  read_table indet fuel (entries_text (es ++ [e]) ++ ws)
  = Finished {| r_fp := {| unread := []; eof_seen := true |};
                r_table := store_entries zero_table (es ++ [e]);
                r_err := [] |}
  ∧ read_table indet fuel (entries_text (es ++ [e]) ++ ws)
    = read_table indet fuel (entries_text (es ++ [e])).
Proof.
  intros Hall Hws Hfuel.
  assert (Hone : ∀ ws', Forall (λ c, isspace c = true) ws' →
    read_table indet fuel (entries_text (es ++ [e]) ++ ws')
    = Finished {| r_fp := {| unread := []; eof_seen := true |};
                  r_table := store_entries zero_table (es ++ [e]);
                  r_err := [] |}).
  { intros ws' Hws'. unfold read_table, fopen_r.
    apply Forall_app in Hall as [Hes He].
    apply Forall_cons in He as [(Ha & Hmin & Hmax) _].
    rewrite length_app in Hfuel. cbn [length] in Hfuel.
    replace fuel with (length es + (1 + (fuel - length es - 1)))%nat by lia.
    unfold entries_text. rewrite fmap_app, concat_app, <- app_assoc.
    cbn [fmap list_fmap concat]. rewrite app_nil_r.
    fold (entries_text es).
    destruct (map_line_head e.1 e.2 ws') as (rest' & Heq).
    rewrite Heq.
    rewrite read_loop_entries_front
      by (done || reflexivity || by rewrite length_zero_table).
    rewrite <- Heq.
    cbn [Nat.add]. rewrite read_loop_step by done.
    unfold read_body; cbn [r_fp r_table r_err].
    (rewrite fscanf_map_line_printed;
       [|unfold AXIS_A, AXIS_Z, ABS_X, ABS_RZ in Ha; lia|done|done]).
    change (3 <? 0) with false.
    cbn [store_results lookup list_lookup from_option id l_axis l_min l_max].
    unfold store_range.
    rewrite bool_decide_true.
    2:{ rewrite length_store_entries, length_zero_table.
        unfold AXIS_A, AXIS_Z, ABS_X, ABS_RZ in *. lia. }
    unfold eat_white, after_read. cbn [unread eof_seen].
    rewrite skip_spaces_all by done. cbn [is_nil orb].
    rewrite read_loop_eof by done. by rewrite store_entries_snoc. }
  split; [by apply Hone|].
  rewrite (Hone ws Hws). rewrite <- (app_nil_r (entries_text (es ++ [e]))).
  by rewrite (Hone [] (Forall_nil_2 _)).
Qed.

Lemma read_number_printed_eof e n :
  0 <= n →
  read_number {| unread := print_unsigned n; eof_seen := e |}
  = (Some (false, n), {| unread := []; eof_seen := true |}).
Proof.
  intros Hn.
  destruct (print_unsigned_spec n Hn) as (Hall & Hval & _).
  destruct (print_unsigned_head n Hn) as (d & ds & Hprint & Hd).
  destruct (isdigit_not_sign d Hd) as [Hminus Hplus].
  unfold read_number. cbn [unread]. rewrite Hprint at 1.
  rewrite Hminus, Hplus.
  rewrite <- (app_nil_r (print_unsigned n)).
  rewrite read_digits_app by done. rewrite Hval.
  cbn [read_digits]. rewrite app_nil_r.
  rewrite bool_decide_false.
  - unfold after_read. cbn [eof_seen is_nil]. by rewrite orb_true_r.
  - rewrite Hprint. cbn. lia.
Qed.

Lemma eat_white_printed_eof e n :
  0 <= n →
  eat_white {| unread := print_unsigned n; eof_seen := e |}
  = {| unread := print_unsigned n; eof_seen := e |}.
Proof.
  intros Hn. rewrite <- (app_nil_r (print_unsigned n)).
  by apply eat_white_printed.
Qed.

Lemma vfscanf_conv_u_eof ds e n done :
  is_uint32 n →
  vfscanf (Conv_u :: ds) {| unread := print_unsigned n; eof_seen := e |} done
  = vfscanf ds {| unread := []; eof_seen := true |} (done ++ [n]).
Proof.
  intros Hn. assert (0 <= n) by (unfold is_uint32 in Hn; lia).
  cbn [vfscanf]. rewrite eat_white_printed_eof by done.
  rewrite read_number_printed_eof by done.
  destruct (print_unsigned_head n) as (d & ds' & -> & _); [done|].
  cbn [unread is_nil]. by rewrite to_uint32_small.
Qed.

(** [fscanf] on a last line that the end of the file cuts right after its
    third field. *)
Lemma fscanf_unterminated_line axis r :
  0 <= axis < 2 ^ 31 → is_uint32 (min r) → is_uint32 (max r) →
  fscanf_map_line {| unread := unterminated_line axis r; eof_seen := false |}
  = (3, [axis; min r; max r], {| unread := []; eof_seen := true |}).
Proof.
  intros Hax Hmin Hmax. unfold fscanf_map_line, map_line_directives.
  assert (0 <= min r ∧ 0 <= max r) as [? ?] by (unfold is_uint32 in *; lia).
  unfold unterminated_line. rewrite print_signed_nonneg by lia.
  cbn [list_ascii_of_string app].
  repeat first
    [ rewrite vfscanf_ordinary
    | rewrite vfscanf_white by reflexivity
    | rewrite eat_white_printed by lia
    | rewrite eat_white_printed_eof by lia
    | rewrite eat_white_nonspace by reflexivity
    | rewrite vfscanf_conv_d by (done || reflexivity)
    | rewrite vfscanf_conv_u by (done || reflexivity)
    | rewrite vfscanf_conv_u_eof by done ].
  reflexivity.
Qed.

(** X22: the newline at the end of the last line is not needed: a mapping
    file that ends right after the max of its last line reads into the same
    table, without a report, as the file with the newline. *)
Theorem read_accepts_missing_final_newline
    (indet : nat → locals) (fuel : nat) (es : list (Z * axis_range))
    (e : Z * axis_range) :
  Forall entry_valid (es ++ [e]) →
  (length (es ++ [e]) <= fuel)%nat →
  read_table indet fuel (entries_text es ++ unterminated_line e.1 e.2)
  = Finished {| r_fp := {| unread := []; eof_seen := true |};
                r_table := store_entries zero_table (es ++ [e]);
                r_err := [] |}
  ∧ entries_text (es ++ [e])
    = entries_text es ++ unterminated_line e.1 e.2 ++ [newline].
Proof.
  intros Hall Hfuel. split.
  - unfold read_table, fopen_r.
    apply Forall_app in Hall as [Hes He].
    apply Forall_cons in He as [(Ha & Hmin & Hmax) _].
    rewrite length_app in Hfuel. cbn [length] in Hfuel.
    replace fuel with (length es + (1 + (fuel - length es - 1)))%nat by lia.
    assert (Hhead : ∃ rest', unterminated_line e.1 e.2 = "a"%char :: rest')
      by (unfold unterminated_line; cbn [list_ascii_of_string app]; by eexists).
    destruct Hhead as (rest' & Heq). rewrite Heq.
    rewrite read_loop_entries_front
      by (done || reflexivity || by rewrite length_zero_table).
    rewrite <- Heq.
    cbn [Nat.add]. rewrite read_loop_step by done.
    unfold read_body; cbn [r_fp r_table r_err].
    (rewrite fscanf_unterminated_line;
       [|unfold AXIS_A, AXIS_Z, ABS_X, ABS_RZ in Ha; lia|done|done]).
    change (3 <? 0) with false.
    cbn [store_results lookup list_lookup from_option id l_axis l_min l_max].
    unfold store_range.
    rewrite bool_decide_true.
    2:{ rewrite length_store_entries, length_zero_table.
        unfold AXIS_A, AXIS_Z, ABS_X, ABS_RZ in *. lia. }
    rewrite read_loop_eof by done. by rewrite store_entries_snoc.
  - unfold entries_text. rewrite fmap_app, concat_app.
    cbn [fmap list_fmap concat]. rewrite app_nil_r.
    by rewrite <- (app_nil_r (map_line e.1 e.2)), map_line_unterminated.
Qed.

(** ** detect: failures before the table is printed *)

Lemma wait_loop_false_unwritten env wakes :
  ∀ st st', c_out st = [] →
    wait_loop env wakes st = Returned false st' →
    c_out st' = [] ∨ MsgWritingLine ∈ c_err st'.
Proof.
  induction wakes as [|w wakes IH]; intros st st' Hout Hrun; [done|].
  destruct w as [|dev_in sig_in next]; cbn [wait_loop] in Hrun.
  { simplify_eq. by left. }
  destruct sig_in.
  { pose proof (write_loop_cases env axis_codes st) as Hw.
    destruct (write_loop env axis_codes st) as [[] st2]; [done|].
    destruct Hw as (? & ? & ? & _ & _ & _ & _ & ->). simplify_eq. right.
    cbn [c_err]. apply elem_of_app. right. apply list_elem_of_here. }
  destruct dev_in; [|simplify_eq; by left].
  destruct next as [| |event]; [simplify_eq; by left|by apply (IH st)|].
  destruct (ignored event); [by apply (IH st)|].
  destruct (negb (present (range_at (c_table st) (ev_code event - AXIS_A))));
    [simplify_eq; by left|].
  by apply IH in Hrun.
Qed.

(** X23: apart from a failing [fprintf], every failure of [detect] comes
    before anything is printed: when [detect] returns false and its report
    is not the one of a failed write, it has written nothing to the file it
    opened. *)
Theorem detect_failure_leaves_file_unwritten
    (env : detect_env) (dev : libevdev) (wakes : list wake) (st : capture) :
  detect env dev wakes = Returned false st →
  MsgWritingLine ∉ c_err st →
  c_out st = [].
Proof.
  unfold detect. intros Hrun Hmsg.
  destruct (negb (fopen_ok env)); [by simplify_eq|].
  destruct (negb (sigprocmask_ok env)); [by simplify_eq|].
  destruct (negb (signalfd_ok env)); [by simplify_eq|].
  by apply wait_loop_false_unwritten in Hrun as [?|?].
Qed.

(** ** The theorems at concrete inputs *)

Lemma env_ok_all_ok : env_ok all_ok.
Proof. by repeat split. Defined.

(** The file [detect] leaves for [stick] when SIGINT comes first. *)
Example stick_cancelled_at_once :
  detect all_ok stick [Woken false true ReadSync] =
  Returned true
    {| c_table := init_table stick;
       c_out := lines ["axis 0: min = 65535, max = 0"%string;
                       "axis 1: min = 65535, max = 0"%string];
       c_err := [] |}.
Proof. vm_compute. reflexivity. Qed.

(** A table with two present axes read back from its file. *)
Example round_trip_two_axes :
  read_table no_garbage 6
    (write_table [ {| present := true; min := 12; max := 4000 |}; zero_range;
                   zero_range; {| present := true; min := 0; max := 65535 |};
                   zero_range; zero_range ])
  = Finished
      {| r_fp := {| unread := []; eof_seen := true |};
         r_table := [ {| present := true; min := 12; max := 4000 |}; zero_range;
                      zero_range; {| present := true; min := 0; max := 65535 |};
                      zero_range; zero_range ];
         r_err := [] |}.
Proof. vm_compute. reflexivity. Qed.

Lemma cancel_first_writes_sentinels_witness :
  env_ok all_ok
  ∧ (detect all_ok stick [Woken false true ReadSync] =
       Returned true
         {| c_table := init_table stick;
            c_out :=
              concat (sentinel_line <$>
                filter (λ axis, libevdev_has_event_code stick EV_ABS axis = true)
                  axis_codes);
            c_err := [] |}
     ∧ max sentinel_range < min sentinel_range).
Proof.
  split; [exact env_ok_all_ok|].
  exact (cancel_first_writes_sentinels all_ok stick false ReadSync []
           env_ok_all_ok).
Defined.

Lemma four_samples_any_order_witness :
  env_ok all_ok
  ∧ AXIS_A <= 1 <= AXIS_Z
  ∧ libevdev_has_event_code stick EV_ABS 1 = true
  ∧ detect all_ok stick mixed_session = Polling after_mixed_session
  ∧ samples_for 1 mixed_session ≡ₚ [300; 50; 900; 500]
  ∧ ∃ st,
      detect all_ok stick (mixed_session ++ Woken false true ReadSync :: [])
        = Returned true st
      ∧ range_at (c_table st) (1 - AXIS_A)
        = {| present := true; min := 50; max := 900 |}
      ∧ c_out st = write_table (c_table st).
Proof.
  assert (Hax : AXIS_A <= 1 <= AXIS_Z) by (vm_compute; split; discriminate).
  assert (Hhas : libevdev_has_event_code stick EV_ABS 1 = true)
    by (vm_compute; reflexivity).
  assert (Hrun : detect all_ok stick mixed_session = Polling after_mixed_session)
    by (vm_compute; reflexivity).
  assert (Hperm : samples_for 1 mixed_session ≡ₚ [300; 50; 900; 500])
    by (change (samples_for 1 mixed_session) with [50; 300; 900; 500];
        apply perm_swap).
  split; [exact env_ok_all_ok|]. split; [exact Hax|].
  split; [exact Hhas|]. split; [exact Hrun|]. split; [exact Hperm|].
  exact (four_samples_any_order all_ok stick 1 mixed_session
           after_mixed_session false ReadSync [] env_ok_all_ok Hax Hhas Hrun
           Hperm).
Defined.

Lemma sample_for_absent_axis_aborts_witness :
  detect all_ok stick [sample 0 5] = Polling after_one_sample
  ∧ ev_type (mk_event EV_ABS 3 7) = EV_ABS
  ∧ AXIS_A <= ev_code (mk_event EV_ABS 3 7) <= AXIS_Z
  ∧ present (range_at (c_table after_one_sample)
               (ev_code (mk_event EV_ABS 3 7) - AXIS_A)) = false
  ∧ (detect all_ok stick
       ([sample 0 5] ++ Woken true false (ReadSuccess (mk_event EV_ABS 3 7))
          :: [sample 0 9; Woken false true ReadSync])
       = Returned false (complain after_one_sample (MsgInternalError 3))
     ∧ c_out (complain after_one_sample (MsgInternalError 3)) = []).
Proof.
  assert (H1 : detect all_ok stick [sample 0 5] = Polling after_one_sample)
    by (vm_compute; reflexivity).
  assert (H2 : ev_type (mk_event EV_ABS 3 7) = EV_ABS) by reflexivity.
  assert (H3 : AXIS_A <= ev_code (mk_event EV_ABS 3 7) <= AXIS_Z)
    by (vm_compute; split; discriminate).
  assert (H4 : present (range_at (c_table after_one_sample)
                 (ev_code (mk_event EV_ABS 3 7) - AXIS_A)) = false)
    by reflexivity.
  split; [exact H1|]. split; [exact H2|]. split; [exact H3|].
  split; [exact H4|].
  exact (sample_for_absent_axis_aborts all_ok stick [sample 0 5]
           after_one_sample (mk_event EV_ABS 3 7)
           [sample 0 9; Woken false true ReadSync] H1 H2 H3 H4).
Defined.

Lemma negative_sample_goes_to_max_witness :
  is_int32 (-3) ∧ -3 < 0 ∧ min sentinel_range <= USHRT_MAX
  ∧ (to_uint32 (-3) = (-3) mod 2 ^ 32 ∧ 2 ^ 31 <= to_uint32 (-3)
     ∧ min (observe sentinel_range (-3)) = min sentinel_range
     ∧ max (observe sentinel_range (-3))
       = Z.max (max sentinel_range) (to_uint32 (-3))
     ∧ (max sentinel_range <= to_uint32 (-3) →
        max (observe sentinel_range (-3)) = to_uint32 (-3)))
  ∧ (min (foldl observe sentinel_range (300 :: [50])) = foldl Z.min 300 [50] →
     max (foldl observe sentinel_range (300 :: [50])) = foldl Z.max 300 [50] →
     Forall (λ s, 0 <= s) (300 :: [50])).
Proof.
  assert (H1 : is_int32 (-3)) by (vm_compute; split; [discriminate|reflexivity]).
  assert (H2 : -3 < 0) by reflexivity.
  assert (H3 : min sentinel_range <= USHRT_MAX) by (vm_compute; discriminate).
  split; [exact H1|]. split; [exact H2|]. split; [exact H3|].
  exact (negative_sample_goes_to_max sentinel_range (-3) 300 [50] H1 H2 H3).
Defined.

(** The empty file, and a file cut before its first number, loaded onto
    [calibrated_stick] while the locals hold axis 1, min 70 and max 9: [load]
    returns true and the range of ABS_Y, which neither file names, has gone
    from (-128, 127) to (70, 9). *)
Example empty_file_resets_axis_y :
  load stale_locals 1 calibrated_stick (Some [])
    = Finished (true,
        {| a_dev :=
             libevdev_set_abs_maximum
               (libevdev_set_abs_minimum calibrated_stick 1 70) 1 9;
           a_calls := [SetAbsMinimum 1 70; SetAbsMaximum 1 9];
           a_err := [MsgReadingLine] |})
  ∧ load stale_locals 1 calibrated_stick (Some (list_ascii_of_string "axis"))
    = load stale_locals 1 calibrated_stick (Some [])
  ∧ libevdev_get_abs_info calibrated_stick 1
    = {| minimum := -128; maximum := 127 |}
  ∧ libevdev_get_abs_info
      (libevdev_set_abs_maximum
         (libevdev_set_abs_minimum calibrated_stick 1 70) 1 9) 1
    = {| minimum := 70; maximum := 9 |}.
Proof. repeat split; vm_compute; reflexivity. Qed.

Lemma empty_file_load_sets_an_axis_witness :
  AXIS_A <= l_axis (stale_locals 0%nat) <= AXIS_Z
  ∧ libevdev_has_event_code calibrated_stick EV_ABS (l_axis (stale_locals 0%nat))
    = true
  ∧ ∃ ap,
      load stale_locals 1 calibrated_stick (Some []) = Finished (true, ap)
      ∧ a_err ap = [MsgReadingLine]
      ∧ a_calls ap =
          [ SetAbsMinimum (l_axis (stale_locals 0%nat))
              (to_int32 (l_min (stale_locals 0%nat)));
            SetAbsMaximum (l_axis (stale_locals 0%nat))
              (to_int32 (l_max (stale_locals 0%nat))) ]
      ∧ libevdev_get_abs_info (a_dev ap) (l_axis (stale_locals 0%nat))
        = {| minimum := to_int32 (l_min (stale_locals 0%nat));
             maximum := to_int32 (l_max (stale_locals 0%nat)) |}
      ∧ ∀ a, a ≠ l_axis (stale_locals 0%nat) →
          abs_info (a_dev ap) !! a = abs_info calibrated_stick !! a.
Proof.
  assert (H1 : AXIS_A <= l_axis (stale_locals 0%nat) <= AXIS_Z)
    by (vm_compute; split; discriminate).
  assert (H2 : libevdev_has_event_code calibrated_stick EV_ABS
                 (l_axis (stale_locals 0%nat)) = true)
    by (vm_compute; reflexivity).
  split; [exact H1|]. split; [exact H2|].
  exact (empty_file_load_sets_an_axis stale_locals 0 calibrated_stick H1 H2).
Defined.

Lemma mismatch_stops_at_first_missing_axis_witness :
  read_table no_garbage 3
    (lines ["axis 0: min = 1, max = 2"%string; "axis 1: min = 3, max = 4"%string])
    = Finished read_two_lines
  ∧ 1 ∈ axis_codes
  ∧ present (range_at (r_table read_two_lines) (1 - AXIS_A)) = true
  ∧ libevdev_has_event_code x_only EV_ABS 1 = false
  ∧ ∃ before bad after ap,
      axis_codes = before ++ bad :: after
      ∧ present (range_at (r_table read_two_lines) (bad - AXIS_A)) = true
      ∧ libevdev_has_event_code x_only EV_ABS bad = false
      ∧ (∀ a, a ∈ before →
           present (range_at (r_table read_two_lines) (a - AXIS_A)) = true →
           libevdev_has_event_code x_only EV_ABS a = true)
      ∧ load no_garbage 3 x_only
          (Some (lines ["axis 0: min = 1, max = 2"%string;
                        "axis 1: min = 3, max = 4"%string]))
          = Finished (false, ap)
      ∧ a_err ap = r_err read_two_lines ++ [MsgAxisNotInDevice bad]
      ∧ bits (a_dev ap) = bits x_only
      ∧ a_calls ap =
          present_axes (r_table read_two_lines) before
            ≫= calls_for (r_table read_two_lines)
      ∧ (∀ a, a ∈ before →
           present (range_at (r_table read_two_lines) (a - AXIS_A)) = true →
           libevdev_get_abs_info (a_dev ap) a
           = applied (range_at (r_table read_two_lines) (a - AXIS_A)))
      ∧ (∀ a, a ∉ before
              ∨ present (range_at (r_table read_two_lines) (a - AXIS_A)) = false →
           abs_info (a_dev ap) !! a = abs_info x_only !! a)
      ∧ (∀ a, a = bad ∨ a ∈ after →
           Forall (λ c, call_code c ≠ a) (a_calls ap)
           ∧ abs_info (a_dev ap) !! a = abs_info x_only !! a).
Proof.
  assert (H1 : read_table no_garbage 3
                 (lines ["axis 0: min = 1, max = 2"%string;
                         "axis 1: min = 3, max = 4"%string])
               = Finished read_two_lines) by (vm_compute; reflexivity).
  assert (H2 : 1 ∈ axis_codes)
    by (rewrite axis_codes_value; apply list_elem_of_further, list_elem_of_here).
  assert (H3 : present (range_at (r_table read_two_lines) (1 - AXIS_A)) = true)
    by reflexivity.
  assert (H4 : libevdev_has_event_code x_only EV_ABS 1 = false)
    by (vm_compute; reflexivity).
  split; [exact H1|]. split; [exact H2|]. split; [exact H3|].
  split; [exact H4|].
  exact (mismatch_stops_at_first_missing_axis no_garbage 3 x_only _
           read_two_lines 1 H1 H2 H3 H4).
Defined.

(** ** The further properties at concrete inputs *)

Lemma recorded_range_brackets_samples_witness :
  detect all_ok stick mixed_session = Polling after_mixed_session
  ∧ AXIS_A <= 1 <= AXIS_Z
  ∧ libevdev_has_event_code stick EV_ABS 1 = true
  ∧ (min (range_at (c_table after_mixed_session) (1 - AXIS_A))
       = foldl Z.min USHRT_MAX (to_uint32 <$> samples_for 1 mixed_session)
     ∧ max (range_at (c_table after_mixed_session) (1 - AXIS_A))
       = foldl Z.max 0 (to_uint32 <$> samples_for 1 mixed_session)
     ∧ Forall (λ v, min (range_at (c_table after_mixed_session) (1 - AXIS_A))
                    <= to_uint32 v
                    <= max (range_at (c_table after_mixed_session) (1 - AXIS_A)))
         (samples_for 1 mixed_session)
     ∧ (samples_for 1 mixed_session ≠ [] →
        min (range_at (c_table after_mixed_session) (1 - AXIS_A))
        <= max (range_at (c_table after_mixed_session) (1 - AXIS_A)))).
Proof.
  assert (H1 : detect all_ok stick mixed_session = Polling after_mixed_session)
    by (vm_compute; reflexivity).
  assert (H2 : AXIS_A <= 1 <= AXIS_Z) by (vm_compute; split; discriminate).
  assert (H3 : libevdev_has_event_code stick EV_ABS 1 = true)
    by (vm_compute; reflexivity).
  split; [exact H1|]. split; [exact H2|]. split; [exact H3|].
  exact (recorded_range_brackets_samples all_ok stick mixed_session
           after_mixed_session 1 H1 H2 H3).
Defined.

Lemma detect_passes_over_skipped_witness :
  Forall (λ w, skipped w = true)
    [Woken true false ReadSync; Woken true false (ReadSuccess (mk_event 1 288 1))]
  ∧ detect all_ok stick
      ([Woken true false ReadSync;
        Woken true false (ReadSuccess (mk_event 1 288 1))] ++ [sample 0 5])
    = detect all_ok stick [sample 0 5].
Proof.
  assert (H1 : Forall (λ w, skipped w = true)
                 [Woken true false ReadSync;
                  Woken true false (ReadSuccess (mk_event 1 288 1))])
    by (repeat constructor).
  split; [exact H1|].
  exact (detect_passes_over_skipped all_ok stick _ [sample 0 5] H1).
Defined.

Lemma detect_true_only_on_sigint_witness :
  detect all_ok stick (mixed_session ++ [interrupt])
    = Returned true mixed_session_result
  ∧ (fopen_ok all_ok = true ∧ sigprocmask_ok all_ok = true
     ∧ signalfd_ok all_ok = true
     ∧ (∃ pre dev_in next rest st1,
          mixed_session ++ [interrupt] = pre ++ Woken dev_in true next :: rest
          ∧ detect all_ok stick pre = Polling st1
          ∧ c_table mixed_session_result = c_table st1)
     ∧ ∀ a, a ∈ axis_codes →
         present (range_at (c_table mixed_session_result) (a - AXIS_A)) = true →
         fprintf_ok all_ok a = true).
Proof.
  assert (H1 : detect all_ok stick (mixed_session ++ [interrupt])
               = Returned true mixed_session_result)
    by (vm_compute; reflexivity).
  split; [exact H1|].
  exact (detect_true_only_on_sigint all_ok stick _ mixed_session_result H1).
Defined.

Lemma detect_return_is_final_witness :
  detect all_ok stick (mixed_session ++ [interrupt])
    = Returned true mixed_session_result
  ∧ detect all_ok stick ((mixed_session ++ [interrupt]) ++ [sample 0 9; PollFailed])
    = Returned true mixed_session_result.
Proof.
  assert (H1 : detect all_ok stick (mixed_session ++ [interrupt])
               = Returned true mixed_session_result)
    by (vm_compute; reflexivity).
  split; [exact H1|].
  exact (detect_return_is_final all_ok stick _ [sample 0 9; PollFailed] true
           mixed_session_result H1).
Defined.

Lemma detect_write_failure_keeps_partial_file_witness :
  detect fails_on_y stick mixed_session = Polling after_mixed_session
  ∧ axis_codes = [0] ++ 1 :: [2; 3; 4; 5]
  ∧ Forall (λ b, present (range_at (c_table after_mixed_session) (b - AXIS_A))
                   = true → fprintf_ok fails_on_y b = true) [0]
  ∧ present (range_at (c_table after_mixed_session) (1 - AXIS_A)) = true
  ∧ fprintf_ok fails_on_y 1 = false
  ∧ detect fails_on_y stick (mixed_session ++ Woken false true ReadSync :: [])
    = Returned false
        {| c_table := c_table after_mixed_session;
           c_out := table_lines (c_table after_mixed_session) [0];
           c_err := [MsgWritingLine] |}.
Proof.
  assert (H1 : detect fails_on_y stick mixed_session = Polling after_mixed_session)
    by (vm_compute; reflexivity).
  assert (H2 : axis_codes = [0] ++ 1 :: [2; 3; 4; 5]) by reflexivity.
  assert (H3 : Forall (λ b, present (range_at (c_table after_mixed_session)
                                       (b - AXIS_A)) = true →
                            fprintf_ok fails_on_y b = true) [0])
    by (repeat constructor).
  assert (H4 : present (range_at (c_table after_mixed_session) (1 - AXIS_A)) = true)
    by reflexivity.
  assert (H5 : fprintf_ok fails_on_y 1 = false) by reflexivity.
  split; [exact H1|]. split; [exact H2|]. split; [exact H3|].
  split; [exact H4|]. split; [exact H5|].
  exact (detect_write_failure_keeps_partial_file fails_on_y stick mixed_session
           after_mixed_session false ReadSync [] [0] 1 [2; 3; 4; 5]
           H1 H2 H3 H4 H5).
Defined.

Lemma x_only_supports_read_one_line :
  ∀ a, a ∈ axis_codes →
       present (range_at (r_table read_one_line) (a - AXIS_A)) = true →
       libevdev_has_event_code x_only EV_ABS a = true.
Proof.
  intros a Hin Hp. rewrite axis_codes_value in Hin.
  repeat (apply elem_of_cons in Hin as [->|Hin]; [by vm_compute in Hp|]).
  by apply elem_of_nil in Hin.
Defined.

Lemma load_applies_supported_table_witness :
  read_table no_garbage 3 (lines ["axis 0: min = 1, max = 2"%string])
    = Finished read_one_line
  ∧ (∀ a, a ∈ axis_codes →
          present (range_at (r_table read_one_line) (a - AXIS_A)) = true →
          libevdev_has_event_code x_only EV_ABS a = true)
  ∧ ∃ ap,
      load no_garbage 3 x_only (Some (lines ["axis 0: min = 1, max = 2"%string]))
        = Finished (true, ap)
      ∧ a_err ap = r_err read_one_line
      ∧ bits (a_dev ap) = bits x_only
      ∧ a_calls ap =
          present_axes (r_table read_one_line) axis_codes
            ≫= calls_for (r_table read_one_line)
      ∧ ∀ a, a ∈ axis_codes →
          present (range_at (r_table read_one_line) (a - AXIS_A)) = true →
          libevdev_get_abs_info (a_dev ap) a
          = applied (range_at (r_table read_one_line) (a - AXIS_A)).
Proof.
  assert (H1 : read_table no_garbage 3 (lines ["axis 0: min = 1, max = 2"%string])
               = Finished read_one_line) by (vm_compute; reflexivity).
  split; [exact H1|]. split; [exact x_only_supports_read_one_line|].
  exact (load_applies_supported_table no_garbage 3 x_only _ read_one_line H1
           x_only_supports_read_one_line).
Defined.

Lemma load_keeps_event_bits_witness :
  load no_garbage 3 x_only
    (Some (lines ["axis 0: min = 1, max = 2"%string;
                  "axis 1: min = 3, max = 4"%string]))
    = Finished (false, x_only_mismatch)
  ∧ (bits (a_dev x_only_mismatch) = bits x_only
     ∧ ∀ type code,
         libevdev_has_event_code (a_dev x_only_mismatch) type code
         = libevdev_has_event_code x_only type code).
Proof.
  assert (H1 : load no_garbage 3 x_only
                 (Some (lines ["axis 0: min = 1, max = 2"%string;
                               "axis 1: min = 3, max = 4"%string]))
               = Finished (false, x_only_mismatch)) by (vm_compute; reflexivity).
  split; [exact H1|].
  exact (load_keeps_event_bits no_garbage 3 x_only _ false x_only_mismatch H1).
Defined.

Lemma three_entries_valid : Forall entry_valid three_entries.
Proof.
  repeat constructor; vm_compute; (discriminate || reflexivity).
Defined.

Lemma two_entries_valid : Forall entry_valid two_entries.
Proof.
  repeat constructor; vm_compute; (discriminate || reflexivity).
Defined.

Lemma read_last_line_wins_witness :
  Forall entry_valid three_entries
  ∧ (length three_entries <= 3)%nat
  ∧ ∃ rd,
      read_table no_garbage 3 (entries_text three_entries) = Finished rd
      ∧ r_err rd = []
      ∧ r_table rd = store_entries zero_table three_entries
      ∧ (∀ es1 a r es2,
           three_entries = es1 ++ (a, r) :: es2 → a ∉ es2.*1 →
           range_at (r_table rd) (a - AXIS_A)
           = {| present := true; min := min r; max := max r |})
      ∧ (∀ a, AXIS_A <= a <= AXIS_Z → a ∉ three_entries.*1 →
           range_at (r_table rd) (a - AXIS_A) = zero_range).
Proof.
  assert (H2 : (length three_entries <= 3)%nat) by (vm_compute; lia).
  split; [exact three_entries_valid|]. split; [exact H2|].
  exact (read_last_line_wins no_garbage 3 _ _ three_entries_valid H2).
Defined.

Lemma read_order_of_lines_irrelevant_witness :
  two_entries ≡ₚ two_entries_swapped
  ∧ NoDup two_entries.*1
  ∧ Forall entry_valid two_entries
  ∧ two_entries ≠ []
  ∧ (length two_entries <= 2)%nat
  ∧ ∃ tbl,
      read_table no_garbage 2 (entries_text two_entries)
        = Finished {| r_fp := {| unread := []; eof_seen := true |};
                      r_table := tbl; r_err := [] |}
      ∧ read_table no_garbage 2 (entries_text two_entries_swapped)
        = Finished {| r_fp := {| unread := []; eof_seen := true |};
                      r_table := tbl; r_err := [] |}.
Proof.
  assert (H1 : two_entries ≡ₚ two_entries_swapped) by apply perm_swap.
  assert (H2 : NoDup two_entries.*1)
    by (change (NoDup [0; 1]); apply (bool_decide_unpack _); vm_compute;
        exact I).
  assert (H4 : two_entries ≠ []) by discriminate.
  assert (H5 : (length two_entries <= 2)%nat) by (vm_compute; lia).
  split; [exact H1|]. split; [exact H2|]. split; [exact two_entries_valid|].
  split; [exact H4|]. split; [exact H5|].
  exact (read_order_of_lines_irrelevant no_garbage 2 two_entries
           two_entries_swapped H1 H2 two_entries_valid H4 H5).
Defined.

Lemma load_twice_is_load_once_witness :
  Forall entry_valid two_entries
  ∧ (length two_entries <= 2)%nat
  ∧ (length two_entries <= 5)%nat
  ∧ load no_garbage 2 stick (Some (entries_text two_entries))
    = Finished (true, stick_applied)
  ∧ ∃ ap2,
      load stale_locals 5 (a_dev stick_applied) (Some (entries_text two_entries))
        = Finished (true, ap2)
      ∧ a_dev ap2 = a_dev stick_applied
      ∧ a_calls ap2 = a_calls stick_applied
      ∧ a_err ap2 = a_err stick_applied.
Proof.
  assert (H2 : (length two_entries <= 2)%nat) by (vm_compute; lia).
  assert (H3 : (length two_entries <= 5)%nat) by (vm_compute; lia).
  assert (H4 : load no_garbage 2 stick (Some (entries_text two_entries))
               = Finished (true, stick_applied)) by (vm_compute; reflexivity).
  split; [exact two_entries_valid|]. split; [exact H2|]. split; [exact H3|].
  split; [exact H4|].
  exact (load_twice_is_load_once no_garbage stale_locals 2 5 stick _ _
           stick_applied two_entries_valid H2 H3 H4).
Defined.

Lemma detect_then_load_witness :
  detect all_ok stick (mixed_session ++ [interrupt])
    = Returned true mixed_session_result
  ∧ (∃ a, a ∈ axis_codes ∧ libevdev_has_event_code stick EV_ABS a = true)
  ∧ (6 <= 6)%nat
  ∧ ∃ ap,
      load no_garbage 6 stick (Some (c_out mixed_session_result))
        = Finished (true, ap)
      ∧ a_err ap = []
      ∧ ∀ a, a ∈ axis_codes → libevdev_has_event_code stick EV_ABS a = true →
          libevdev_get_abs_info (a_dev ap) a
          = applied (range_at (c_table mixed_session_result) (a - AXIS_A)).
Proof.
  assert (H1 : detect all_ok stick (mixed_session ++ [interrupt])
               = Returned true mixed_session_result)
    by (vm_compute; reflexivity).
  assert (H2 : ∃ a, a ∈ axis_codes
                    ∧ libevdev_has_event_code stick EV_ABS a = true).
  { exists 0. split; [rewrite axis_codes_value; apply list_elem_of_here|].
    vm_compute. reflexivity. }
  assert (H3 : (6 <= 6)%nat) by lia.
  split; [exact H1|]. split; [exact H2|]. split; [exact H3|].
  exact (detect_then_load all_ok stick _ mixed_session_result no_garbage 6
           H1 H2 H3).
Defined.

Lemma applied_bound_is_the_sample_witness :
  is_int32 (-3)
  ∧ ((max sentinel_range <= to_uint32 (-3) →
      maximum (applied (observe sentinel_range (-3))) = -3)
     ∧ (to_uint32 (-3) <= min sentinel_range →
        minimum (applied (observe sentinel_range (-3))) = -3)).
Proof.
  assert (H1 : is_int32 (-3)) by (vm_compute; split; [discriminate|reflexivity]).
  split; [exact H1|].
  exact (applied_bound_is_the_sample sentinel_range (-3) H1).
Defined.

Lemma main_releases_the_device_witness :
  main plain_world detect_args
    = Finished (0, [EvOpen 3; EvNew; EvClose 3; EvFree])
  ∧ (opened [EvOpen 3; EvNew; EvClose 3; EvFree]
       = closed [EvOpen 3; EvNew; EvClose 3; EvFree]
     ∧ handles_made [EvOpen 3; EvNew; EvClose 3; EvFree]
       = handles_freed [EvOpen 3; EvNew; EvClose 3; EvFree]
     ∧ (length (opened [EvOpen 3; EvNew; EvClose 3; EvFree]) <= 1)%nat).
Proof.
  assert (H1 : main plain_world detect_args
               = Finished (0, [EvOpen 3; EvNew; EvClose 3; EvFree]))
    by (vm_compute; reflexivity).
  split; [exact H1|].
  exact (main_releases_the_device plain_world detect_args 0 _ H1).
Defined.

Lemma main_exit_status_witness :
  main plain_world detect_args
    = Finished (0, [EvOpen 3; EvNew; EvClose 3; EvFree])
  ∧ ((0 = 0 ∨ 0 = 1)
     ∧ (0 = 0 ↔
        help_requested detect_args = true
        ∨ (length detect_args = 4%nat
           ∧ w_open plain_world (arg detect_args 2) ≠ -1
           ∧ 0 <= w_set_fd plain_world (w_open plain_world (arg detect_args 2))
           ∧ ((arg detect_args 1 = "detect"%string
               ∧ ∃ st, detect (w_env plain_world) (w_device plain_world)
                         (w_wakes plain_world) = Returned true st)
              ∨ (arg detect_args 1 = "load"%string
                 ∧ ∃ ap, load (w_indet plain_world) (w_fuel plain_world)
                           (w_device plain_world)
                           (w_file plain_world (arg detect_args 3))
                         = Finished (true, ap)))))).
Proof.
  assert (H1 : main plain_world detect_args
               = Finished (0, [EvOpen 3; EvNew; EvClose 3; EvFree]))
    by (vm_compute; reflexivity).
  split; [exact H1|].
  exact (main_exit_status plain_world detect_args 0 _ H1).
Defined.

Lemma unknown_command_opens_the_device_first_witness :
  help_requested bogus_args = false
  ∧ length bogus_args = 4%nat
  ∧ arg bogus_args 1 ≠ "detect"%string
  ∧ arg bogus_args 1 ≠ "load"%string
  ∧ main plain_world bogus_args =
    Finished (1,
      if w_open plain_world (arg bogus_args 2) =? -1 then [EvOpeningDevice]
      else if w_set_fd plain_world (w_open plain_world (arg bogus_args 2)) <? 0
      then
        [EvOpen (w_open plain_world (arg bogus_args 2)); EvNew; EvBinding;
         EvFree; EvClose (w_open plain_world (arg bogus_args 2))]
      else
        [EvOpen (w_open plain_world (arg bogus_args 2)); EvNew;
         EvInvalidCommand (arg bogus_args 1);
         EvClose (w_open plain_world (arg bogus_args 2))]
        ++ (if w_close_ok plain_world (w_open plain_world (arg bogus_args 2))
            then []
            else [EvClosingFailed (w_open plain_world (arg bogus_args 2))])
        ++ [EvFree]).
Proof.
  assert (H1 : help_requested bogus_args = false) by reflexivity.
  assert (H2 : length bogus_args = 4%nat) by reflexivity.
  assert (H3 : arg bogus_args 1 ≠ "detect"%string) by discriminate.
  assert (H4 : arg bogus_args 1 ≠ "load"%string) by discriminate.
  split; [exact H1|]. split; [exact H2|]. split; [exact H3|]. split; [exact H4|].
  exact (unknown_command_opens_the_device_first plain_world bogus_args
           H1 H2 H3 H4).
Defined.

Lemma read_ignores_trailing_white_space_witness :
  Forall entry_valid
    ([(0, {| present := true; min := 1; max := 2 |})]
     ++ [(1, {| present := true; min := 3; max := 4 |})])
  ∧ Forall (λ c, isspace c = true) [newline; " "%char]
  ∧ (length ([(0, {| present := true; min := 1; max := 2 |})]
             ++ [(1, {| present := true; min := 3; max := 4 |})]) <= 2)%nat
  ∧ (read_table no_garbage 2
       (entries_text ([(0, {| present := true; min := 1; max := 2 |})]
                      ++ [(1, {| present := true; min := 3; max := 4 |})])
        ++ [newline; " "%char])
     = Finished {| r_fp := {| unread := []; eof_seen := true |};
                   r_table :=
                     store_entries zero_table
                       ([(0, {| present := true; min := 1; max := 2 |})]
                        ++ [(1, {| present := true; min := 3; max := 4 |})]);
                   r_err := [] |}
     ∧ read_table no_garbage 2
         (entries_text ([(0, {| present := true; min := 1; max := 2 |})]
                        ++ [(1, {| present := true; min := 3; max := 4 |})])
          ++ [newline; " "%char])
       = read_table no_garbage 2
           (entries_text ([(0, {| present := true; min := 1; max := 2 |})]
                          ++ [(1, {| present := true; min := 3; max := 4 |})]))).
Proof.
  assert (H2 : Forall (λ c, isspace c = true) [newline; " "%char])
    by (repeat constructor).
  assert (H3 : (length ([(0, {| present := true; min := 1; max := 2 |})]
                        ++ [(1, {| present := true; min := 3; max := 4 |})])
                <= 2)%nat) by (vm_compute; lia).
  split; [exact two_entries_valid|]. split; [exact H2|]. split; [exact H3|].
  exact (read_ignores_trailing_white_space no_garbage 2
           [(0, {| present := true; min := 1; max := 2 |})]
           (1, {| present := true; min := 3; max := 4 |})
           [newline; " "%char] two_entries_valid H2 H3).
Defined.

Lemma read_accepts_missing_final_newline_witness :
  Forall entry_valid
    ([(0, {| present := true; min := 1; max := 2 |})]
     ++ [(1, {| present := true; min := 3; max := 4 |})])
  ∧ (length ([(0, {| present := true; min := 1; max := 2 |})]
             ++ [(1, {| present := true; min := 3; max := 4 |})]) <= 2)%nat
  ∧ (read_table no_garbage 2
       (entries_text [(0, {| present := true; min := 1; max := 2 |})]
        ++ unterminated_line 1 {| present := true; min := 3; max := 4 |})
     = Finished {| r_fp := {| unread := []; eof_seen := true |};
                   r_table :=
                     store_entries zero_table
                       ([(0, {| present := true; min := 1; max := 2 |})]
                        ++ [(1, {| present := true; min := 3; max := 4 |})]);
                   r_err := [] |}
     ∧ entries_text ([(0, {| present := true; min := 1; max := 2 |})]
                     ++ [(1, {| present := true; min := 3; max := 4 |})])
       = (entries_text [(0, {| present := true; min := 1; max := 2 |})]
          ++ (unterminated_line 1 {| present := true; min := 3; max := 4 |}
              ++ [newline]))).
Proof.
  assert (H3 : (length ([(0, {| present := true; min := 1; max := 2 |})]
                        ++ [(1, {| present := true; min := 3; max := 4 |})])
                <= 2)%nat) by (vm_compute; lia).
  split; [exact two_entries_valid|]. split; [exact H3|].
  exact (read_accepts_missing_final_newline no_garbage 2
           [(0, {| present := true; min := 1; max := 2 |})]
           (1, {| present := true; min := 3; max := 4 |})
           two_entries_valid H3).
Defined.

Lemma detect_failure_leaves_file_unwritten_witness :
  detect all_ok stick [PollFailed; interrupt] = Returned false poll_failure_result
  ∧ (MsgWritingLine ∉ c_err poll_failure_result)
  ∧ c_out poll_failure_result = [].
Proof.
  assert (H1 : detect all_ok stick [PollFailed; interrupt]
               = Returned false poll_failure_result)
    by (vm_compute; reflexivity).
  assert (H2 : MsgWritingLine ∉ c_err poll_failure_result).
  { intros Hin. apply list_elem_of_In in Hin. cbn in Hin.
    destruct Hin as [Heq|[]]. discriminate Heq. }
  split; [exact H1|]. split; [exact H2|].
  exact (detect_failure_leaves_file_unwritten all_ok stick _
           poll_failure_result H1 H2).
Defined.

Lemma unmapped_axis_untouched_witness :
  read_table no_garbage 3 (lines ["axis 0: min = 1, max = 2"%string])
    = Finished read_one_line
  ∧ load no_garbage 3 calibrated_stick
      (Some (lines ["axis 0: min = 1, max = 2"%string]))
    = Finished (true, calibrated_stick_applied)
  ∧ (1 ∉ axis_codes
     ∨ present (range_at (r_table read_one_line) (1 - AXIS_A)) = false)
  ∧ (Forall (λ c, call_code c ≠ 1) (a_calls calibrated_stick_applied)
     ∧ abs_info (a_dev calibrated_stick_applied) !! 1
       = abs_info calibrated_stick !! 1
     ∧ libevdev_get_abs_info (a_dev calibrated_stick_applied) 1
       = libevdev_get_abs_info calibrated_stick 1).
Proof.
  assert (H1 : read_table no_garbage 3 (lines ["axis 0: min = 1, max = 2"%string])
               = Finished read_one_line) by (vm_compute; reflexivity).
  assert (H2 : load no_garbage 3 calibrated_stick
                 (Some (lines ["axis 0: min = 1, max = 2"%string]))
               = Finished (true, calibrated_stick_applied))
    by (vm_compute; reflexivity).
  assert (H3 : 1 ∉ axis_codes
               ∨ present (range_at (r_table read_one_line) (1 - AXIS_A)) = false)
    by (right; reflexivity).
  split; [exact H1|]. split; [exact H2|]. split; [exact H3|].
  exact (unmapped_axis_untouched no_garbage 3 calibrated_stick _ read_one_line
           calibrated_stick_applied 1 H1 H2 H3).
Defined.
